(** * LegalLens integrity ledger: a shallow embedding and its properties

    The development follows two source modules of the backend:

    - [app/services/verification_cache.py]: the in-memory verification
      cache with its throttle gate;
    - [app/services/gcul_blockchain_service.py]: envelope encryption,
      hash records, the hash chain and integrity verification.

    Python [bytes] are lists of [byte]; a Python [str] is represented by the
    [string] of its UTF-8 bytes, so that [s.encode('utf-8')] is the
    identity on the underlying bytes and concatenation commutes with
    encoding.  Python floats returned by [time.time()] are dyadic
    rationals; they are modelled in [Q] (the subtraction of two clock
    readings a few seconds apart is exact in binary64).

    [hashlib.sha256] and [base64] are modelled in full.  The clock, the
    random sources, the symmetric cipher and the cloud services (key
    service, bucket, ledger store) are an environment that answers each
    interaction, and may refuse it; the service functions thread a world
    of tables, bucket and cache through their calls and either return a
    value or raise.

    The first part holds the definitions, the second the properties. *)

From Stdlib Require Import ZArith NArith QArith Lqa String Ascii List Sorted Lia.
From Stdlib.Strings Require Import Byte.
From stdpp Require Import gmap strings list pretty.
Import ListNotations.

Local Open Scope string_scope.
Local Open Scope list_scope.

(** ** Bytes and text *)

Abbreviation bytes := (list byte).

(** [str.encode('utf-8')] on the UTF-8 representation. *)
Definition encode_utf8 (s : string) : bytes := list_byte_of_string s.

(** [bytes.decode('utf-8')], used by the source on ASCII data only. *)
Definition decode_utf8 (b : bytes) : string := string_of_list_byte b.

(** ** SHA-256 (hashlib.sha256), after FIPS 180-4 *)

Module SHA256.

Local Open Scope N_scope.

Definition mask32 : N := 4294967295.
Definition wrap32 (x : N) : N := N.land x mask32.
Definition add32 (x y : N) : N := wrap32 (x + y).
Definition rotr (n x : N) : N :=
  N.lor (N.shiftr x n) (wrap32 (N.shiftl x (32 - n))).
Definition not32 (x : N) : N := N.lxor x mask32.

Definition ch (x y z : N) : N := N.lxor (N.land x y) (N.land (not32 x) z).
Definition maj (x y z : N) : N :=
  N.lxor (N.lxor (N.land x y) (N.land x z)) (N.land y z).
Definition bsig0 (x : N) : N := N.lxor (N.lxor (rotr 2 x) (rotr 13 x)) (rotr 22 x).
Definition bsig1 (x : N) : N := N.lxor (N.lxor (rotr 6 x) (rotr 11 x)) (rotr 25 x).
Definition ssig0 (x : N) : N := N.lxor (N.lxor (rotr 7 x) (rotr 18 x)) (N.shiftr x 3).
Definition ssig1 (x : N) : N := N.lxor (N.lxor (rotr 17 x) (rotr 19 x)) (N.shiftr x 10).

(** The constants are the leading 32 bits of the fractional parts of the
    square roots (initial state) and cube roots (round constants) of the
    first primes. *)
Definition primes64 : list N :=
  [2; 3; 5; 7; 11; 13; 17; 19; 23; 29; 31; 37; 41; 43; 47; 53;
   59; 61; 67; 71; 73; 79; 83; 89; 97; 101; 103; 107; 109; 113; 127; 131;
   137; 139; 149; 151; 157; 163; 167; 173; 179; 181; 191; 193; 197; 199;
   211; 223; 227; 229; 233; 239; 241; 251; 257; 263; 269; 271; 277; 281;
   283; 293; 307; 311].

Fixpoint icbrt_bits (fuel : nat) (bit r n : N) : N :=
  match fuel with
  | O => r
  | S fuel' =>
      let c := r + bit in
      icbrt_bits fuel' (N.div2 bit) (if c * c * c <=? n then c else r) n
  end.

(** Integer cube root of numbers below 2^108. *)
Definition icbrt (n : N) : N := icbrt_bits 36 (N.shiftl 1 35) 0 n.

Definition frac_sqrt32 (p : N) : N := wrap32 (N.sqrt (N.shiftl p 64)).
Definition frac_cbrt32 (p : N) : N := wrap32 (icbrt (N.shiftl p 96)).

Definition init_state : list N :=
  Eval vm_compute in map frac_sqrt32 (firstn 8 primes64).
Definition round_constants : list N :=
  Eval vm_compute in map frac_cbrt32 primes64.

(** Padding: a one bit, zero bits up to 56 mod 64, the bit length on 8 bytes. *)
Definition be_bytes (n : nat) (x : N) : bytes :=
  map (fun i => match Byte.of_N (N.land (N.shiftr x (8 * N.of_nat i)) 255) with
                | Some b => b
                | None => x00
                end) (rev (seq 0 n)).

Definition pad (msg : bytes) : bytes :=
  let len := length msg in
  let zeros := ((119 - len mod 64) mod 64)%nat in
  msg ++ [x80] ++ repeat x00 zeros ++ be_bytes 8 (8 * N.of_nat len).

Fixpoint be_word (bs : bytes) (acc : N) : N :=
  match bs with
  | [] => acc
  | b :: bs' => be_word bs' (N.lor (N.shiftl acc 8) (Byte.to_N b))
  end.

Fixpoint words_of (n : nat) (bs : bytes) : list N :=
  match n with
  | O => []
  | S n' => be_word (firstn 4 bs) 0 :: words_of n' (skipn 4 bs)
  end.

(** The message schedule, kept most recent word first while it is built. *)
Fixpoint extend (n : nat) (w : list N) : list N :=
  match n with
  | O => w
  | S n' =>
      let x := add32 (add32 (ssig1 (nth 1 w 0)) (nth 6 w 0))
                     (add32 (ssig0 (nth 14 w 0)) (nth 15 w 0)) in
      extend n' (x :: w)
  end.

Definition schedule (block : bytes) : list N :=
  rev (extend 48 (rev (words_of 16 block))).

Record regs := Regs { ra : N; rb : N; rc : N; rd : N; re : N; rf : N; rg : N; rh : N }.

Definition round (s : regs) (kw : N * N) : regs :=
  let t1 := add32 (add32 (add32 (add32 (rh s) (bsig1 (re s)))
                                (ch (re s) (rf s) (rg s))) (fst kw)) (snd kw) in
  let t2 := add32 (bsig0 (ra s)) (maj (ra s) (rb s) (rc s)) in
  Regs (add32 t1 t2) (ra s) (rb s) (rc s) (add32 (rd s) t1) (re s) (rf s) (rg s).

Definition regs_of (l : list N) : regs :=
  Regs (nth 0 l 0) (nth 1 l 0) (nth 2 l 0) (nth 3 l 0)
       (nth 4 l 0) (nth 5 l 0) (nth 6 l 0) (nth 7 l 0).

Definition list_of (s : regs) : list N :=
  [ra s; rb s; rc s; rd s; re s; rf s; rg s; rh s].

Definition compress (h : regs) (block : bytes) : regs :=
  let s := fold_left round (combine round_constants (schedule block)) h in
  Regs (add32 (ra h) (ra s)) (add32 (rb h) (rb s)) (add32 (rc h) (rc s))
       (add32 (rd h) (rd s)) (add32 (re h) (re s)) (add32 (rf h) (rf s))
       (add32 (rg h) (rg s)) (add32 (rh h) (rh s)).

Fixpoint blocks (n : nat) (h : regs) (bs : bytes) : regs :=
  match n with
  | O => h
  | S n' => blocks n' (compress h (firstn 64 bs)) (skipn 64 bs)
  end.

(** [hashlib.sha256(msg).digest()] *)
Definition digest (msg : bytes) : bytes :=
  let p := pad msg in
  concat (map (be_bytes 4) (list_of (blocks (length p / 64) (regs_of init_state) p))).

End SHA256.

(** ** Hexadecimal rendering ([hexdigest]) *)

Definition hex_digit (n : N) : ascii :=
  match n with
  | 0 => "0" | 1 => "1" | 2 => "2" | 3 => "3" | 4 => "4" | 5 => "5"
  | 6 => "6" | 7 => "7" | 8 => "8" | 9 => "9" | 10 => "a" | 11 => "b"
  | 12 => "c" | 13 => "d" | 14 => "e" | _ => "f"
  end%N%char.

Fixpoint hex_of_bytes (bs : bytes) : string :=
  match bs with
  | [] => EmptyString
  | b :: bs' =>
      String (hex_digit (N.shiftr (Byte.to_N b) 4))
        (String (hex_digit (N.land (Byte.to_N b) 15)) (hex_of_bytes bs'))
  end.

(** [hashlib.sha256(b).digest()] and [hashlib.sha256(b).hexdigest()] *)
Definition sha256_digest (b : bytes) : bytes := SHA256.digest b.
Definition sha256_hexdigest (b : bytes) : string := hex_of_bytes (sha256_digest b).

(** ** Base64 ([base64.b64encode] / [base64.b64decode])

    The encoder is the standard one (RFC 4648 alphabet, [=] padding).  The
    decoder accepts canonical input, which is all the service ever hands to
    it; on anything else it reports failure, where CPython's lenient decoder
    might skip stray characters. *)

Module Base64.

Local Open Scope N_scope.

Definition alphabet : list ascii :=
  list_ascii_of_string
    "ABCDEFGHIJKLMNOPQRSTUVWXYZabcdefghijklmnopqrstuvwxyz0123456789+/".

Definition pad_char : ascii := "="%char.

Definition char_of (n : N) : ascii := nth (N.to_nat n) alphabet pad_char.

Fixpoint index_in (c : ascii) (l : list ascii) (i : N) : option N :=
  match l with
  | [] => None
  | x :: l' => if Ascii.eqb c x then Some i else index_in c l' (N.succ i)
  end.

Definition value_of (c : ascii) : option N := index_in c alphabet 0.

Definition byte_of (n : N) : byte :=
  match Byte.of_N n with Some b => b | None => x00 end.

Fixpoint encode_chars (bs : bytes) : list ascii :=
  match bs with
  | [] => []
  | [a] =>
      let n := Byte.to_N a in
      [char_of (n / 4); char_of ((n mod 4) * 16); pad_char; pad_char]
  | [a; b] =>
      let n := Byte.to_N a * 256 + Byte.to_N b in
      [char_of (n / 1024); char_of ((n / 16) mod 64); char_of ((n mod 16) * 4); pad_char]
  | a :: b :: c :: rest =>
      let n := Byte.to_N a * 65536 + Byte.to_N b * 256 + Byte.to_N c in
      char_of (n / 262144) :: char_of ((n / 4096) mod 64)
        :: char_of ((n / 64) mod 64) :: char_of (n mod 64) :: encode_chars rest
  end.

Definition decode_tail2 (c1 c2 : ascii) : option bytes :=
  match value_of c1, value_of c2 with
  | Some v1, Some v2 => Some [byte_of ((v1 * 64 + v2) / 16)]
  | _, _ => None
  end.

Definition decode_tail3 (c1 c2 c3 : ascii) : option bytes :=
  match value_of c1, value_of c2, value_of c3 with
  | Some v1, Some v2, Some v3 =>
      let n := (v1 * 64 + v2) * 64 + v3 in
      Some [byte_of (n / 1024); byte_of ((n / 4) mod 256)]
  | _, _, _ => None
  end.

Definition decode_quad (c1 c2 c3 c4 : ascii) : option bytes :=
  match value_of c1, value_of c2, value_of c3, value_of c4 with
  | Some v1, Some v2, Some v3, Some v4 =>
      let n := ((v1 * 64 + v2) * 64 + v3) * 64 + v4 in
      Some [byte_of (n / 65536); byte_of ((n / 256) mod 256); byte_of (n mod 256)]
  | _, _, _, _ => None
  end.

Fixpoint decode_chars (cs : list ascii) : option bytes :=
  match cs with
  | [] => Some []
  | c1 :: c2 :: c3 :: c4 :: rest =>
      if Ascii.eqb c4 pad_char then
        match rest with
        | [] => if Ascii.eqb c3 pad_char then decode_tail2 c1 c2
                else decode_tail3 c1 c2 c3
        | _ :: _ => None
        end
      else
        match decode_quad c1 c2 c3 c4, decode_chars rest with
        | Some q, Some r => Some (q ++ r)
        | _, _ => None
        end
  | _ => None
  end.

(** [base64.b64encode(b).decode('utf-8')] *)
Definition b64encode (bs : bytes) : string := string_of_list_ascii (encode_chars bs).

(** [base64.b64decode(s)]; [None] stands for [binascii.Error]. *)
Definition b64decode (s : string) : option bytes := decode_chars (list_ascii_of_string s).

End Base64.

(** ** Python values *)

(** The values found in the dictionaries the service builds and returns. *)
#[warnings="-register-all"]
Inductive PyVal :=
| PyNone
| PyBool (b : bool)
| PyInt (z : Z)
| PyStr (s : string)
| PyDict (d : list (string * PyVal)).

(** A dictionary literal, in insertion order. *)
Abbreviation Dict := (list (string * PyVal)).

(** [d.get(key)] *)
Fixpoint dict_get (key : string) (d : Dict) : option PyVal :=
  match d with
  | [] => None
  | (k, v) :: d' => if String.eqb k key then Some v else dict_get key d'
  end.

(** [d.get(key, default)] *)
Definition dict_get_default (key : string) (default : PyVal) (d : Dict) : PyVal :=
  match dict_get key d with
  | Some v => v
  | None => default
  end.

(** Truth value of an [Optional[Dict]]: [None] and the empty dictionary are falsy. *)
Definition truthy_dict (r : option Dict) : bool :=
  match r with
  | Some (_ :: _) => true
  | _ => false
  end.

(** Truth value of a Python value. *)
Definition truthy (v : PyVal) : bool :=
  match v with
  | PyNone => false
  | PyBool b => b
  | PyInt z => negb (Z.eqb z 0)
  | PyStr s => negb (String.eqb s "")
  | PyDict d => match d with [] => false | _ :: _ => true end
  end.

(** [s.startswith(p)] *)
Fixpoint startswith (s p : string) {struct p} : bool :=
  match p with
  | EmptyString => true
  | String c p' =>
      match s with
      | EmptyString => false
      | String d s' => Ascii.eqb c d && startswith s' p'
      end
  end.

(** Comparison of clock readings. *)
Definition Qltb (x y : Q) : bool := negb (Qle_bool y x).

(** ** verification_cache.py *)

Module VerificationCache.

Record CacheEntry := {
  data : Dict;
  timestamp : Q;
  ttl : Z
}.

(** The two dictionaries of a [VerificationCache] instance.  The
    attributes [default_ttl] and [throttle_window] are assigned once by
    [__init__] and never again; they are the constants below. *)
Record t := {
  _cache : gmap string CacheEntry;
  _request_timestamps : gmap string Q
}.

Definition default_ttl : Z := 3600.
Definition throttle_window : Z := 60.

(** [VerificationCache()] *)
Definition init : t := {| _cache := ∅; _request_timestamps := ∅ |}.

(** [_generate_cache_key(document_id, content_hash=None)]: the test
    [if content_hash] is false for [None] and for the empty string.  The
    slice [content_hash[:16]] is taken here on the UTF-8 form; it is the
    slice on characters when the hash holds ASCII characters only, as the
    hexadecimal digests the service passes do. *)
Definition _generate_cache_key (document_id : string) (content_hash : option string) : string :=
  match content_hash with
  | Some (String _ _ as h) => "verify:" ++ document_id ++ ":" ++ substring 0 16 h
  | _ => "verify:" ++ document_id
  end.

(** [get(document_id, content_hash=None)]; [current_time] is the reading
    [time.time()] gives when the key is present. *)
Definition get (current_time : Q) (document_id : string) (content_hash : option string)
    (self : t) : option Dict * t :=
  let cache_key := _generate_cache_key document_id content_hash in
  match _cache self !! cache_key with
  | None => (None, self)
  | Some entry =>
      if Qltb (inject_Z (ttl entry)) (current_time - timestamp entry)
      then (None, {| _cache := delete cache_key (_cache self);
                     _request_timestamps := _request_timestamps self |})
      else (Some (data entry), self)
  end.

(** [is_throttled(document_id)], with the reading of [time.time()].  The
    test [last_request and ...] is false for [None] and for the float
    [0.0]; the difference is computed only past that test. *)
Definition is_throttled (current_time : Q) (document_id : string) (self : t) : bool * t :=
  let last_request := _request_timestamps self !! document_id in
  if match last_request with
     | Some last =>
         negb (Qeq_bool last 0)
         && Qltb (current_time - last) (inject_Z throttle_window)
     | None => false
     end
  then (true, self)
  else (false, {| _cache := _cache self;
                  _request_timestamps :=
                    <[document_id := current_time]> (_request_timestamps self) |}).

(** [set(document_id, verification_result, content_hash=None, ttl=None)] *)
Definition set (current_time : Q) (document_id : string) (verification_result : Dict)
    (content_hash : option string) (ttl : option Z) (self : t) : t :=
  let cache_key := _generate_cache_key document_id content_hash in
  let ttl := match ttl with
             | Some z => if Z.eqb z 0 then default_ttl else z
             | None => default_ttl
             end in
  let entry := {| data := verification_result; timestamp := current_time; ttl := ttl |} in
  {| _cache := <[cache_key := entry]> (_cache self);
     _request_timestamps := _request_timestamps self |}.

(** [invalidate(document_id)]: the keys are collected first, then deleted. *)
Definition invalidate (document_id : string) (self : t) : t :=
  let keys_to_remove :=
    filter (fun key => startswith key ("verify:" ++ document_id) = true)
           (map_to_list (_cache self)).*1 in
  {| _cache := foldr delete (_cache self) keys_to_remove;
     _request_timestamps := _request_timestamps self |}.

(** [clear_expired()] *)
Definition clear_expired (current_time : Q) (self : t) : t :=
  let expired_keys :=
    (filter (fun kv => Qltb (inject_Z (ttl (snd kv))) (current_time - timestamp (snd kv)) = true)
            (map_to_list (_cache self))).*1 in
  {| _cache := foldr delete (_cache self) expired_keys;
     _request_timestamps := _request_timestamps self |}.

(** [get_stats()], with the reading of [time.time()]. *)
Definition get_stats (current_time : Q) (self : t) : Dict :=
  let expired_count :=
    length (filter (fun kv => Qltb (inject_Z (ttl (snd kv)))
                                   (current_time - timestamp (snd kv)) = true)
                   (map_to_list (_cache self))) in
  [("total_entries", PyInt (Z.of_nat (size (_cache self))));
   ("expired_entries", PyInt (Z.of_nat expired_count));
   ("active_entries", PyInt (Z.of_nat (size (_cache self)) - Z.of_nat expired_count))].

End VerificationCache.

(** ** The ledger tables, the blob store and the collaborators *)

(** A row of [DocumentHashes].  The [signature] column is the one the
    verification path tests against [None]. *)
Record HashRecord := {
  hash_id : string;
  document_id : string;
  file_hash : string;
  content_hash : string;
  kms_key_version : string;
  signature : option string;
  timestamp : Q;
  user_id : string;
  file_size : Z;
  mime_type : PyVal;
  encryption_metadata : string;
  verification_status : string
}.

(** A row of [HashChain]. *)
Record ChainBlock := {
  chain_id : string;
  block_number : Z;
  previous_hash : option string;
  current_hash : string;
  document_hashes : list string;
  merkle_root : string;
  block_signature : string;
  block_timestamp : Q
}.

(** An object of the secure bucket. *)
Record Blob := {
  blob_content : bytes;
  blob_metadata : option Dict
}.

(** Outcome of a call: a value, or a raised exception (its message). *)
Inductive Result (A : Type) : Type :=
| Ok (a : A)
| Raised (e : string).
Arguments Ok {A} a.
Arguments Raised {A} e.

(** Everything outside the process: the configuration read by [__init__],
    the libraries kept abstract, and the answers of the clock, the
    random sources and the cloud services.  The answers are indexed by the
    number of external interactions made so far, so that they may change
    from one call to the next. *)
Record Env := {
  project_id : string;
  location : string;
  keyring : string;
  encryption_key : string;
  signing_key : string;
  secure_bucket : string;
  clock : nat -> Q;
  uuid4 : nat -> string;
  Fernet_generate_key : nat -> bytes;
  Fernet_encrypt : nat -> bytes -> bytes -> Result bytes;
  Fernet_decrypt : bytes -> bytes -> Result bytes;
  kms_encrypt : nat -> string -> bytes -> Result bytes;
  kms_decrypt : nat -> string -> bytes -> Result bytes;
  kms_asymmetric_sign : nat -> string -> bytes -> Result bytes;
  upload_fault : nat -> option string;
  storage_read_fault : nat -> option string;
  working_credentials : nat -> bool;
  snapshot_fault : nat -> option string;
  commit_fault : nat -> option string;
  json_dumps : Dict -> string;
  isoformat : Q -> string
}.

(** A request sent to the key service: the three operations the source
    calls on it. *)
Inductive KmsRequest :=
| KmsEncrypt (name : string) (plaintext : bytes)
| KmsDecrypt (name : string) (ciphertext : bytes)
| KmsAsymmetricSign (name : string) (sha256 : bytes).

(** The state the service works on.  The last five fields only observe
    the run: the requests sent to the key service, the number of ledger
    snapshot reads, of upload calls, of requests for fresh credentials
    and of storage clients built after the first one. *)
Record World := {
  tick : nat;
  DocumentHashes : list HashRecord;
  HashChain : list ChainBlock;
  blobs : gmap string Blob;
  cache : VerificationCache.t;
  kms_requests : list KmsRequest;
  snapshot_reads : nat;
  upload_calls : nat;
  credential_requests : nat;
  storage_clients : nat
}.

Definition with_tick (n : nat) (w : World) : World :=
  {| tick := n; DocumentHashes := DocumentHashes w; HashChain := HashChain w;
     blobs := blobs w; cache := cache w; kms_requests := kms_requests w;
     snapshot_reads := snapshot_reads w; upload_calls := upload_calls w;
     credential_requests := credential_requests w;
     storage_clients := storage_clients w |}.

Definition with_DocumentHashes (l : list HashRecord) (w : World) : World :=
  {| tick := tick w; DocumentHashes := l; HashChain := HashChain w;
     blobs := blobs w; cache := cache w; kms_requests := kms_requests w;
     snapshot_reads := snapshot_reads w; upload_calls := upload_calls w;
     credential_requests := credential_requests w;
     storage_clients := storage_clients w |}.

Definition with_HashChain (l : list ChainBlock) (w : World) : World :=
  {| tick := tick w; DocumentHashes := DocumentHashes w; HashChain := l;
     blobs := blobs w; cache := cache w; kms_requests := kms_requests w;
     snapshot_reads := snapshot_reads w; upload_calls := upload_calls w;
     credential_requests := credential_requests w;
     storage_clients := storage_clients w |}.

Definition with_blobs (m : gmap string Blob) (w : World) : World :=
  {| tick := tick w; DocumentHashes := DocumentHashes w;
     HashChain := HashChain w; blobs := m; cache := cache w;
     kms_requests := kms_requests w; snapshot_reads := snapshot_reads w;
     upload_calls := upload_calls w;
     credential_requests := credential_requests w;
     storage_clients := storage_clients w |}.

Definition with_cache (c : VerificationCache.t) (w : World) : World :=
  {| tick := tick w; DocumentHashes := DocumentHashes w;
     HashChain := HashChain w; blobs := blobs w; cache := c;
     kms_requests := kms_requests w; snapshot_reads := snapshot_reads w;
     upload_calls := upload_calls w;
     credential_requests := credential_requests w;
     storage_clients := storage_clients w |}.

Definition with_kms_requests (l : list KmsRequest) (w : World) : World :=
  {| tick := tick w; DocumentHashes := DocumentHashes w;
     HashChain := HashChain w; blobs := blobs w; cache := cache w;
     kms_requests := l; snapshot_reads := snapshot_reads w;
     upload_calls := upload_calls w;
     credential_requests := credential_requests w;
     storage_clients := storage_clients w |}.

Definition with_snapshot_reads (n : nat) (w : World) : World :=
  {| tick := tick w; DocumentHashes := DocumentHashes w;
     HashChain := HashChain w; blobs := blobs w; cache := cache w;
     kms_requests := kms_requests w; snapshot_reads := n;
     upload_calls := upload_calls w;
     credential_requests := credential_requests w;
     storage_clients := storage_clients w |}.

Definition with_upload_calls (n : nat) (w : World) : World :=
  {| tick := tick w; DocumentHashes := DocumentHashes w;
     HashChain := HashChain w; blobs := blobs w; cache := cache w;
     kms_requests := kms_requests w; snapshot_reads := snapshot_reads w;
     upload_calls := n; credential_requests := credential_requests w;
     storage_clients := storage_clients w |}.

Definition with_credential_requests (n : nat) (w : World) : World :=
  {| tick := tick w; DocumentHashes := DocumentHashes w;
     HashChain := HashChain w; blobs := blobs w; cache := cache w;
     kms_requests := kms_requests w; snapshot_reads := snapshot_reads w;
     upload_calls := upload_calls w; credential_requests := n;
     storage_clients := storage_clients w |}.

Definition with_storage_clients (n : nat) (w : World) : World :=
  {| tick := tick w; DocumentHashes := DocumentHashes w;
     HashChain := HashChain w; blobs := blobs w; cache := cache w;
     kms_requests := kms_requests w; snapshot_reads := snapshot_reads w;
     upload_calls := upload_calls w;
     credential_requests := credential_requests w; storage_clients := n |}.

(** A freshly started process in front of empty stores. *)
Definition empty_world : World :=
  {| tick := 0; DocumentHashes := []; HashChain := []; blobs := ∅;
     cache := VerificationCache.init; kms_requests := [];
     snapshot_reads := 0; upload_calls := 0; credential_requests := 0;
     storage_clients := 0 |}.

(** ** Calls that change the world and may raise *)

Definition M (A : Type) : Type := World -> Result A * World.

Definition ret {A} (a : A) : M A := fun w => (Ok a, w).

Definition raise {A} (e : string) : M A := fun w => (Raised e, w).

Definition bind {A B} (m : M A) (k : A -> M B) : M B :=
  fun w =>
    match m w with
    | (Ok a, w') => k a w'
    | (Raised e, w') => (Raised e, w')
    end.

(** [try: m  except Exception as e: handler(e)] *)
Definition try_except {A} (m : M A) (handler : string -> M A) : M A :=
  fun w =>
    match m w with
    | (Ok a, w') => (Ok a, w')
    | (Raised e, w') => handler e w'
    end.

Definition lift {A} (r : Result A) : M A := fun w => (r, w).

Notation "x <- m ;; k" := (bind m (fun x => k))
  (at level 100, m at next level, right associativity).

(** ** Queries of the ledger store *)

(** [SELECT ... FROM HashChain ORDER BY block_number DESC LIMIT 1].  Among
    rows of equal [block_number] the store may return any; the model
    returns the one inserted last. *)
Definition latest_block (rows : list ChainBlock) : option ChainBlock :=
  fold_left
    (fun acc b =>
       match acc with
       | Some a => if (block_number a <=? block_number b)%Z then Some b else Some a
       | None => Some b
       end) rows None.

(** [SELECT ... FROM DocumentHashes WHERE document_id = @document_id
    ORDER BY timestamp DESC LIMIT 1], with the same convention on ties. *)
Definition latest_hash_record (id : string) (rows : list HashRecord) : option HashRecord :=
  fold_left
    (fun acc r =>
       if String.eqb (document_id r) id then
         match acc with
         | Some a => if Qle_bool (timestamp a) (timestamp r) then Some r else Some a
         | None => Some r
         end
       else acc) rows None.

(** Insertion into a list ordered by the test [before]: [x] goes in front
    of the first element it is to come before. *)
Fixpoint insert_by {A} (before : A -> A -> bool) (x : A) (l : list A) : list A :=
  match l with
  | [] => [x]
  | y :: l' => if before x y then x :: y :: l' else y :: insert_by before x l'
  end.

(** [ORDER BY]: the rows inserted one after the other, last row first. *)
Definition sort_by {A} (before : A -> A -> bool) (l : list A) : list A :=
  fold_right (insert_by before) [] l.

(** [SELECT ... FROM DocumentHashes WHERE document_id = @document_id
    ORDER BY timestamp]; rows of equal timestamp, whose order the store
    leaves open, come in insertion order. *)
Definition hash_records_by_time (id : string) (rows : list HashRecord) : list HashRecord :=
  sort_by (fun a b => Qle_bool (timestamp a) (timestamp b))
          (List.filter (fun r => String.eqb (document_id r) id) rows).

(** [SELECT ... FROM HashChain ORDER BY block_number DESC LIMIT n]; among
    rows of equal [block_number] the one inserted last comes first, as in
    [latest_block]. *)
Definition latest_blocks (n : nat) (rows : list ChainBlock) : list ChainBlock :=
  firstn n (sort_by (fun a b => (block_number b <? block_number a)%Z) rows).

(** What [get_document_audit_trail] returns: the keys of its dictionary.
    [total_records] is set on the normal path only, [error] on the other. *)
Record AuditTrail := {
  trail_document_id : string;
  trail_hash_records : list Dict;
  trail_chain_blocks : list Dict;
  trail_total_records : option Z;
  trail_error : option string
}.

(** ** gcul_blockchain_service.py *)

Module GCULBlockchainService.

(** [f"{previous_hash}"]: [None] prints as the word [None]. *)
Definition format_optional_str (s : option string) : string :=
  match s with
  | Some h => h
  | None => "None"
  end.

(** [f"{block_number}:{previous_hash}:{merkle_root}"] *)
Definition block_data (block_number : Z) (previous_hash : option string)
    (merkle_root : string) : string :=
  pretty block_number ++ ":" ++ format_optional_str previous_hash ++ ":" ++ merkle_root.

(** [''.join(document_hashes)] *)
Definition join (l : list string) : string := fold_right String.append "" l.

(** [_calculate_file_hash(content)] *)
Definition _calculate_file_hash (content : bytes) : string := sha256_hexdigest content.

(** [_calculate_content_hash(text)] *)
Definition _calculate_content_hash (text : string) : string :=
  sha256_hexdigest (encode_utf8 text).

(** [f"{file_hash}:{content_hash}:{document_id}".encode('utf-8')] *)
Definition hash_to_sign (file_hash content_hash document_id : string) : bytes :=
  encode_utf8 (file_hash ++ ":" ++ content_hash ++ ":" ++ document_id).

(** The result returned while the request is throttled and nothing is cached. *)
Definition throttled_result : Dict :=
  [("verified", PyBool false); ("is_valid", PyBool false);
   ("status", PyStr "THROTTLED");
   ("message", PyStr "Request throttled - please wait before retrying");
   ("throttled", PyBool true)].

Definition not_found_result (current_hash : string) : Dict :=
  [("verified", PyBool false); ("is_valid", PyBool false);
   ("status", PyStr "NOT_FOUND"); ("expected_hash", PyStr "N/A");
   ("actual_hash", PyStr current_hash); ("algorithm", PyStr "SHA-256");
   ("blockchain_record", PyStr "Not Found");
   ("message", PyStr "No hash record found for document")].

Definition error_result (e : string) : Dict :=
  [("verified", PyBool false); ("is_valid", PyBool false);
   ("status", PyStr "ERROR"); ("expected_hash", PyStr "N/A");
   ("actual_hash", PyStr "N/A"); ("algorithm", PyStr "SHA-256");
   ("blockchain_record", PyStr "Error");
   ("message", PyStr ("Verification failed: " ++ e))].

Definition py_optional_str (s : option string) : PyVal :=
  match s with
  | Some x => PyStr x
  | None => PyNone
  end.

(** The result built from the stored record [(hash_id, file_hash,
    content_hash, signature, verification_status)]. *)
Definition record_result (current_hash : string) (stored_record : HashRecord) : Dict :=
  let integrity_verified := String.eqb current_hash (file_hash stored_record) in
  [("verified", PyBool integrity_verified);
   ("is_valid", PyBool integrity_verified);
   ("status", PyStr (if integrity_verified then "VERIFIED" else "TAMPERED"));
   ("hash_id", PyStr (hash_id stored_record));
   ("stored_hash", PyStr (file_hash stored_record));
   ("expected_hash", PyStr (file_hash stored_record));
   ("current_hash", PyStr current_hash);
   ("actual_hash", PyStr current_hash);
   ("signature_valid",
     PyBool (match signature stored_record with Some _ => true | None => false end));
   ("verification_status", PyStr (verification_status stored_record));
   ("algorithm", PyStr "SHA-256");
   ("blockchain_record", PyStr "Found")].

Section Service.

Variable env : Env.

(** *** The collaborators, as calls *)

Definition next_tick : M nat :=
  fun w => (Ok (tick w), with_tick (S (tick w)) w).

(** [time.time()] and [datetime.utcnow()] *)
Definition time_time : M Q := n <- next_tick ;; ret (clock env n).

(** [str(uuid.uuid4())] *)
Definition uuid_uuid4 : M string := n <- next_tick ;; ret (uuid4 env n).

(** [kms_client.crypto_key_path(project, location, key_ring, crypto_key)] *)
Definition crypto_key_path (project location key_ring crypto_key : string) : string :=
  "projects/" ++ project ++ "/locations/" ++ location
    ++ "/keyRings/" ++ key_ring ++ "/cryptoKeys/" ++ crypto_key.

Definition _get_encryption_key_name : string :=
  crypto_key_path (project_id env) (location env) (keyring env) (encryption_key env).

Definition _get_signing_key_name : string :=
  crypto_key_path (project_id env) (location env) (keyring env) (signing_key env).

(** A request to the key service is sent, then answered or refused. *)
Definition kms_call (request : KmsRequest) (answer : nat -> Result bytes) : M bytes :=
  fun w =>
    let w1 := with_kms_requests (kms_requests w ++ [request]) w in
    (n <- next_tick ;; lift (answer n)) w1.

(** [kms_client.asymmetric_sign(request={'name': name, 'digest': {'sha256': digest}})] *)
Definition asymmetric_sign (name : string) (digest : bytes) : M bytes :=
  kms_call (KmsAsymmetricSign name digest) (fun n => kms_asymmetric_sign env n name digest).

(** [kms_client.encrypt(request={'name': name, 'plaintext': plaintext})] *)
Definition encrypt (name : string) (plaintext : bytes) : M bytes :=
  kms_call (KmsEncrypt name plaintext) (fun n => kms_encrypt env n name plaintext).

(** [kms_client.decrypt(request={'name': name, 'ciphertext': ciphertext})] *)
Definition decrypt (name : string) (ciphertext : bytes) : M bytes :=
  kms_call (KmsDecrypt name ciphertext) (fun n => kms_decrypt env n name ciphertext).

(** [with self.database.snapshot() as snapshot: list(snapshot.execute_sql(...))] *)
Definition snapshot {A} (query : World -> A) : M A :=
  fun w =>
    let w1 := with_snapshot_reads (S (snapshot_reads w)) w in
    (n <- next_tick ;;
     match snapshot_fault env n with
     | Some e => raise e
     | None => ret (query w1)
     end) w1.

(** [with self.database.batch() as batch: batch.insert(...)]: the rows are
    written when the batch commits, or not at all. *)
Definition batch_insert (insert : World -> World) : M unit :=
  n <- next_tick ;;
  match commit_fault env n with
  | Some e => raise e
  | None => fun w => (Ok tt, insert w)
  end.

(** [blob.upload_from_string(content)] with [blob.metadata] set. *)
Definition upload_from_string (blob_name : string) (content : bytes) (metadata : Dict) : M unit :=
  fun w =>
    let w1 := with_upload_calls (S (upload_calls w)) w in
    (n <- next_tick ;;
     match upload_fault env n with
     | Some e => raise e
     | None =>
         fun w' =>
           (Ok tt, with_blobs (<[blob_name := {| blob_content := content;
                                                 blob_metadata := Some metadata |}]>
                                 (blobs w')) w')
     end) w1.

(** A call that reads the bucket: [blob.exists()], [blob.reload()],
    [blob.download_as_bytes()]. *)
Definition storage_read {A} (read : World -> A) : M A :=
  n <- next_tick ;;
  match storage_read_fault env n with
  | Some e => raise e
  | None => fun w => (Ok (read w), w)
  end.

(** [_get_working_storage_credentials()]: whether credentials came back. *)
Definition _get_working_storage_credentials : M bool :=
  fun w =>
    let w1 := with_credential_requests (S (credential_requests w)) w in
    (n <- next_tick ;; ret (working_credentials env n)) w1.

(** [self.storage_client = storage.Client(...)] *)
Definition new_storage_client : M unit :=
  fun w => (Ok tt, with_storage_clients (S (storage_clients w)) w).

(** *** The verification cache, as calls on the global instance *)

Definition cache_is_throttled (document_id : string) : M bool :=
  current_time <- time_time ;;
  fun w =>
    let '(b, c) := VerificationCache.is_throttled current_time document_id (cache w) in
    (Ok b, with_cache c w).

(** [time.time()] is read only when the key is present. *)
Definition cache_get (document_id : string) (content_hash : option string) : M (option Dict) :=
  fun w =>
    let key := VerificationCache._generate_cache_key document_id content_hash in
    match VerificationCache._cache (cache w) !! key with
    | None => (Ok None, w)
    | Some _ =>
        (current_time <- time_time ;;
         fun w' =>
           let '(r, c) := VerificationCache.get current_time document_id content_hash (cache w') in
           (Ok r, with_cache c w')) w
    end.

Definition cache_set (document_id : string) (verification_result : Dict)
    (content_hash : option string) (ttl : option Z) : M unit :=
  current_time <- time_time ;;
  fun w =>
    (Ok tt, with_cache (VerificationCache.set current_time document_id verification_result
                          content_hash ttl (cache w)) w).

(** *** The hash chain *)

(** [_add_to_hash_chain(document_hashes)] *)
Definition _add_to_hash_chain (document_hashes : list string) : M string :=
  rows <- snapshot (fun w => latest_block (HashChain w)) ;;
  let previous_hash :=
    match rows with
    | Some last_block => Some (current_hash last_block)
    | None => None
    end in
  let block_number :=
    match rows with
    | Some last_block => (block_number last_block + 1)%Z
    | None => 0%Z
    end in
  chain_id <- uuid_uuid4 ;;
  let merkle_root := sha256_hexdigest (encode_utf8 (join document_hashes)) in
  let current_hash :=
    sha256_hexdigest (encode_utf8 (block_data block_number previous_hash merkle_root)) in
  sign_response <- asymmetric_sign (_get_signing_key_name ++ "/cryptoKeyVersions/1")
                     (sha256_digest (encode_utf8 current_hash)) ;;
  let signature := Base64.b64encode sign_response in
  now <- time_time ;;
  _ <- batch_insert (fun w =>
         with_HashChain
           (HashChain w ++
              [{| chain_id := chain_id; block_number := block_number;
                  previous_hash := previous_hash; current_hash := current_hash;
                  document_hashes := document_hashes; merkle_root := merkle_root;
                  block_signature := signature; block_timestamp := now |}]) w) ;;
  ret chain_id.

(** [create_document_hash_record(document_id, content, extracted_text, user_id, metadata)] *)
Definition create_document_hash_record (document_id : string) (content : bytes)
    (extracted_text : string) (user_id : string) (metadata : Dict) : M string :=
  let file_hash := _calculate_file_hash content in
  let content_hash := _calculate_content_hash extracted_text in
  hash_id <- uuid_uuid4 ;;
  let key_name := _get_encryption_key_name in
  let signing_key_name := _get_signing_key_name in
  sign_response <- asymmetric_sign (signing_key_name ++ "/cryptoKeyVersions/1")
                     (sha256_digest (hash_to_sign file_hash content_hash document_id)) ;;
  let signature := Base64.b64encode sign_response in
  now <- time_time ;;
  _ <- batch_insert (fun w =>
         with_DocumentHashes
           (DocumentHashes w ++
              [{| hash_id := hash_id; document_id := document_id;
                  file_hash := file_hash; content_hash := content_hash;
                  kms_key_version := key_name ++ "/cryptoKeyVersions/1";
                  signature := Some signature; timestamp := now;
                  user_id := user_id; file_size := Z.of_nat (length content);
                  mime_type := dict_get_default "mime_type"
                                 (PyStr "application/octet-stream") metadata;
                  encryption_metadata := json_dumps env metadata;
                  verification_status := "VERIFIED" |}]) w) ;;
  _ <- _add_to_hash_chain [hash_id] ;;
  ret hash_id.

(** *** Verification *)

(** The ledger path of the [try] block, from "Get stored hash record
    from Spanner" on. *)
Definition verify_from_ledger (document_id current_hash : string) : M Dict :=
  rows <- snapshot (fun w => latest_hash_record document_id (DocumentHashes w)) ;;
  match rows with
  | None =>
      let verification_result := not_found_result current_hash in
      _ <- cache_set document_id verification_result (Some current_hash) (Some 300%Z) ;;
      ret verification_result
  | Some stored_record =>
      let integrity_verified := String.eqb current_hash (file_hash stored_record) in
      let verification_result := record_result current_hash stored_record in
      let cache_ttl := if integrity_verified then 3600%Z else 1800%Z in
      _ <- cache_set document_id verification_result (Some current_hash) (Some cache_ttl) ;;
      ret verification_result
  end.

(** The [try] block of [verify_document_integrity]. *)
Definition verify_body (document_id : string) (current_content : bytes) : M Dict :=
  throttled <- cache_is_throttled document_id ;;
  if throttled then
    cached_result <- cache_get document_id None ;;
    if truthy_dict cached_result then ret (default [] cached_result)
    else ret throttled_result
  else
    let current_hash := _calculate_file_hash current_content in
    cached_result <- cache_get document_id (Some current_hash) ;;
    if truthy_dict cached_result then ret (default [] cached_result)
    else verify_from_ledger document_id current_hash.

(** [verify_document_integrity(document_id, current_content)]: the block
    above, with [except Exception as e: return error_result]. *)
Definition verify_document_integrity (document_id : string) (current_content : bytes) : M Dict :=
  try_except (verify_body document_id current_content)
             (fun e => ret (error_result e)).

(** *** Envelope encryption *)

(** The attributes attached to the uploaded object. *)
Definition upload_metadata (metadata : Dict) (encryption_key_name : string)
    (content encrypted_content encrypted_dek : bytes) : Dict :=
  [("original_filename", dict_get_default "file_name" (PyStr "unknown") metadata);
   ("file_type", dict_get_default "file_type" (PyStr "unknown") metadata);
   ("user_id", dict_get_default "user_id" (PyStr "unknown") metadata);
   ("encrypted_with", PyStr "GCUL_envelope_encryption");
   ("kms_key_name", PyStr encryption_key_name);
   ("original_size", PyStr (pretty (length content)));
   ("encrypted_size", PyStr (pretty (length encrypted_content)));
   ("envelope_metadata", PyStr (Base64.b64encode encrypted_dek))].

(** [encrypt_document(content, metadata)] *)
Definition encrypt_document (content : bytes) (metadata : Dict) : M (string * Dict) :=
  k <- next_tick ;;
  let dek := Fernet_generate_key env k in
  n <- next_tick ;;
  encrypted_content <- lift (Fernet_encrypt env n dek content) ;;
  let encryption_key_name := _get_encryption_key_name in
  encrypted_dek <- encrypt encryption_key_name dek ;;
  u <- uuid_uuid4 ;;
  let blob_name := ("encrypted/" ++ u ++ ".enc")%string in
  let envelope_metadata :=
    [("encrypted_dek", PyStr (Base64.b64encode encrypted_dek));
     ("kms_key_name", PyStr encryption_key_name);
     ("encryption_algorithm", PyStr "AES-256 + KMS");
     ("envelope_encryption", PyBool true)] in
  let blob_attributes :=
    upload_metadata metadata encryption_key_name content encrypted_content encrypted_dek in
  _ <- try_except
         (upload_from_string blob_name encrypted_content blob_attributes)
         (fun upload_error =>
            try_except
              (storage_credentials <- _get_working_storage_credentials ;;
               if negb storage_credentials
               then raise "Could not get working credentials"
               else
                 _ <- new_storage_client ;;
                 upload_from_string blob_name encrypted_content blob_attributes)
              (fun retry_error => raise upload_error)) ;;
  now <- time_time ;;
  let encryption_metadata :=
    [("blob_name", PyStr blob_name);
     ("bucket", PyStr (secure_bucket env));
     ("kms_key", PyStr encryption_key_name);
     ("encrypted_at", PyStr (isoformat env now));
     ("file_size", PyInt (Z.of_nat (length content)));
     ("encryption_algorithm", PyStr "AES-256 + KMS envelope encryption");
     ("envelope_metadata", PyDict envelope_metadata);
     ("original_size", PyInt (Z.of_nat (length content)));
     ("encrypted_size", PyInt (Z.of_nat (length encrypted_content)))] in
  ret (blob_name, encryption_metadata).

(** [blob.reload()] and [blob.download_as_bytes()] raise when the object is gone. *)
Definition storage_fetch (blob_name : string) : M Blob :=
  found <- storage_read (fun w => blobs w !! blob_name) ;;
  match found with
  | Some b => ret b
  | None => raise ("404 No such object: " ++ blob_name)
  end.

(** [decrypt_document(blob_name)] *)
Definition decrypt_document (blob_name : string) : M bytes :=
  exists_ <- storage_read (fun w => bool_decide (is_Some (blobs w !! blob_name))) ;;
  if negb exists_ then raise ("Encrypted blob not found: " ++ blob_name)
  else
    reloaded <- storage_fetch blob_name ;;
    downloaded <- storage_fetch blob_name ;;
    let encrypted_content := blob_content downloaded in
    let metadata := blob_metadata reloaded in
    if truthy_dict metadata
       && match dict_get "encrypted_with" (default [] metadata) with
          | Some (PyStr tag) => String.eqb tag "GCUL_envelope_encryption"
          | _ => false
          end
    then
      let encrypted_dek_b64 := dict_get "envelope_metadata" (default [] metadata) in
      if negb (truthy (default PyNone encrypted_dek_b64))
      then raise "Envelope metadata not found in blob"
      else
        match default PyNone encrypted_dek_b64 with
        | PyStr b64 =>
            match Base64.b64decode b64 with
            | None => raise "Incorrect padding"
            | Some encrypted_dek =>
                let encryption_key_name := _get_encryption_key_name in
                dek <- decrypt encryption_key_name encrypted_dek ;;
                lift (Fernet_decrypt env dek encrypted_content)
            end
        | _ => raise "argument should be a bytes-like object or ASCII string"
        end
    else
      let encryption_key_name := _get_encryption_key_name in
      decrypt encryption_key_name encrypted_content.

(** *** Audit trail *)

(** [snapshot.execute_sql(...)], read to its end. *)
Definition execute_sql {A} (query : World -> A) : M A :=
  n <- next_tick ;;
  match snapshot_fault env n with
  | Some e => raise e
  | None => fun w => (Ok (query w), w)
  end.

(** [with self.database.snapshot() as snapshot: ...] around several queries. *)
Definition in_snapshot {A} (queries : M A) : M A :=
  fun w => queries (with_snapshot_reads (S (snapshot_reads w)) w).

(** The entry built from a row [(hash_id, file_hash, content_hash,
    timestamp, verification_status, signature)]. *)
Definition hash_record_entry (row : HashRecord) : Dict :=
  [("hash_id", PyStr (hash_id row));
   ("file_hash", PyStr (file_hash row));
   ("content_hash", PyStr (content_hash row));
   ("timestamp", PyStr (isoformat env (timestamp row)));
   ("verification_status", PyStr (verification_status row));
   ("has_signature",
     PyBool (match signature row with Some _ => true | None => false end))].

(** The entry built from a row [(chain_id, block_number, current_hash, timestamp)]. *)
Definition chain_block_entry (row : ChainBlock) : Dict :=
  [("chain_id", PyStr (chain_id row));
   ("block_number", PyInt (block_number row));
   ("block_hash", PyStr (current_hash row));
   ("timestamp", PyStr (isoformat env (block_timestamp row)))].

(** [get_document_audit_trail(document_id)] *)
Definition get_document_audit_trail (document_id : string) : M AuditTrail :=
  try_except
    (in_snapshot
       (hash_results <- execute_sql (fun w => hash_records_by_time document_id
                                                (DocumentHashes w)) ;;
        let hash_records := map hash_record_entry hash_results in
        chain_results <- execute_sql (fun w => latest_blocks 5 (HashChain w)) ;;
        let chain_blocks := map chain_block_entry chain_results in
        ret {| trail_document_id := document_id;
               trail_hash_records := hash_records;
               trail_chain_blocks := chain_blocks;
               trail_total_records := Some (Z.of_nat (length hash_records));
               trail_error := None |}))
    (fun e => ret {| trail_document_id := document_id;
                     trail_hash_records := [];
                     trail_chain_blocks := [];
                     trail_total_records := None;
                     trail_error := Some e |}).

End Service.

End GCULBlockchainService.

(** ** api/mcp_routes.py: identifiers and storage paths *)

Module MCPRoutes.

(** [int(x)] on a float: truncation towards zero. *)
Definition int_of_float (x : Q) : Z := Z.quot (Qnum x) (Zpos (Qden x)).

(** [s[-n:]] for a positive [n]: the last [n] characters, or all of [s]. *)
Definition last_chars (n : nat) (s : string) : string :=
  substring (String.length s - n) n s.

(** [generate_short_document_id(user_email, file_name)], with the reading
    of [time.time()]. *)
Definition generate_short_document_id (current_time : Q) (user_email file_name : string)
    : string :=
  let content := encode_utf8 (user_email ++ "_" ++ file_name) in
  let hash_prefix := substring 0 20 (sha256_hexdigest content) in
  let timestamp := last_chars 10 (pretty (int_of_float current_time)) in
  (hash_prefix ++ "_" ++ timestamp)%string.

(** [s.split(sep)] for a separator of one character. *)
Fixpoint split (sep : ascii) (s : string) : list string :=
  match s with
  | EmptyString => [EmptyString]
  | String c s' =>
      if Ascii.eqb c sep then EmptyString :: split sep s'
      else match split sep s' with
           | segment :: rest => String c segment :: rest
           | [] => [String c EmptyString]
           end
  end.

(** [f"gs://{settings.GCP_SECURE_BUCKET}/{blob_name}"], the [storageUrl]
    that [store_document_with_gcul] records. *)
Definition storage_url (bucket blob_name : string) : string :=
  ("gs://" ++ bucket ++ "/" ++ blob_name)%string.

(** The name of the Python type in an [AttributeError] message. *)
Definition type_name (v : PyVal) : string :=
  match v with
  | PyNone => "NoneType"
  | PyBool _ => "bool"
  | PyInt _ => "int"
  | PyStr _ => "str"
  | PyDict _ => "dict"
  end.

(** The blob path [download_document] hands to [decrypt_document], from
    what [get_document_metadata] returned ([None] when the document is not
    known); a raised [HTTPException] is its status and detail.  A
    [storageUrl] that is no string has no [split]: the [AttributeError] is
    caught by the handler of the route. *)
Definition download_blob_path (document_metadata : option Dict) : Result string :=
  if negb (truthy_dict document_metadata) then Raised "404: Document not found"
  else
    let storage_url :=
      dict_get_default "storageUrl" (PyStr "") (default [] document_metadata) in
    if negb (truthy storage_url) then Raised "500: Document storage URL not found"
    else
      match storage_url with
      | PyStr url =>
          let blob_name := List.last (split "/" url) EmptyString in
          if String.eqb blob_name "" then Raised "500: Invalid storage URL format"
          else if negb (startswith blob_name "encrypted/")
               then Ok ("encrypted/" ++ blob_name)%string
               else Ok blob_name
      | v => Raised ("500: Document download failed: '" ++ type_name v
                       ++ "' object has no attribute 'split'")%string
      end.

(** [f"gs://{settings.GCS_BUCKET_NAME}/documents/{document_id}"], the
    [storageUrl] recorded for a document stored without encryption. *)
Definition plain_storage_url (bucket document_id : string) : string :=
  ("gs://" ++ bucket ++ "/documents/" ++ document_id)%string.

(** The answer of a route: the arguments [Response] was built from. *)
Record Response := {
  response_content : bytes;
  response_media_type : string;
  response_headers : list (string * string)
}.

(** The Python runtime under the routes, kept abstract: [str(v)] for a
    value that is no string, and the message of the [UnicodeEncodeError]
    that [s.encode("latin-1")] raises for a string it cannot encode. *)
Record Runtime := {
  py_str : PyVal -> string;
  latin1_error : string -> string
}.

(** [f"{v}"]: a string goes in as it is, any other value through [str]. *)
Definition format_value (rt : Runtime) (v : PyVal) : string :=
  match v with
  | PyStr s => s
  | _ => py_str rt v
  end.

(** Whether [s.encode("latin-1")] succeeds: every character is at most
    U+00FF, which in the UTF-8 form is one byte below 0x80, or a lead byte
    0xC2 or 0xC3 followed by one continuation byte. *)
Fixpoint latin1_encodable (s : string) : bool :=
  match s with
  | EmptyString => true
  | String c s' =>
      if (N_of_ascii c <? 128)%N then latin1_encodable s'
      else if ((N_of_ascii c =? 194) || (N_of_ascii c =? 195))%N then
        match s' with
        | String c' s'' =>
            (128 <=? N_of_ascii c')%N && (N_of_ascii c' <? 192)%N && latin1_encodable s''
        | EmptyString => false
        end
      else false
  end.

(** [Response(content=content, media_type="application/octet-stream",
    headers={"Content-Disposition": disposition})]: the constructor
    encodes the header value as Latin-1 and raises when it cannot; the
    name of the header and the media type are ASCII. *)
Definition attachment_response (rt : Runtime) (content : bytes) (disposition : string)
    : Result Response :=
  if latin1_encodable disposition
  then Ok {| response_content := content;
             response_media_type := "application/octet-stream";
             response_headers := [("Content-Disposition", disposition)] |}
  else Raised (latin1_error rt disposition).

(** [download_document(document_id, user_email)], from what
    [get_document_metadata] returned: the [Response], or the
    [HTTPException] raised.  An [HTTPException] passes through; anything
    else that is raised, by the decryption or by the construction of the
    response, is wrapped with status 500. *)
Definition download_document (env : Env) (rt : Runtime) (document_id : string)
    (document_metadata : option Dict) : M Response :=
  match download_blob_path document_metadata with
  | Raised e => raise e
  | Ok blob_path =>
      try_except
        (decrypted_content <- GCULBlockchainService.decrypt_document env blob_path ;;
         let filename :=
           dict_get_default "fileName" (PyStr document_id) (default [] document_metadata) in
         lift (attachment_response rt decrypted_content
                 ("attachment; filename=" ++ format_value rt filename)%string))
        (fun e => raise ("500: Document download failed: " ++ e)%string)
  end.

End MCPRoutes.

(** ** Runs of the service *)

(** A call on the service: the four public operations, the decrypt path,
    and the internal block append. *)
Inductive Call :=
| AddToHashChain (document_hashes : list string)
| CreateDocumentHashRecord (document_id : string) (content : bytes)
    (extracted_text : string) (user_id : string) (metadata : Dict)
| VerifyDocumentIntegrity (document_id : string) (current_content : bytes)
| EncryptDocument (content : bytes) (metadata : Dict)
| DecryptDocument (blob_name : string).

(** Whether a call returned, and the world it left; a raised exception
    is the caller's to handle and changes nothing more. *)
Definition returned {A} (r : Result A) : bool :=
  match r with
  | Ok _ => true
  | Raised _ => false
  end.

Definition perform (env : Env) (c : Call) (w : World) : bool * World :=
  match c with
  | AddToHashChain document_hashes =>
      let '(r, w') := GCULBlockchainService._add_to_hash_chain env document_hashes w in
      (returned r, w')
  | CreateDocumentHashRecord document_id content extracted_text user_id metadata =>
      let '(r, w') := GCULBlockchainService.create_document_hash_record env
                        document_id content extracted_text user_id metadata w in
      (returned r, w')
  | VerifyDocumentIntegrity document_id current_content =>
      let '(r, w') := GCULBlockchainService.verify_document_integrity env
                        document_id current_content w in
      (returned r, w')
  | EncryptDocument content metadata =>
      let '(r, w') := GCULBlockchainService.encrypt_document env content metadata w in
      (returned r, w')
  | DecryptDocument blob_name =>
      let '(r, w') := GCULBlockchainService.decrypt_document env blob_name w in
      (returned r, w')
  end.

(** Calls made one after the other. *)
Definition run (env : Env) (calls : list Call) (w : World) : World :=
  fold_left (fun w c => snd (perform env c w)) calls w.

(** The recomputation of a block's hash from its stored fields. *)
Definition recomputed_hash (b : ChainBlock) : string :=
  sha256_hexdigest
    (encode_utf8 (GCULBlockchainService.block_data (block_number b) (previous_hash b)
                    (merkle_root b))).

(** The chain read from block 0 forward: numbering, linkage and hashes. *)
Definition chain_continuous (chain : list ChainBlock) : Prop :=
  forall (k : nat) (b : ChainBlock),
    chain !! k = Some b ->
    block_number b = Z.of_nat k
    /\ current_hash b = recomputed_hash b
    /\ match k with
       | O => previous_hash b = None
       | S j => exists p, chain !! j = Some p /\ previous_hash b = Some (current_hash p)
       end.

(** ** Test doubles *)

(** An environment for concrete runs: the configuration defaults of
    [__init__], a clock ticking every 10 ms, numbered identifiers, a
    cipher and a key service that only frame their input with a leading
    byte, and fault answers chosen by the caller. *)
Definition test_env (upload_faults snapshot_faults commit_faults : nat -> option string)
    (credentials : nat -> bool) : Env :=
  {| project_id := "legallens-test";
     location := "global";
     keyring := "legallens-keyring";
     encryption_key := "document-encryption-key";
     signing_key := "hash-signing-key";
     secure_bucket := "legallens-secure-docs";
     clock := fun n => (170000000000 + Z.of_nat n) # 100;
     uuid4 := fun n => ("00000000-0000-4000-8000-" ++ pretty n)%string;
     Fernet_generate_key := fun n => encode_utf8 ("key-" ++ pretty n)%string;
     Fernet_encrypt := fun _ _ data => Ok (x80 :: data);
     Fernet_decrypt := fun _ token =>
       match token with
       | [] => Raised "InvalidToken"
       | _ :: data => Ok data
       end;
     kms_encrypt := fun _ _ plaintext => Ok (x01 :: plaintext);
     kms_decrypt := fun _ _ ciphertext =>
       match ciphertext with
       | [] => Raised "400 Decryption failed"
       | _ :: plaintext => Ok plaintext
       end;
     kms_asymmetric_sign := fun _ _ sha256 => Ok (rev sha256);
     upload_fault := upload_faults;
     storage_read_fault := fun _ => None;
     working_credentials := credentials;
     snapshot_fault := snapshot_faults;
     commit_fault := commit_faults;
     json_dumps := fun _ => "{}";
     isoformat := fun _ => "2023-11-14T22:13:20" |}.

Definition no_fault : nat -> option string := fun _ => None.

(** A runtime for concrete runs: the texts stand in for those of CPython. *)
Definition test_runtime : MCPRoutes.Runtime :=
  {| MCPRoutes.py_str := fun v => ("<" ++ MCPRoutes.type_name v ++ ">")%string;
     MCPRoutes.latin1_error :=
       fun _ => "'latin-1' codec can't encode characters: ordinal not in range(256)" |}.

(** Every collaborator answers. *)
Definition calm_env : Env := test_env no_fault no_fault no_fault (fun _ => true).

(** ** Scenarios *)

(** The content of the scenarios. *)
Definition hello : bytes := encode_utf8 "hello".
Definition goodbye : bytes := encode_utf8 "goodbye".

(** The ledger after ["doc-1"] was recorded with content [hello]. *)
Definition recorded_world : World :=
  snd (GCULBlockchainService.create_document_hash_record calm_env "doc-1" hello
         "hello world" "user@example.com" [("mime_type", PyStr "text/plain")] empty_world).

(** A ledger whose only record carries bytes that are no signature at all. *)
Definition forged_record : HashRecord :=
  {| hash_id := "h-1"; document_id := "doc-1";
     file_hash := sha256_hexdigest hello; content_hash := sha256_hexdigest [];
     kms_key_version := "none"; signature := Some "bm90IGEgc2lnbmF0dXJl";
     timestamp := 1700000000; user_id := "mallory"; file_size := 5;
     mime_type := PyStr "text/plain"; encryption_metadata := "{}";
     verification_status := "VERIFIED" |}.

Definition forged_world : World := with_DocumentHashes [forged_record] empty_world.

(** The ledger store refuses every snapshot read. *)
Definition ledger_down_env : Env :=
  test_env no_fault (fun _ => Some "503 Service Unavailable") no_fault (fun _ => true).

(** The first upload is refused, the second goes through. *)
Definition flaky_upload_env : Env :=
  test_env (fun n => if Nat.eqb n 4 then Some "503 upload failed" else None)
           no_fault no_fault (fun _ => true).

(** The first upload is refused and no fresh credentials come back. *)
Definition no_credentials_env : Env :=
  test_env (fun n => if Nat.eqb n 4 then Some "503 upload failed" else None)
           no_fault no_fault (fun _ => false).

(** The chain read fails once, at the fifth interaction. *)
Definition chain_read_down_env : Env :=
  test_env no_fault (fun n => if Nat.eqb n 4 then Some "503 Service Unavailable" else None)
           no_fault (fun _ => true).

(** Three appends on an empty ledger. *)
Definition three_appends : list Call :=
  [AddToHashChain ["h-1"]; AddToHashChain ["h-2"; "h-3"]; AddToHashChain ["h-4"]].

(** A cache holding one entry for ["doc-1"] and one for ["other"]. *)
Definition two_documents : VerificationCache.t :=
  VerificationCache.set 1000 "other" [("status", PyStr "TAMPERED")]
    (Some "0123456789abcdef0123") None
    (VerificationCache.set 1000 "doc-1" [("status", PyStr "VERIFIED")]
       (Some "2cf24dba5fb0a30e26e8") None VerificationCache.init).

(** The world after a first, completed verification of ["doc-1"]. *)
Definition verified_once : World :=
  snd (GCULBlockchainService.verify_document_integrity calm_env "doc-1" hello recorded_world).

(** An entry that answers [VERIFIED] for ["doc-1"] with content [hello]. *)
Definition verified_entry : VerificationCache.CacheEntry :=
  {| VerificationCache.data := [("verified", PyBool true); ("status", PyStr "VERIFIED")];
     VerificationCache.timestamp := 1700000000;
     VerificationCache.ttl := 3600 |}.

(** A process that holds that entry in front of an empty ledger. *)
Definition cached_world : World :=
  with_cache
    {| VerificationCache._cache :=
         {[ VerificationCache._generate_cache_key "doc-1" (Some (sha256_hexdigest hello))
            := verified_entry ]};
       VerificationCache._request_timestamps := ∅ |}
    empty_world.

(** ** Vocabulary of the properties *)

(** The state after [document_id]'s request has been recorded at [now]. *)
Definition recorded (now : Q) (document_id : string) (c : VerificationCache.t)
    : VerificationCache.t :=
  {| VerificationCache._cache := VerificationCache._cache c;
     VerificationCache._request_timestamps :=
       <[document_id := now]> (VerificationCache._request_timestamps c) |}.

(** [m] never changes the observation [f] of the world. *)
Definition preserves {X A} (f : World -> X) (m : M A) : Prop :=
  forall w, f (snd (m w)) = f w.

(** The two ledger tables. *)
Definition ledger (w : World) : list HashRecord * list ChainBlock :=
  (DocumentHashes w, HashChain w).

(** [b] is the block that follows a chain whose latest block is [last]. *)
Definition linked (last : option ChainBlock) (b : ChainBlock) : Prop :=
  block_number b = match last with
                   | Some l => (block_number l + 1)%Z
                   | None => 0%Z
                   end
  /\ previous_hash b = current_hash <$> last
  /\ current_hash b = recomputed_hash b.

(** One step of the chain: nothing, or one linked block at the end. *)
Definition chain_step (l l' : list ChainBlock) : Prop :=
  l' = l \/ exists b, l' = (l ++ [b])%list /\ linked (latest_block l) b.

Definition steps {A} (m : M A) : Prop :=
  forall w, chain_step (HashChain w) (HashChain (snd (m w))).

(** The collaborators of the append all answer. *)
Definition ledger_answers (env : Env) : Prop :=
  (forall n, snapshot_fault env n = None)
  /\ (forall n, commit_fault env n = None)
  /\ (forall n name sha256, exists sig, kms_asymmetric_sign env n name sha256 = Ok sig).

(** The throttle gate lets the call through. *)
Definition not_throttled (env : Env) (id : string) (w : World) : Prop :=
  fst (VerificationCache.is_throttled (clock env (tick w)) id (cache w)) = false.

(** The cache has no live answer for [(id, h)]: no entry, an expired one,
    or one that holds an empty result. *)
Definition cache_miss (env : Env) (id h : string) (w : World) : Prop :=
  truthy_dict
    (fst (VerificationCache.get (clock env (S (tick w))) id (Some h) (cache w))) = false.

(** [w1] is [w] up to the clock position, the throttle records and evicted
    cache entries. *)
Definition cache_only (w w1 : World) : Prop :=
  DocumentHashes w1 = DocumentHashes w
  /\ kms_requests w1 = kms_requests w
  /\ snapshot_reads w1 = snapshot_reads w
  /\ forall k entry,
       VerificationCache._cache (cache w1) !! k = Some entry ->
       VerificationCache._cache (cache w) !! k = Some entry.

(** The result the ledger path builds from what the query returned. *)
Definition ledger_result (h : string) (rows : option HashRecord) : Dict :=
  match rows with
  | Some stored_record => GCULBlockchainService.record_result h stored_record
  | None => GCULBlockchainService.not_found_result h
  end.

(** The key service inverts what it wraps, and never wraps to nothing. *)
Definition key_service_inverts (env : Env) : Prop :=
  forall n name plaintext,
    exists ciphertext,
      kms_encrypt env n name plaintext = Ok ciphertext
      /\ ciphertext <> []
      /\ forall m, kms_decrypt env m name ciphertext = Ok plaintext.

(** The symmetric cipher decrypts, under a generated key, what it
    encrypted under that key. *)
Definition cipher_inverts (env : Env) : Prop :=
  forall n k plaintext,
    exists token,
      Fernet_encrypt env n (Fernet_generate_key env k) plaintext = Ok token
      /\ Fernet_decrypt env (Fernet_generate_key env k) token = Ok plaintext.

(** The calls a client of the service can make: [_add_to_hash_chain] is
    internal. *)
Definition public (c : Call) : bool :=
  match c with
  | AddToHashChain _ => false
  | _ => true
  end.

(** Every block lists exactly one identifier, that of a row of
    [DocumentHashes]. *)
Definition blocks_reference_rows (w : World) : Prop :=
  forall b, b ∈ HashChain w ->
    exists r, r ∈ DocumentHashes w /\ document_hashes b = [hash_id r].

(** The lifetime [set] gives an entry: [ttl or self.default_ttl]. *)
Definition lifetime (ttl : option Z) : Z :=
  match ttl with
  | Some z => if Z.eqb z 0 then VerificationCache.default_ttl else z
  | None => VerificationCache.default_ttl
  end.

(** Whether an entry has outlived its [ttl] at [now]. *)
Definition expired (now : Q) (entry : VerificationCache.CacheEntry) : bool :=
  Qltb (inject_Z (VerificationCache.ttl entry)) (now - VerificationCache.timestamp entry).

(** Whether [s] holds ASCII characters only: then each character is one
    byte of its UTF-8 form, and a slice cuts both at the same place. *)
Fixpoint is_ascii (s : string) : bool :=
  match s with
  | EmptyString => true
  | String c s' => (N_of_ascii c <? 128)%N && is_ascii s'
  end.

(** Whether the character [c] occurs in [s]. *)
Fixpoint occurs (c : ascii) (s : string) : bool :=
  match s with
  | EmptyString => false
  | String d s' => Ascii.eqb d c || occurs c s'
  end.

(** * Properties *)

(** ** Encodings and digests *)

Lemma decode_encode_utf8 s : decode_utf8 (encode_utf8 s) = s.
Proof. apply string_of_list_byte_of_string. Qed.

Lemma encode_decode_utf8 b : encode_utf8 (decode_utf8 b) = b.
Proof. apply list_byte_of_string_of_list_byte. Qed.

Example sha256_empty :
  sha256_hexdigest [] = "e3b0c44298fc1c149afbf4c8996fb92427ae41e4649b934ca495991b7852b855".
Proof. vm_compute. reflexivity. Qed.

Example sha256_abc :
  sha256_hexdigest (encode_utf8 "abc")
  = "ba7816bf8f01cfea414140de5dae2223b00361a396177a9cb410ff61f20015ad".
Proof. vm_compute. reflexivity. Qed.

Example sha256_hello :
  sha256_hexdigest (encode_utf8 "hello")
  = "2cf24dba5fb0a30e26e83b2ac5b9e29e1b161e5c1fa7425e73043362938b9824".
Proof. vm_compute. reflexivity. Qed.

Example sha256_two_blocks :
  sha256_hexdigest
    (encode_utf8 "abcdbcdecdefdefgefghfghighijhijkijkljklmklmnlmnomnopnopq")
  = "248d6a61d20638b8e5c026930c3e6039a33ce45964ff2167f6ecedd419db06c1".
Proof. vm_compute. reflexivity. Qed.

Lemma be_bytes_length n x : length (SHA256.be_bytes n x) = n.
Proof. unfold SHA256.be_bytes. rewrite length_map, length_rev. apply length_seq. Qed.

Lemma sha256_digest_length b : length (sha256_digest b) = 32%nat.
Proof.
  unfold sha256_digest, SHA256.digest, SHA256.list_of. cbn [map concat].
  rewrite !length_app, !be_bytes_length. reflexivity.
Qed.

Lemma hex_of_bytes_length bs : String.length (hex_of_bytes bs) = (2 * length bs)%nat.
Proof. induction bs as [|b bs IH]; cbn [hex_of_bytes String.length length]; lia. Qed.

Lemma sha256_hexdigest_length b : String.length (sha256_hexdigest b) = 64%nat.
Proof. unfold sha256_hexdigest. rewrite hex_of_bytes_length, sha256_digest_length. reflexivity. Qed.

Lemma sha256_hexdigest_nonempty b : sha256_hexdigest b <> "".
Proof.
  intros H. pose proof (sha256_hexdigest_length b) as L. rewrite H in L. discriminate L.
Qed.

Example b64encode_foobar :
  Base64.b64encode (encode_utf8 "foobar") = "Zm9vYmFy"
  /\ Base64.b64encode (encode_utf8 "fooba") = "Zm9vYmE="
  /\ Base64.b64encode (encode_utf8 "foob") = "Zm9vYg==".
Proof. vm_compute. auto. Qed.

Example b64decode_foobar :
  Base64.b64decode "Zm9vYmE=" = Some (encode_utf8 "fooba")
  /\ Base64.b64decode "Zm9vYg==" = Some (encode_utf8 "foob")
  /\ Base64.b64decode "Zm9v!mE=" = None.
Proof. vm_compute. auto. Qed.

Module Base64Facts.
Import Base64.
Local Open Scope N_scope.

(** Linear arithmetic with division and remainder by constants. *)
Local Ltac lia_div := zify; Z.to_euclidean_division_equations; lia.

(** Each of the 64 characters decodes to its index and is not the padding. *)
Lemma sextets_ok :
  forallb (fun i => match value_of (char_of (N.of_nat i)) with
                    | Some m => N.eqb m (N.of_nat i)
                    | None => false
                    end && negb (Ascii.eqb (char_of (N.of_nat i)) pad_char))
          (seq 0 64) = true.
Proof. vm_compute. reflexivity. Qed.

Lemma sextet_spec n :
  n < 64 -> value_of (char_of n) = Some n /\ Ascii.eqb (char_of n) pad_char = false.
Proof.
  intros Hn.
  pose proof (proj1 (forallb_forall _ _) sextets_ok (N.to_nat n)) as H.
  assert (Hin : In (N.to_nat n) (seq 0 64)) by (apply in_seq; lia).
  specialize (H Hin). cbv beta in H. rewrite N2Nat.id in H.
  apply andb_prop in H as [H1 H2].
  destruct (value_of (char_of n)) as [m|]; [|discriminate].
  apply N.eqb_eq in H1. subst m. split; [reflexivity|].
  destruct (Ascii.eqb (char_of n) pad_char); [discriminate|reflexivity].
Qed.

Lemma value_char n : n < 64 -> value_of (char_of n) = Some n.
Proof. intros H. apply (sextet_spec n H). Qed.

Lemma char_not_pad n : n < 64 -> Ascii.eqb (char_of n) pad_char = false.
Proof. intros H. apply (sextet_spec n H). Qed.

Lemma byte_of_to_N b : byte_of (Byte.to_N b) = b.
Proof. unfold byte_of. rewrite Byte.of_to_N. reflexivity. Qed.

Lemma to_N_lt b : Byte.to_N b < 256.
Proof. pose proof (Byte.to_N_bounded b). lia. Qed.

Lemma tail2_roundtrip a :
  let n := Byte.to_N a in
  decode_tail2 (char_of (n / 4)) (char_of ((n mod 4) * 16)) = Some [a].
Proof.
  intros n. pose proof (to_N_lt a) as Ha. fold n in Ha.
  unfold decode_tail2.
  rewrite !value_char by lia_div.
  replace ((n / 4 * 64 + n mod 4 * 16) / 16) with n by lia_div.
  unfold n. rewrite byte_of_to_N. reflexivity.
Qed.

Lemma tail3_roundtrip a b :
  let n := Byte.to_N a * 256 + Byte.to_N b in
  decode_tail3 (char_of (n / 1024)) (char_of ((n / 16) mod 64))
               (char_of ((n mod 16) * 4)) = Some [a; b].
Proof.
  intros n. pose proof (to_N_lt a) as Ha. pose proof (to_N_lt b) as Hb.
  unfold decode_tail3.
  rewrite !value_char by (subst n; lia_div).
  cbv zeta.
  replace (((n / 1024 * 64 + n / 16 mod 64) * 64 + n mod 16 * 4) / 1024)
    with (Byte.to_N a) by (subst n; lia_div).
  replace (((n / 1024 * 64 + n / 16 mod 64) * 64 + n mod 16 * 4) / 4 mod 256)
    with (Byte.to_N b) by (subst n; lia_div).
  rewrite !byte_of_to_N. reflexivity.
Qed.

Lemma quad_roundtrip a b c :
  let n := Byte.to_N a * 65536 + Byte.to_N b * 256 + Byte.to_N c in
  decode_quad (char_of (n / 262144)) (char_of ((n / 4096) mod 64))
              (char_of ((n / 64) mod 64)) (char_of (n mod 64)) = Some [a; b; c].
Proof.
  intros n. pose proof (to_N_lt a) as Ha. pose proof (to_N_lt b) as Hb.
  pose proof (to_N_lt c) as Hc.
  unfold decode_quad.
  rewrite !value_char by (subst n; lia_div).
  cbv zeta.
  assert (E : ((n / 262144 * 64 + n / 4096 mod 64) * 64 + n / 64 mod 64) * 64 + n mod 64 = n)
    by (subst n; lia_div).
  rewrite E.
  replace (n / 65536) with (Byte.to_N a) by (subst n; lia_div).
  replace (n / 256 mod 256) with (Byte.to_N b) by (subst n; lia_div).
  replace (n mod 256) with (Byte.to_N c) by (subst n; lia_div).
  rewrite !byte_of_to_N. reflexivity.
Qed.

(** Induction three bytes at a time, the way the encoder consumes its input. *)
Lemma bytes_ind3 (P : bytes -> Prop) :
  P [] -> (forall a, P [a]) -> (forall a b, P [a; b]) ->
  (forall a b c rest, P rest -> P (a :: b :: c :: rest)) ->
  forall bs, P bs.
Proof.
  intros H0 H1 H2 H3.
  fix IH 1. intros [|a [|b [|c rest]]];
    [apply H0 | apply H1 | apply H2 | apply H3, IH].
Qed.

Lemma decode_encode_chars bs : decode_chars (encode_chars bs) = Some bs.
Proof.
  induction bs as [|a|a b|a b c rest IH] using bytes_ind3.
  - reflexivity.
  - cbn [encode_chars decode_chars]. rewrite Ascii.eqb_refl. apply tail2_roundtrip.
  - cbn [encode_chars decode_chars].
    pose proof (to_N_lt a). pose proof (to_N_lt b).
    rewrite Ascii.eqb_refl, char_not_pad by lia_div. apply tail3_roundtrip.
  - cbn [encode_chars decode_chars].
    pose proof (to_N_lt a). pose proof (to_N_lt b). pose proof (to_N_lt c).
    rewrite char_not_pad by lia_div.
    rewrite quad_roundtrip, IH. reflexivity.
Qed.

Lemma b64decode_b64encode bs : b64decode (b64encode bs) = Some bs.
Proof.
  unfold b64decode, b64encode.
  rewrite list_ascii_of_string_of_list_ascii. apply decode_encode_chars.
Qed.

Lemma b64encode_nonempty bs : bs <> [] -> b64encode bs <> "".
Proof.
  intros Hne. unfold b64encode.
  destruct bs as [|a [|b [|c rest]]]; [congruence| | |]; discriminate.
Qed.

End Base64Facts.

(** ** Strings and clock readings *)

Local Open Scope string_scope.

Lemma append_cons c (s r : string) : String c s ++ r = String c (s ++ r).
Proof. reflexivity. Qed.

Lemma append_nil (r : string) : "" ++ r = r.
Proof. reflexivity. Qed.

Lemma append_assoc (a b c : string) : (a ++ b) ++ c = a ++ b ++ c.
Proof.
  induction a as [|x a IH]; [reflexivity|].
  rewrite !append_cons. f_equal. exact IH.
Qed.

Lemma append_empty_r (s : string) : s ++ "" = s.
Proof.
  induction s as [|x s IH]; [reflexivity|].
  rewrite append_cons. f_equal. exact IH.
Qed.

Lemma startswith_spec s p : startswith s p = true <-> exists r, s = p ++ r.
Proof.
  revert s. induction p as [|c p IH]; intros s; cbn [startswith].
  - split; [intros _; exists s; reflexivity | reflexivity].
  - destruct s as [|d s].
    + split; [discriminate | intros [r Hr]; discriminate Hr].
    + rewrite andb_true_iff, Ascii.eqb_eq, IH. split.
      * intros [-> [r ->]]. exists r. reflexivity.
      * intros [r Hr]. rewrite append_cons in Hr. injection Hr as -> ->. eauto.
Qed.

Lemma startswith_app p r : startswith (p ++ r) p = true.
Proof. apply startswith_spec. eauto. Qed.

Lemma startswith_app_cancel p a b : startswith (p ++ a) (p ++ b) = startswith a b.
Proof.
  induction p as [|c p IH]; [reflexivity|].
  rewrite !append_cons. cbn [startswith]. rewrite Ascii.eqb_refl. exact IH.
Qed.

Lemma startswith_trans a b c :
  startswith a b = true -> startswith b c = true -> startswith a c = true.
Proof.
  rewrite !startswith_spec. intros [r ->] [r' ->].
  exists (r' ++ r). apply append_assoc.
Qed.

(** A prefix of a concatenation lies within the first part or reaches
    into the second. *)
Lemma startswith_app_inv b c a :
  startswith (b ++ c) a = true ->
  startswith b a = true
  \/ exists a', a = b ++ a' /\ a' <> "" /\ startswith c a' = true.
Proof.
  revert a. induction b as [|x b IH]; intros a H.
  - destruct a as [|y a]; [left; reflexivity|].
    right. exists (String y a). repeat split; [discriminate | exact H].
  - destruct a as [|y a]; [left; reflexivity|].
    rewrite append_cons in H. cbn [startswith] in H. apply andb_prop in H as [Hxy H].
    apply Ascii.eqb_eq in Hxy. subst y.
    destruct (IH a H) as [Hb | (a' & -> & Hne & Hc)].
    + left. cbn [startswith]. rewrite Ascii.eqb_refl. exact Hb.
    + right. exists a'. repeat split; assumption.
Qed.

Lemma Qltb_lt x y : Qltb x y = true <-> (x < y)%Q.
Proof.
  unfold Qltb. rewrite negb_true_iff. split.
  - intros H. apply Qnot_le_lt. intros Hle.
    apply Qle_bool_iff in Hle. congruence.
  - intros H. destruct (Qle_bool y x) eqn:E; [|reflexivity].
    apply Qle_bool_iff in E. exfalso. exact (Qlt_not_le _ _ H E).
Qed.

Lemma Qltb_ge x y : Qltb x y = false <-> (y <= x)%Q.
Proof.
  unfold Qltb. rewrite negb_false_iff. apply Qle_bool_iff.
Qed.

(** ** The verification cache *)

Module VerificationCacheFacts.
Import VerificationCache.

(** No request on record, or one at least a window old: not throttled,
    and the reading is recorded. *)
Lemma is_throttled_idle now d c :
  (forall last, _request_timestamps c !! d = Some last -> (60 <= now - last)%Q) ->
  is_throttled now d c = (false, recorded now d c).
Proof.
  intros Hidle. unfold is_throttled, recorded.
  destruct (_request_timestamps c !! d) as [last|] eqn:E.
  - specialize (Hidle last eq_refl).
    assert (Hge : Qltb (now - last) (inject_Z throttle_window) = false)
      by (apply Qltb_ge; exact Hidle).
    rewrite Hge, andb_false_r. reflexivity.
  - reflexivity.
Qed.

(** A request on record less than a window ago: throttled, state untouched. *)
Lemma is_throttled_recent now d c last :
  _request_timestamps c !! d = Some last ->
  ~ (last == 0)%Q ->
  (now - last < 60)%Q ->
  is_throttled now d c = (true, c).
Proof.
  intros Hlast Hnz Hlt. unfold is_throttled. rewrite Hlast.
  assert (Hz : Qeq_bool last 0 = false).
  { destruct (Qeq_bool last 0) eqn:E; [|reflexivity].
    apply Qeq_bool_iff in E. contradiction. }
  assert (Hw : Qltb (now - last) (inject_Z throttle_window) = true)
    by (apply Qltb_lt; exact Hlt).
  rewrite Hz, Hw. reflexivity.
Qed.

(** A reading of exactly [0.0] on record counts as no record at all. *)
Lemma is_throttled_epoch now d c :
  _request_timestamps c !! d = Some 0%Q ->
  is_throttled now d c = (false, recorded now d c).
Proof.
  intros Hlast. unfold is_throttled. rewrite Hlast. reflexivity.
Qed.

Lemma invalidate_lookup d c k :
  _cache (invalidate d c) !! k
  = if startswith k ("verify:" ++ d) then None else _cache c !! k.
Proof.
  unfold invalidate. cbn [_cache].
  set (js := filter _ _).
  assert (Hjs : forall j, j ∈ js <->
            startswith j ("verify:" ++ d) = true /\ is_Some (_cache c !! j)).
  { intros j. unfold js. rewrite list_elem_of_filter, list_elem_of_fmap. split.
    - intros [Hp ([j' e] & -> & Hin)]. split; [exact Hp|].
      apply elem_of_map_to_list in Hin. cbn. eauto.
    - intros [Hp [e He]]. split; [exact Hp|].
      exists (j, e). split; [reflexivity|]. apply elem_of_map_to_list. exact He. }
  destruct (startswith k ("verify:" ++ d)) eqn:Hk.
  - destruct (_cache c !! k) as [e|] eqn:He.
    + apply lookup_foldr_delete, Hjs. eauto.
    + destruct (foldr delete (_cache c) js !! k) as [y|] eqn:Hy; [|reflexivity].
      apply lookup_foldr_delete_Some in Hy as [_ Hy]. congruence.
  - apply lookup_foldr_delete_not_elem_of. intros Hin.
    apply Hjs in Hin as [Hp _]. congruence.
Qed.

(** Every key generated for a document starts with its name space. *)
Lemma cache_key_namespace d ch :
  exists suffix, _generate_cache_key d ch = "verify:" ++ d ++ suffix
                 /\ (suffix = "" \/ exists h, suffix = ":" ++ h).
Proof.
  unfold _generate_cache_key. destruct ch as [[|a h]|].
  - exists "". rewrite append_empty_r. split; [reflexivity | left; reflexivity].
  - exists (":" ++ substring 0 16 (String a h)). split; [reflexivity|]. right. eauto.
  - exists "". rewrite append_empty_r. split; [reflexivity | left; reflexivity].
Qed.

(** The throttle gate never touches the entries. *)
Lemma is_throttled_cache now d c : _cache (snd (is_throttled now d c)) = _cache c.
Proof. unfold is_throttled. destruct (match _ with Some _ => _ | None => _ end); reflexivity. Qed.

(** What [get] answers depends on the entries only. *)
Lemma get_answer now d ch c c' :
  _cache c = _cache c' -> fst (get now d ch c) = fst (get now d ch c').
Proof.
  intros E. unfold get. rewrite E.
  destruct (_cache c' !! _) as [entry|]; [|reflexivity].
  destruct (Qltb _ _); reflexivity.
Qed.

(** [get] adds no entry: it may only evict the one it looked at. *)
Lemma get_entries now d ch c k entry :
  _cache (snd (get now d ch c)) !! k = Some entry -> _cache c !! k = Some entry.
Proof.
  unfold get. destruct (_cache c !! _generate_cache_key d ch) as [e|]; [|tauto].
  destruct (Qltb _ _); cbn [snd _cache]; [|tauto].
  intros H. apply lookup_delete_Some in H. tauto.
Qed.

End VerificationCacheFacts.

(** ** Throttle window and invalidation *)

Section CacheClaims.
Import VerificationCache VerificationCacheFacts.

(** C6.  Throttle window, for every document [d]: (1) when no request
    for [d] is on record within the last 60 seconds, [is_throttled] answers
    false and records the current reading; (2) when the last recorded
    request is less than 60 seconds old, it answers true and leaves the
    state, hence the recorded reading, unchanged; (3) hence two calls
    within 60 seconds answer false then true, and a third call once the
    window has elapsed answers false again.  Clock readings are those of a
    running system, after the epoch: a recorded reading is not [0.0]. *)
Theorem is_throttled_window (d : string) :
  (forall (c : t) (now : Q),
      (forall last, _request_timestamps c !! d = Some last -> (60 <= now - last)%Q) ->
      is_throttled now d c = (false, recorded now d c)
      /\ _request_timestamps (recorded now d c) !! d = Some now)
  /\ (forall (c : t) (now last : Q),
         _request_timestamps c !! d = Some last ->
         ~ (last == 0)%Q ->
         (now - last < 60)%Q ->
         is_throttled now d c = (true, c))
  /\ (forall (c : t) (t1 t2 t3 : Q),
         (forall last, _request_timestamps c !! d = Some last -> (60 <= t1 - last)%Q) ->
         ~ (t1 == 0)%Q ->
         (t2 - t1 < 60)%Q ->
         (60 <= t3 - t1)%Q ->
         exists c1 c3,
           is_throttled t1 d c = (false, c1)
           /\ is_throttled t2 d c1 = (true, c1)
           /\ is_throttled t3 d c1 = (false, c3)).
Proof.
  assert (Hrec : forall c now, _request_timestamps (recorded now d c) !! d = Some now)
    by (intros c now; unfold recorded; cbn [_request_timestamps]; apply lookup_insert_eq).
  split; [|split].
  - intros c now Hidle. split; [apply is_throttled_idle; exact Hidle | apply Hrec].
  - intros c now last. apply is_throttled_recent.
  - intros c t1 t2 t3 Hidle Hnz H2 H3.
    exists (recorded t1 d c), (recorded t3 d (recorded t1 d c)).
    split; [apply is_throttled_idle; exact Hidle|].
    split; [apply (is_throttled_recent t2 d _ t1); [apply Hrec | assumption..]|].
    apply is_throttled_idle. intros last Hl.
    rewrite Hrec in Hl. injection Hl as <-. exact H3.
Qed.

Lemma is_throttled_window_witness :
  (is_throttled 1000 "doc-1" init = (false, recorded 1000 "doc-1" init)
   /\ _request_timestamps (recorded 1000 "doc-1" init) !! "doc-1" = Some 1000%Q)
  /\ is_throttled 1030 "doc-1" (recorded 1000 "doc-1" init)
     = (true, recorded 1000 "doc-1" init)
  /\ exists c1 c3,
       is_throttled 1000 "doc-1" init = (false, c1)
       /\ is_throttled 1030 "doc-1" c1 = (true, c1)
       /\ is_throttled 1060 "doc-1" c1 = (false, c3).
Proof.
  destruct (is_throttled_window "doc-1") as (Hidle & Hrecent & Hseq).
  split; [|split].
  - apply Hidle. intros last H. vm_compute in H. discriminate H.
  - apply (Hrecent _ 1030%Q 1000%Q).
    + reflexivity.
    + intros H. vm_compute in H. discriminate H.
    + reflexivity.
  - apply Hseq.
    + intros last H. vm_compute in H. discriminate H.
    + intros H. vm_compute in H. discriminate H.
    + reflexivity.
    + vm_compute. discriminate.
Defined.

(** C9, amended.  Invalidation selects keys by the raw prefix
    ["verify:" + document_id]: (1) when [d2] is a prefix of [d1],
    [invalidate(d2)] removes every entry stored for [d1], with or without
    a content hash; (2) an entry of a document [d3] is left unchanged when
    [d3] does not start with [d2] and [d2] does not reach past [d3] and
    its separator, that is, does not start with [d3 + ":"]. *)
Theorem invalidate_raw_prefix (d2 : string) (c : t) :
  (forall (d1 : string) (ch : option string),
      startswith d1 d2 = true ->
      _cache (invalidate d2 c) !! _generate_cache_key d1 ch = None)
  /\ (forall (d3 : string) (ch : option string),
         startswith d3 d2 = false ->
         startswith d2 (d3 ++ ":") = false ->
         _cache (invalidate d2 c) !! _generate_cache_key d3 ch
         = _cache c !! _generate_cache_key d3 ch).
Proof.
  split.
  - intros d1 ch H1. rewrite invalidate_lookup.
    destruct (cache_key_namespace d1 ch) as (sfx & -> & _).
    rewrite startswith_app_cancel.
    assert (Hp : startswith (d1 ++ sfx) d2 = true).
    { apply (startswith_trans _ d1); [apply startswith_app | exact H1]. }
    rewrite Hp. reflexivity.
  - intros d3 ch H3 H23. rewrite invalidate_lookup.
    destruct (cache_key_namespace d3 ch) as (sfx & -> & Hsfx).
    rewrite startswith_app_cancel.
    destruct (startswith (d3 ++ sfx) d2) eqn:Hp; [exfalso|reflexivity].
    apply startswith_app_inv in Hp as [Hp | (a' & -> & Hne & Hp)]; [congruence|].
    destruct a' as [|x a']; [congruence|].
    destruct Hsfx as [-> | [h ->]]; [discriminate Hp|].
    rewrite append_cons, append_nil in Hp. cbn [startswith] in Hp.
    apply andb_prop in Hp as [Hx _]. apply Ascii.eqb_eq in Hx. subst x.
    change (String ":" a') with (":" ++ a') in H23.
    rewrite <- append_assoc, startswith_app in H23. discriminate H23.
Qed.

Lemma invalidate_raw_prefix_witness :
  _cache (invalidate "doc" two_documents)
    !! _generate_cache_key "doc-1" (Some "2cf24dba5fb0a30e26e8") = None
  /\ _cache (invalidate "doc" two_documents)
       !! _generate_cache_key "other" (Some "0123456789abcdef0123")
     = _cache two_documents !! _generate_cache_key "other" (Some "0123456789abcdef0123").
Proof.
  destruct (invalidate_raw_prefix "doc" two_documents) as (Hover & Hframe).
  split.
  - apply Hover. reflexivity.
  - apply Hframe; reflexivity.
Defined.

(** The frame clause of C9 as first stated: every entry of a document whose
    identifier does not start with [d2] survives [invalidate(d2)].  It fails
    for [d2 = "doc:2c"] and the entry of ["doc"] under the hash prefix
    [2cf24dba5fb0a30e]: the key ["verify:doc:2cf24dba5fb0a30e"] starts with
    ["verify:doc:2c"]. *)
Lemma invalidate_frame_counterexample :
  ~ (forall (d2 d3 : string) (ch : option string) (c : t),
        startswith d3 d2 = false ->
        _cache (invalidate d2 c) !! _generate_cache_key d3 ch
        = _cache c !! _generate_cache_key d3 ch).
Proof.
  intros H.
  specialize (H "doc:2c" "doc" (Some "2cf24dba5fb0a30e26e8")
                (set 1000 "doc" [("status", PyStr "VERIFIED")]
                     (Some "2cf24dba5fb0a30e26e8") None init) eq_refl).
  vm_compute in H. discriminate H.
Qed.

End CacheClaims.

(** ** The service *)

Module ServiceFacts.
Import GCULBlockchainService.

Arguments sha256_hexdigest : simpl never.
Arguments sha256_digest : simpl never.
Arguments Base64.b64encode : simpl never.
Arguments Base64.b64decode : simpl never.
Arguments block_data : simpl never.

(** *** What a call leaves untouched *)

Lemma preserves_ret {X A} (f : World -> X) (a : A) : preserves f (ret a).
Proof. intros w. reflexivity. Qed.

Lemma preserves_raise {X A} (f : World -> X) e : preserves f (@raise A e).
Proof. intros w. reflexivity. Qed.

Lemma preserves_lift {X A} (f : World -> X) (r : Result A) : preserves f (lift r).
Proof. intros w. reflexivity. Qed.

Lemma preserves_bind {X A B} (f : World -> X) (m : M A) (k : A -> M B) :
  preserves f m -> (forall a, preserves f (k a)) -> preserves f (bind m k).
Proof.
  intros Hm Hk w. unfold bind. specialize (Hm w).
  destruct (m w) as [[a|e] w']; cbn [snd] in *; [rewrite Hk|]; exact Hm.
Qed.

Lemma preserves_try {X A} (f : World -> X) (m : M A) (h : string -> M A) :
  preserves f m -> (forall e, preserves f (h e)) -> preserves f (try_except m h).
Proof.
  intros Hm Hh w. unfold try_except. specialize (Hm w).
  destruct (m w) as [[a|e] w']; cbn [snd] in *; [|rewrite Hh]; exact Hm.
Qed.


Arguments latest_block : simpl never.
Arguments latest_hash_record : simpl never.

(** A collaborator call, by running it. *)
Ltac frame_call :=
  let w := fresh "w" in
  intros w;
  unfold next_tick, time_time, uuid_uuid4, asymmetric_sign, encrypt, decrypt, kms_call,
    snapshot, batch_insert, upload_from_string, storage_read, storage_fetch,
    _get_working_storage_credentials, new_storage_client,
    cache_is_throttled, cache_get, cache_set, bind, ret, raise, lift;
  cbn;
  repeat match goal with
         | |- context [match ?x with _ => _ end] => destruct x; cbn
         end;
  reflexivity.

(** A composite call, along its structure. *)
Ltac frame :=
  repeat first
    [ apply preserves_ret
    | apply preserves_raise
    | apply preserves_lift
    | apply preserves_bind; [|intros ?]
    | apply preserves_try; [|intros ?]
    | match goal with
      | |- preserves _ (if ?b then _ else _) => destruct b
      | |- preserves _ (match ?x with _ => _ end) => destruct x
      end
    | solve [frame_call] ].

Lemma verify_preserves_ledger env id content :
  preserves ledger (verify_document_integrity env id content).
Proof. unfold verify_document_integrity, verify_body, verify_from_ledger. frame. Qed.

Lemma verify_preserves_kms env id content :
  preserves kms_requests (verify_document_integrity env id content).
Proof. unfold verify_document_integrity, verify_body, verify_from_ledger. frame. Qed.

Lemma encrypt_preserves_ledger env content metadata :
  preserves ledger (encrypt_document env content metadata).
Proof. unfold encrypt_document. frame. Qed.

Lemma decrypt_preserves_ledger env blob_name :
  preserves ledger (decrypt_document env blob_name).
Proof. unfold decrypt_document. frame. Qed.

(** *** The hash chain *)

Lemma steps_preserves {A} (m : M A) : preserves HashChain m -> steps m.
Proof. intros H w. left. apply H. Qed.

Lemma steps_after {A B} (m : M A) (k : A -> M B) :
  preserves HashChain m -> (forall a, steps (k a)) -> steps (bind m k).
Proof.
  intros Hm Hk w. unfold bind. specialize (Hm w).
  destruct (m w) as [[a|e] w']; cbn [snd] in *.
  - rewrite <- Hm. apply Hk.
  - left. exact Hm.
Qed.

Lemma steps_before {A B} (m : M A) (k : A -> M B) :
  steps m -> (forall a, preserves HashChain (k a)) -> steps (bind m k).
Proof.
  intros Hm Hk w. unfold bind. specialize (Hm w).
  destruct (m w) as [[a|e] w']; cbn [snd] in *; [rewrite Hk|]; exact Hm.
Qed.

(** The append either raises and leaves the table alone, or returns and
    has added one block linked to the latest one. *)
Lemma add_to_hash_chain_effect env hashes w :
  match _add_to_hash_chain env hashes w with
  | (Ok _, w') =>
      exists b, HashChain w' = (HashChain w ++ [b])%list
                /\ linked (latest_block (HashChain w)) b
                /\ document_hashes b = hashes
  | (Raised _, w') => HashChain w' = HashChain w
  end.
Proof.
  unfold _add_to_hash_chain, snapshot, uuid_uuid4, asymmetric_sign, kms_call, time_time,
    batch_insert, next_tick, bind, ret, raise, lift.
  cbn.
  destruct (snapshot_fault env (tick w)) as [e|]; cbn; [reflexivity|].
  destruct (kms_asymmetric_sign env _ _ _) as [sig|e]; cbn; [|reflexivity].
  destruct (commit_fault env _) as [e|]; cbn; [reflexivity|].
  eexists. split; [reflexivity|]. split; [|reflexivity].
  unfold linked, recomputed_hash. cbn.
  destruct (latest_block (HashChain w)); repeat split; reflexivity.
Qed.

Lemma add_to_hash_chain_steps env hashes : steps (_add_to_hash_chain env hashes).
Proof.
  intros w. pose proof (add_to_hash_chain_effect env hashes w) as H.
  destruct (_add_to_hash_chain env hashes w) as [[a|e] w']; cbn [snd].
  - destruct H as (b & Hb & Hl & _). right. eauto.
  - left. exact H.
Qed.

Lemma create_document_hash_record_steps env id content text user metadata :
  steps (create_document_hash_record env id content text user metadata).
Proof.
  unfold create_document_hash_record.
  apply steps_after; [frame|intros hash_id].
  apply steps_after; [frame|intros sign_response].
  apply steps_after; [frame|intros now].
  apply steps_after; [frame|intros _].
  apply steps_before; [apply add_to_hash_chain_steps | intros; frame].
Qed.

Lemma preserves_ledger_chain {A} (m : M A) : preserves ledger m -> preserves HashChain m.
Proof. intros H w. specialize (H w). unfold ledger in H. congruence. Qed.

Lemma perform_steps env c w :
  chain_step (HashChain w) (HashChain (snd (perform env c w))).
Proof.
  destruct c as [hashes | id content text user metadata | id content
                | content metadata | blob_name]; cbn [perform].
  - pose proof (add_to_hash_chain_steps env hashes w) as H.
    destruct (_add_to_hash_chain env hashes w). exact H.
  - pose proof (create_document_hash_record_steps env id content text user metadata w) as H.
    destruct (create_document_hash_record env id content text user metadata w). exact H.
  - pose proof (steps_preserves _ (preserves_ledger_chain _
                  (verify_preserves_ledger env id content)) w) as H.
    destruct (verify_document_integrity env id content w). exact H.
  - pose proof (steps_preserves _ (preserves_ledger_chain _
                  (encrypt_preserves_ledger env content metadata)) w) as H.
    destruct (encrypt_document env content metadata w). exact H.
  - pose proof (steps_preserves _ (preserves_ledger_chain _
                  (decrypt_preserves_ledger env blob_name)) w) as H.
    destruct (decrypt_document env blob_name w). exact H.
Qed.

(** On a continuous chain the latest block is the last one inserted. *)
Lemma chain_continuous_prefix l b : chain_continuous (l ++ [b]) -> chain_continuous l.
Proof.
  intros H k x Hk.
  assert (Hk' : (l ++ [b])%list !! k = Some x)
    by (rewrite lookup_app_l; [exact Hk | eapply lookup_lt_Some; exact Hk]).
  destruct (H k x Hk') as (Hn & Hh & Hp). repeat split; [exact Hn | exact Hh |].
  destruct k as [|j]; [exact Hp|].
  destruct Hp as (p & Hj & Hp). exists p. split; [|exact Hp].
  rewrite lookup_app_l in Hj; [exact Hj|].
  apply lookup_lt_Some in Hk. lia.
Qed.

Lemma latest_block_snoc l b :
  latest_block (l ++ [b])
  = match latest_block l with
    | Some a => if (block_number a <=? block_number b)%Z then Some b else Some a
    | None => Some b
    end.
Proof. unfold latest_block. rewrite fold_left_app. reflexivity. Qed.

Lemma latest_block_continuous l : chain_continuous l -> latest_block l = last l.
Proof.
  induction l as [|b l IH] using rev_ind; intros Hc; [reflexivity|].
  rewrite latest_block_snoc, last_snoc.
  rewrite (IH (chain_continuous_prefix _ _ Hc)).
  destruct (last l) as [p|] eqn:Hlast; [|reflexivity].
  assert (Hb : (l ++ [b])%list !! length l = Some b).
  { rewrite lookup_app_r by lia. rewrite Nat.sub_diag. reflexivity. }
  destruct (Hc _ _ Hb) as (Hnb & _ & _).
  apply last_Some in Hlast as [l' ->].
  assert (Hp : ((l' ++ [p]) ++ [b])%list !! length l' = Some p).
  { rewrite lookup_app_l by (rewrite length_app; cbn; lia).
    rewrite lookup_app_r by lia. rewrite Nat.sub_diag. reflexivity. }
  destruct (Hc _ _ Hp) as (Hnp & _ & _).
  rewrite length_app in Hnb. cbn [length] in Hnb.
  destruct (Z.leb_spec (block_number p) (block_number b)); [reflexivity | lia].
Qed.

Lemma chain_continuous_nil : chain_continuous [].
Proof. intros k b Hk. rewrite lookup_nil in Hk. discriminate Hk. Qed.

Lemma chain_continuous_step l l' :
  chain_continuous l -> chain_step l l' -> chain_continuous l'.
Proof.
  intros Hc [-> | (b & -> & Hn & Hp & Hh)]; [exact Hc|].
  rewrite (latest_block_continuous l Hc) in Hn, Hp.
  intros k x Hk.
  destruct (decide (k < length l)%nat) as [Hlt|Hge].
  - rewrite lookup_app_l in Hk by exact Hlt.
    destruct (Hc k x Hk) as (Hxn & Hxh & Hxp). repeat split; [exact Hxn | exact Hxh |].
    destruct k as [|j]; [exact Hxp|].
    destruct Hxp as (p & Hj & Hxp). exists p. split; [|exact Hxp].
    rewrite lookup_app_l by lia. exact Hj.
  - assert (k = length l).
    { apply lookup_lt_Some in Hk. rewrite length_app in Hk. cbn [length] in Hk. lia. }
    subst k. rewrite lookup_app_r in Hk by lia.
    rewrite Nat.sub_diag in Hk. injection Hk as <-.
    destruct (last l) as [p|] eqn:Hlast.
    + apply last_Some in Hlast as [l' ->].
      assert (Hpl : (l' ++ [p])%list !! length l' = Some p).
      { rewrite lookup_app_r by lia. rewrite Nat.sub_diag. reflexivity. }
      destruct (Hc _ _ Hpl) as (Hpn & _ & _).
      rewrite length_app. cbn [length].
      repeat split; [lia | exact Hh |].
      replace (length l' + 1)%nat with (S (length l')) by lia.
      exists p. split; [|exact Hp].
      rewrite lookup_app_l by (rewrite length_app; cbn; lia). exact Hpl.
    + apply last_None in Hlast. subst l. cbn [length].
      repeat split; [exact Hn | exact Hh | exact Hp].
Qed.

Lemma run_chain_continuous env calls w :
  chain_continuous (HashChain w) -> chain_continuous (HashChain (run env calls w)).
Proof.
  revert w. induction calls as [|c calls IH]; intros w Hc; [exact Hc|].
  cbn [run fold_left]. apply IH.
  eapply chain_continuous_step; [exact Hc | apply perform_steps].
Qed.

(** Then the append returns the new block's identifier and the chain grows. *)
Lemma add_to_hash_chain_returns env hashes w :
  ledger_answers env ->
  exists w' b,
    _add_to_hash_chain env hashes w = (Ok (uuid4 env (S (tick w))), w')
    /\ HashChain w' = (HashChain w ++ [b])%list
    /\ chain_id b = uuid4 env (S (tick w)).
Proof.
  intros (Hs & Hc & Hk).
  unfold _add_to_hash_chain, snapshot, uuid_uuid4, asymmetric_sign, kms_call, time_time,
    batch_insert, next_tick, bind, ret, raise, lift.
  cbn. rewrite Hs. cbn.
  match goal with
  | |- context [kms_asymmetric_sign env ?n ?name ?d] =>
      destruct (Hk n name d) as [sig ->]
  end.
  cbn. rewrite Hc. cbn. eexists. eexists. repeat split.
Qed.

(** *** Verification *)

Arguments VerificationCache.is_throttled : simpl never.
Arguments VerificationCache.get : simpl never.
Arguments VerificationCache.set : simpl never.
Arguments VerificationCache._generate_cache_key : simpl never.

Lemma verify_body_reaches_ledger env id content w :
  not_throttled env id w ->
  cache_miss env id (sha256_hexdigest content) w ->
  exists w1, cache_only w w1
             /\ verify_body env id content w
                = verify_from_ledger env id (sha256_hexdigest content) w1.
Proof.
  unfold not_throttled, cache_miss. intros Hgate Hmiss.
  unfold verify_body, cache_is_throttled, cache_get, time_time, next_tick, bind, ret,
    _calculate_file_hash.
  cbn.
  pose proof (VerificationCacheFacts.is_throttled_cache (clock env (tick w)) id (cache w)) as Hc.
  destruct (VerificationCache.is_throttled (clock env (tick w)) id (cache w)) as [b c1].
  cbn [fst snd] in Hgate, Hc. subst b. cbn.
  rewrite Hc.
  destruct (VerificationCache._cache (cache w) !! _) as [entry|] eqn:Hkey; cbn.
  - rewrite (VerificationCacheFacts.get_answer _ _ _ (cache w) c1) in Hmiss by congruence.
    pose proof (VerificationCacheFacts.get_entries (clock env (S (tick w))) id
                  (Some (sha256_hexdigest content)) c1) as Hsub.
    destruct (VerificationCache.get _ _ _ c1) as [r c2]. cbn [fst snd] in Hmiss, Hsub.
    cbn. rewrite Hmiss. eexists. split; [|reflexivity].
    repeat split. cbn. intros k e He. rewrite <- Hc. eauto.
  - eexists. split; [|reflexivity].
    repeat split. cbn. intros k e He. rewrite <- Hc. exact He.
Qed.

Lemma verify_from_ledger_returns env id h w1 :
  snapshot_fault env (tick w1) = None ->
  exists w',
    verify_from_ledger env id h w1
    = (Ok (ledger_result h (latest_hash_record id (DocumentHashes w1))), w')
    /\ kms_requests w' = kms_requests w1
    /\ snapshot_reads w' = S (snapshot_reads w1).
Proof.
  intros Hread.
  unfold verify_from_ledger, snapshot, cache_set, time_time, next_tick, bind, ret, raise.
  cbn. rewrite Hread. cbn.
  destruct (latest_hash_record id (DocumentHashes w1)); cbn;
    eexists; repeat split.
Qed.

Lemma verify_from_ledger_raises env id h w1 e :
  snapshot_fault env (tick w1) = Some e ->
  exists w', verify_from_ledger env id h w1 = (Raised e, w') /\ cache w' = cache w1.
Proof.
  intros Hread.
  unfold verify_from_ledger, snapshot, next_tick, bind, ret, raise.
  cbn. rewrite Hread. cbn. eexists. split; reflexivity.
Qed.

(** A ledger that refuses the read makes the [try] block raise. *)
Lemma verify_body_ledger_fault env id content w e :
  not_throttled env id w ->
  cache_miss env id (sha256_hexdigest content) w ->
  (forall n, snapshot_fault env n = Some e) ->
  exists w', verify_body env id content w = (Raised e, w').
Proof.
  intros Hgate Hmiss Hfault.
  destruct (verify_body_reaches_ledger env id content w Hgate Hmiss) as (w1 & _ & ->).
  destruct (verify_from_ledger_raises env id (sha256_hexdigest content) w1 e (Hfault _))
    as (w' & -> & _).
  eauto.
Qed.

(** When the [try] block raises, the cache has gained no entry. *)
Lemma verify_body_raised env id content w e w1 :
  verify_body env id content w = (Raised e, w1) ->
  forall k entry,
    VerificationCache._cache (cache w1) !! k = Some entry ->
    VerificationCache._cache (cache w) !! k = Some entry.
Proof.
  unfold verify_body, verify_from_ledger, cache_is_throttled, cache_get, cache_set,
    snapshot, time_time, next_tick, bind, ret, raise, _calculate_file_hash.
  cbn.
  pose proof (VerificationCacheFacts.is_throttled_cache (clock env (tick w)) id (cache w)) as Hc.
  destruct (VerificationCache.is_throttled (clock env (tick w)) id (cache w)) as [b c1].
  cbn [snd] in Hc. cbn.
  destruct b; cbn; rewrite Hc.
  - destruct (VerificationCache._cache (cache w) !! _); cbn;
      [destruct (VerificationCache.get _ _ _ c1) as [r c2]; cbn;
       destruct (truthy_dict _)|]; discriminate.
  - destruct (VerificationCache._cache (cache w) !! _) eqn:Hkey; cbn.
    + pose proof (VerificationCacheFacts.get_entries (clock env (S (tick w))) id
                    (Some (sha256_hexdigest content)) c1) as Hsub.
      destruct (VerificationCache.get _ _ _ c1) as [r c2]. cbn [snd] in Hsub. cbn.
      destruct (truthy_dict r); [discriminate|]. cbn.
      destruct (snapshot_fault env _); cbn.
      * intros [= <- <-] k entry Hk. cbn in Hk. rewrite <- Hc. eauto.
      * destruct (latest_hash_record _ _); discriminate.
    + destruct (snapshot_fault env _); cbn.
      * intros [= <- <-] k entry Hk. cbn in Hk. rewrite <- Hc. exact Hk.
      * destruct (latest_hash_record _ _); discriminate.
Qed.

(** *** The query for the most recent record *)

Lemma latest_hash_record_snoc id rows r :
  latest_hash_record id (rows ++ [r])
  = if String.eqb (document_id r) id then
      match latest_hash_record id rows with
      | Some a => if Qle_bool (timestamp a) (timestamp r) then Some r else Some a
      | None => Some r
      end
    else latest_hash_record id rows.
Proof. unfold latest_hash_record. rewrite fold_left_app. reflexivity. Qed.


(** What the query returns is a row of the document, and none is more recent. *)
Lemma latest_hash_record_most_recent id rows r :
  latest_hash_record id rows = Some r ->
  r ∈ rows /\ document_id r = id
  /\ forall r', r' ∈ rows -> document_id r' = id -> (timestamp r' <= timestamp r)%Q.
Proof.
  revert r. induction rows as [|x rows IH] using rev_ind; intros r; [discriminate|].
  rewrite latest_hash_record_snoc.
  assert (Hmem : forall y, y ∈ (rows ++ [x])%list <-> y ∈ rows \/ y = x).
  { intros y. rewrite elem_of_app, list_elem_of_singleton. reflexivity. }
  destruct (String.eqb_spec (document_id x) id) as [E|NE].
  - destruct (latest_hash_record id rows) as [a|] eqn:Ha.
    + destruct (IH a eq_refl) as (Hin & Hid & Hmax).
      destruct (Qle_bool (timestamp a) (timestamp x)) eqn:Hle; intros [= <-].
      * apply Qle_bool_iff in Hle. split; [apply Hmem; right; reflexivity|].
        split; [exact E|]. intros r' Hr' Hr'id. apply Hmem in Hr' as [Hr'| ->].
        -- apply (Qle_trans _ (timestamp a)); [apply Hmax; assumption | exact Hle].
        -- apply Qle_refl.
      * split; [apply Hmem; left; exact Hin|]. split; [exact Hid|].
        intros r' Hr' Hr'id. apply Hmem in Hr' as [Hr'| ->]; [apply Hmax; assumption|].
        apply Qlt_le_weak, Qnot_le_lt. intros Hc.
        apply Qle_bool_iff in Hc. congruence.
    + intros [= <-]. split; [apply Hmem; right; reflexivity|]. split; [exact E|].
      intros r' Hr' Hr'id. apply Hmem in Hr' as [Hr'| ->]; [|apply Qle_refl].
      exfalso.
      assert (Hnone : forall y, y ∈ rows -> document_id y <> id).
      { clear -Ha. induction rows as [|z rows IHr] using rev_ind; intros y Hy.
        - apply elem_of_nil in Hy. destruct Hy.
        - rewrite latest_hash_record_snoc in Ha.
          destruct (String.eqb_spec (document_id z) id) as [Ez|NEz].
          + destruct (latest_hash_record id rows) as [a|];
              [destruct (Qle_bool _ _)|]; discriminate Ha.
          + apply elem_of_app in Hy as [Hy|Hy]; [apply IHr; assumption|].
            apply list_elem_of_singleton in Hy. subst y. exact NEz. }
      exact (Hnone r' Hr' Hr'id).
  - intros Hr. destruct (IH r Hr) as (Hin & Hid & Hmax).
    split; [apply Hmem; left; exact Hin|]. split; [exact Hid|].
    intros r' Hr' Hr'id. apply Hmem in Hr' as [Hr'| ->]; [apply Hmax; assumption|].
    contradiction.
Qed.

(** A throttled call with nothing cached under the bare key answers
    [THROTTLED] and reads nothing from the ledger. *)
Lemma verify_throttled_uncached env id content w :
  fst (VerificationCache.is_throttled (clock env (tick w)) id (cache w)) = true ->
  VerificationCache._cache (cache w) !! VerificationCache._generate_cache_key id None = None ->
  exists w', verify_document_integrity env id content w = (Ok throttled_result, w')
             /\ snapshot_reads w' = snapshot_reads w.
Proof.
  intros Hgate Hkey.
  unfold verify_document_integrity, try_except, verify_body, cache_is_throttled, cache_get,
    time_time, next_tick, bind, ret.
  cbn.
  pose proof (VerificationCacheFacts.is_throttled_cache (clock env (tick w)) id (cache w)) as Hc.
  destruct (VerificationCache.is_throttled (clock env (tick w)) id (cache w)) as [b c1].
  cbn [fst snd] in Hgate, Hc. subst b. cbn. rewrite Hc, Hkey. cbn.
  eexists. split; reflexivity.
Qed.

(** *** Envelope encryption *)

Arguments upload_metadata : simpl never.

(** What a returned [encrypt_document] has put in the bucket. *)
Lemma encrypt_document_stores env content metadata w blob_name meta w1 :
  encrypt_document env content metadata w = (Ok (blob_name, meta), w1) ->
  exists encrypted_content encrypted_dek,
    Fernet_encrypt env (1 + tick w) (Fernet_generate_key env (tick w)) content
    = Ok encrypted_content
    /\ kms_encrypt env (2 + tick w) (_get_encryption_key_name env)
         (Fernet_generate_key env (tick w)) = Ok encrypted_dek
    /\ blobs w1 !! blob_name
       = Some {| blob_content := encrypted_content;
                 blob_metadata :=
                   Some (upload_metadata metadata (_get_encryption_key_name env)
                           content encrypted_content encrypted_dek) |}.
Proof.
  unfold encrypt_document, encrypt, kms_call, upload_from_string,
    _get_working_storage_credentials, new_storage_client, uuid_uuid4, time_time,
    next_tick, try_except, bind, ret, raise, lift.
  cbn.
  destruct (Fernet_encrypt env _ _ _) as [ec|e]; cbn; [|discriminate].
  destruct (kms_encrypt env _ _ _) as [ed|e]; cbn; [|discriminate].
  destruct (upload_fault env (S (S (S (S (tick w)))))) as [e1|]; cbn.
  - destruct (working_credentials env _); cbn; [|discriminate].
    destruct (upload_fault env _) as [e2|]; cbn; [discriminate|].
    intros [= <- _ <-]. exists ec, ed. cbn. rewrite lookup_insert_eq. auto.
  - intros [= <- _ <-]. exists ec, ed. cbn. rewrite lookup_insert_eq. auto.
Qed.

(** With the bucket answering, an envelope object decrypts to what its
    token decrypts to under the unwrapped key. *)
Lemma decrypt_document_envelope env blob_name w metadata content
    encrypted_content encrypted_dek dek plaintext :
  (forall n, storage_read_fault env n = None) ->
  blobs w !! blob_name
  = Some {| blob_content := encrypted_content;
            blob_metadata :=
              Some (upload_metadata metadata (_get_encryption_key_name env)
                      content encrypted_content encrypted_dek) |} ->
  encrypted_dek <> [] ->
  (forall m, kms_decrypt env m (_get_encryption_key_name env) encrypted_dek = Ok dek) ->
  Fernet_decrypt env dek encrypted_content = Ok plaintext ->
  exists w', decrypt_document env blob_name w = (Ok plaintext, w').
Proof.
  intros Hread Hblob Hne Hkms Hfernet.
  unfold decrypt_document, storage_fetch, storage_read, decrypt, kms_call, next_tick,
    bind, ret, raise, lift.
  cbn. repeat (first [rewrite Hread | rewrite Hblob]; cbn).
  unfold upload_metadata. cbn.
  destruct (String.eqb_spec (Base64.b64encode encrypted_dek) "") as [E|_];
    [exfalso; exact (Base64Facts.b64encode_nonempty _ Hne E)|].
  cbn. rewrite Base64Facts.b64decode_b64encode. cbn.
  rewrite Hkms. cbn. rewrite Hfernet. eexists. reflexivity.
Qed.

(** What [encrypt_document] returned, [decrypt_document] gives back,
    whichever upload attempt stored it. *)
Lemma decrypt_after_encrypt env content metadata w blob_name meta w1 w2 :
  key_service_inverts env ->
  cipher_inverts env ->
  (forall n, storage_read_fault env n = None) ->
  encrypt_document env content metadata w = (Ok (blob_name, meta), w1) ->
  blobs w2 !! blob_name = blobs w1 !! blob_name ->
  exists w', decrypt_document env blob_name w2 = (Ok content, w').
Proof.
  intros Hkms Hcipher Hread Henc Hsame.
  destruct (encrypt_document_stores _ _ _ _ _ _ _ Henc) as (ec & ed & Hec & Hed & Hblob).
  destruct (Hkms (2 + tick w)%nat (_get_encryption_key_name env)
              (Fernet_generate_key env (tick w))) as (ed' & Hed' & Hne & Hinv).
  rewrite Hed in Hed'. injection Hed' as <-.
  destruct (Hcipher (1 + tick w)%nat (tick w) content) as (ec' & Hec' & Hdec).
  rewrite Hec in Hec'. injection Hec' as <-.
  rewrite <- Hsame in Hblob.
  exact (decrypt_document_envelope env blob_name w2 metadata content ec ed _ content
           Hread Hblob Hne Hinv Hdec).
Qed.

(** With every collaborator answering, [encrypt_document] returns. *)
Lemma encrypt_document_returns env content metadata w :
  key_service_inverts env ->
  cipher_inverts env ->
  upload_fault env (4 + tick w) = None ->
  exists meta w1,
    encrypt_document env content metadata w
    = (Ok (("encrypted/" ++ uuid4 env (3 + tick w) ++ ".enc")%string, meta), w1)
    /\ upload_calls w1 = S (upload_calls w).
Proof.
  intros Hkms Hcipher Hup.
  destruct (Hkms (2 + tick w)%nat (_get_encryption_key_name env)
              (Fernet_generate_key env (tick w))) as (ed & Hed & _).
  destruct (Hcipher (1 + tick w)%nat (tick w) content) as (ec & Hec & _).
  unfold encrypt_document, encrypt, kms_call, upload_from_string,
    _get_working_storage_credentials, new_storage_client, uuid_uuid4, time_time,
    next_tick, try_except, bind, ret, raise, lift.
  cbn in *. rewrite Hec. cbn. rewrite Hed. cbn. rewrite Hup. cbn.
  eexists. eexists. split; reflexivity.
Qed.

End ServiceFacts.

(** ** The hash chain *)

Section ChainClaims.
Import GCULBlockchainService ServiceFacts.

(** C1.  Chain continuity: after any sequence of calls made one after the
    other on a ledger whose chain was empty, the block stored at position
    [k] has [block_number] [k]; its [current_hash] is the SHA-256 of the
    text ["{block_number}:{previous_hash}:{merkle_root}"] built from its
    stored fields: the block number in decimal, a colon, the previous
    hash, or the word [None] when it is null, a colon, and the Merkle
    root; block 0 has [previous_hash] null, and for [k >= 1] the
    [previous_hash] of block [k] is the [current_hash] of block [k-1]. *)
Theorem chain_continuity (env : Env) (calls : list Call) (w : World) :
  HashChain w = [] ->
  forall (k : nat) (b : ChainBlock),
    HashChain (run env calls w) !! k = Some b ->
    block_number b = Z.of_nat k
    /\ current_hash b
       = sha256_hexdigest
           (encode_utf8 (pretty (block_number b) ++ ":"
                         ++ match previous_hash b with
                            | Some h => h
                            | None => "None"
                            end
                         ++ ":" ++ merkle_root b))
    /\ match k with
       | O => previous_hash b = None
       | S j => exists p, HashChain (run env calls w) !! j = Some p
                          /\ previous_hash b = Some (current_hash p)
       end.
Proof.
  intros Hempty k b Hk.
  assert (Hchain : chain_continuous (HashChain (run env calls w))).
  { apply run_chain_continuous. rewrite Hempty. apply chain_continuous_nil. }
  destruct (Hchain k b Hk) as (Hnumber & Hhash & Hlink).
  split; [exact Hnumber|]. split; [exact Hhash | exact Hlink].
Qed.

Lemma chain_continuity_witness :
  match HashChain (run calm_env three_appends empty_world) !! 2%nat with
  | Some b =>
      block_number b = 2%Z
      /\ current_hash b
         = sha256_hexdigest
             (encode_utf8 (pretty (block_number b) ++ ":"
                           ++ match previous_hash b with
                              | Some h => h
                              | None => "None"
                              end
                           ++ ":" ++ merkle_root b))
      /\ exists p, HashChain (run calm_env three_appends empty_world) !! 1%nat = Some p
                   /\ previous_hash b = Some (current_hash p)
  | None => False
  end.
Proof.
  destruct (HashChain (run calm_env three_appends empty_world) !! 2%nat) as [b|] eqn:E.
  - exact (chain_continuity calm_env three_appends empty_world eq_refl 2%nat b E).
  - vm_compute in E. discriminate E.
Defined.

(** The hashed text on the run of three appends: the genesis block hashes
    ["0:None:<merkle root>"], the next one ["1:<hash of block 0>:<merkle root>"]. *)
Example chain_hashed_text :
  match HashChain (run calm_env three_appends empty_world) with
  | b0 :: b1 :: _ =>
      current_hash b0 = sha256_hexdigest (encode_utf8 ("0:None:" ++ merkle_root b0))
      /\ current_hash b1
         = sha256_hexdigest (encode_utf8 ("1:" ++ current_hash b0 ++ ":" ++ merkle_root b1))
  | _ => False
  end.
Proof. vm_compute. split; reflexivity. Qed.

End ChainClaims.

(** ** Hash records *)

Section RecordClaims.
Import GCULBlockchainService ServiceFacts.

(** C5.  Signing payload framing: whatever else happens in the call, the
    first request [create_document_hash_record] sends to the key service
    is an asymmetric signature request whose digest is the SHA-256 of the
    UTF-8 bytes of [hex(SHA256(content)) + ":" +
    hex(SHA256(UTF-8(extracted_text))) + ":" + document_id], under the
    signing key of the configuration at version 1; at most one request
    follows, the signature of the new block under the same key version. *)
Theorem signing_payload_framing (env : Env) (document_id : string) (content : bytes)
    (extracted_text user_id : string) (metadata : Dict) (w : World) :
  let payload :=
    (sha256_hexdigest content ++ ":"
       ++ sha256_hexdigest (encode_utf8 extracted_text) ++ ":" ++ document_id)%string in
  let key_version :=
    (crypto_key_path (project_id env) (location env) (keyring env) (signing_key env)
       ++ "/cryptoKeyVersions/1")%string in
  exists rest,
    kms_requests
      (snd (create_document_hash_record env document_id content extracted_text
              user_id metadata w))
    = (kms_requests w
         ++ KmsAsymmetricSign key_version (sha256_digest (encode_utf8 payload)) :: rest)%list
    /\ (rest = [] \/ exists sha256, rest = [KmsAsymmetricSign key_version sha256]).
Proof.
  intros payload key_version.
  unfold create_document_hash_record, _add_to_hash_chain, snapshot, uuid_uuid4,
    asymmetric_sign, kms_call, time_time, batch_insert, next_tick, bind, ret, raise, lift.
  cbn.
  destruct (kms_asymmetric_sign env _ _ _) as [sig|e]; cbn;
    [|exists []; split; [reflexivity | left; reflexivity]].
  destruct (commit_fault env _) as [e|]; cbn;
    [exists []; split; [reflexivity | left; reflexivity]|].
  destruct (snapshot_fault env _) as [e|]; cbn;
    [exists []; split; [reflexivity | left; reflexivity]|].
  eexists. split.
  - destruct (kms_asymmetric_sign env _ _ _) as [sig'|e]; cbn;
      [destruct (commit_fault env _); cbn|];
      rewrite <- app_assoc; reflexivity.
  - right. eexists. reflexivity.
Qed.

End RecordClaims.

(** ** Verification *)

Section VerificationClaims.
Import GCULBlockchainService ServiceFacts.



(** C10.  No cryptographic check of the signature: when the call reaches
    a stored record, [signature_valid] is true exactly when the stored
    [signature] column is not null, and the call sends no request to the
    key service. *)
Theorem signature_presence_only (env : Env) (id : string) (content : bytes) (w : World)
    (r : HashRecord) :
  not_throttled env id w ->
  cache_miss env id (sha256_hexdigest content) w ->
  (forall n, snapshot_fault env n = None) ->
  latest_hash_record id (DocumentHashes w) = Some r ->
  exists result w' valid,
    verify_document_integrity env id content w = (Ok result, w')
    /\ dict_get "signature_valid" result = Some (PyBool valid)
    /\ (valid = true <-> signature r <> None)
    /\ kms_requests w' = kms_requests w.
Proof.
  intros Hgate Hmiss Hread Hrec.
  destruct (verify_body_reaches_ledger env id content w Hgate Hmiss)
    as (w1 & (Hrows & Hkms1 & _) & Hbody).
  destruct (verify_from_ledger_returns env id (sha256_hexdigest content) w1 (Hread _))
    as (w' & Hled & Hkms & _).
  unfold verify_document_integrity, try_except. rewrite Hbody, Hled, Hrows, Hrec.
  eexists. eexists. eexists. split; [reflexivity|].
  split; [reflexivity|]. split; [|congruence].
  destruct (signature r); split; congruence.
Qed.

Lemma signature_presence_only_witness :
  exists result w' valid,
    verify_document_integrity calm_env "doc-1" hello forged_world = (Ok result, w')
    /\ dict_get "signature_valid" result = Some (PyBool valid)
    /\ (valid = true <-> signature forged_record <> None)
    /\ kms_requests w' = kms_requests forged_world.
Proof.
  apply (signature_presence_only calm_env "doc-1" hello forged_world forged_record).
  - vm_compute. reflexivity.
  - vm_compute. reflexivity.
  - intros n. reflexivity.
  - vm_compute. reflexivity.
Defined.

(** C8.  Verification error degradation: when anything raises inside the
    [try] block, [verify_document_integrity] does not raise; it returns a
    result with [verified] false and status [ERROR], and the cache holds
    no entry it did not hold before the call. *)
Theorem verification_error_degradation (env : Env) (id : string) (content : bytes)
    (w : World) (e : string) (w1 : World) :
  verify_body env id content w = (Raised e, w1) ->
  exists result w',
    verify_document_integrity env id content w = (Ok result, w')
    /\ dict_get "verified" result = Some (PyBool false)
    /\ dict_get "status" result = Some (PyStr "ERROR")
    /\ forall k entry,
         VerificationCache._cache (cache w') !! k = Some entry ->
         VerificationCache._cache (cache w) !! k = Some entry.
Proof.
  intros Hbody.
  unfold verify_document_integrity, try_except. rewrite Hbody.
  exists (error_result e), w1. split; [reflexivity|].
  split; [reflexivity|]. split; [reflexivity|].
  exact (verify_body_raised env id content w e w1 Hbody).
Qed.

Lemma verification_error_degradation_witness :
  exists result w',
    verify_document_integrity ledger_down_env "doc-1" hello recorded_world = (Ok result, w')
    /\ dict_get "verified" result = Some (PyBool false)
    /\ dict_get "status" result = Some (PyStr "ERROR")
    /\ forall k entry,
         VerificationCache._cache (cache w') !! k = Some entry ->
         VerificationCache._cache (cache recorded_world) !! k = Some entry.
Proof.
  destruct (verify_body ledger_down_env "doc-1" hello recorded_world) as [[d|e] w1] eqn:E.
  - vm_compute in E. discriminate E.
  - exact (verification_error_degradation ledger_down_env "doc-1" hello recorded_world e w1 E).
Defined.

(** The scenario of the specification, run on the test doubles. *)
Example scenario_verified :
  dict_get "status" (match fst (verify_document_integrity calm_env "doc-1" hello recorded_world)
                     with Ok d => d | Raised _ => [] end)
  = Some (PyStr "VERIFIED").
Proof. vm_compute. reflexivity. Qed.

Example scenario_tampered :
  dict_get "status" (match fst (verify_document_integrity calm_env "doc-1" goodbye recorded_world)
                     with Ok d => d | Raised _ => [] end)
  = Some (PyStr "TAMPERED").
Proof. vm_compute. reflexivity. Qed.

Example scenario_not_found :
  dict_get "status" (match fst (verify_document_integrity calm_env "doc-2" hello recorded_world)
                     with Ok d => d | Raised _ => [] end)
  = Some (PyStr "NOT_FOUND").
Proof. vm_compute. reflexivity. Qed.

(** C4.  The throttled call and the cache, on the failing run: a first
    verification of ["doc-1"] returns [VERIFIED] and stores that result
    under the key ["verify:doc-1:2cf24dba5fb0a30e"]; a second call with the
    same content 10 ms later is throttled, looks the cache up under the
    bare key ["verify:doc-1"], finds nothing there and returns the
    [THROTTLED] result instead of the cached one.  It reads nothing from
    the ledger. *)
Theorem throttled_call_misses_cache :
  exists first_result,
    fst (verify_document_integrity calm_env "doc-1" hello recorded_world) = Ok first_result
    /\ dict_get "status" first_result = Some (PyStr "VERIFIED")
    /\ VerificationCache.data
         <$> VerificationCache._cache (cache verified_once) !! "verify:doc-1:2cf24dba5fb0a30e"
       = Some first_result
    /\ VerificationCache._cache (cache verified_once) !! "verify:doc-1" = None
    /\ fst (VerificationCache.is_throttled (clock calm_env (tick verified_once)) "doc-1"
              (cache verified_once)) = true
    /\ (clock calm_env (tick verified_once) - clock calm_env (tick recorded_world) < 1)%Q
    /\ fst (verify_document_integrity calm_env "doc-1" hello verified_once)
       = Ok throttled_result
    /\ dict_get "status" throttled_result = Some (PyStr "THROTTLED")
    /\ snapshot_reads (snd (verify_document_integrity calm_env "doc-1" hello verified_once))
       = snapshot_reads verified_once.
Proof.
  eexists. split; [vm_compute; reflexivity|].
  vm_compute. repeat split.
Qed.

End VerificationClaims.

(** ** Envelope encryption *)

Section EnvelopeClaims.
Import GCULBlockchainService ServiceFacts.

(** C3.  Envelope round trip: when the key service's [decrypt] inverts its
    [encrypt] (on a wrapped key that is not empty), the symmetric cipher
    decrypts what it encrypted, and the bucket takes the upload and
    answers reads, [encrypt_document] returns a blob name and
    [decrypt_document] on that name returns exactly the content. *)
Theorem envelope_round_trip (env : Env) (content : bytes) (metadata : Dict) (w : World) :
  key_service_inverts env ->
  cipher_inverts env ->
  (forall n, upload_fault env n = None) ->
  (forall n, storage_read_fault env n = None) ->
  exists blob_name meta w1 w2,
    encrypt_document env content metadata w = (Ok (blob_name, meta), w1)
    /\ decrypt_document env blob_name w1 = (Ok content, w2).
Proof.
  intros Hkms Hcipher Hup Hread.
  destruct (encrypt_document_returns env content metadata w Hkms Hcipher (Hup _))
    as (meta & w1 & Henc & _).
  destruct (decrypt_after_encrypt env content metadata w _ meta w1 w1
              Hkms Hcipher Hread Henc eq_refl) as (w2 & Hdec).
  eauto 6.
Qed.

Lemma envelope_round_trip_witness :
  exists blob_name meta w1 w2,
    encrypt_document calm_env hello [("file_name", PyStr "hello.txt")] empty_world
    = (Ok (blob_name, meta), w1)
    /\ decrypt_document calm_env blob_name w1 = (Ok hello, w2).
Proof.
  apply (envelope_round_trip calm_env hello [("file_name", PyStr "hello.txt")] empty_world).
  - intros n name plaintext. exists (x01 :: plaintext).
    split; [reflexivity|]. split; [discriminate | reflexivity].
  - intros n k plaintext. exists (x80 :: plaintext). split; reflexivity.
  - intros n. reflexivity.
  - intros n. reflexivity.
Defined.

(** C7, amended.  Encrypt retry policy: when the first upload fails with
    [e1], fresh credentials are requested exactly once; if they come back,
    the storage client is rebuilt and exactly one more upload is
    attempted; if that upload succeeds the call returns the blob name with
    the object stored; if it fails, or if no credentials came back (then
    no client is rebuilt and no second upload is attempted), the call
    raises the original error [e1].  In every case the two ledger tables
    are left as they were. *)
Theorem encrypt_retry_policy (env : Env) (content : bytes) (metadata : Dict) (w : World)
    (encrypted_content encrypted_dek : bytes) (e1 : string) :
  Fernet_encrypt env (1 + tick w) (Fernet_generate_key env (tick w)) content
    = Ok encrypted_content ->
  kms_encrypt env (2 + tick w) (_get_encryption_key_name env)
    (Fernet_generate_key env (tick w)) = Ok encrypted_dek ->
  upload_fault env (4 + tick w) = Some e1 ->
  let r := fst (encrypt_document env content metadata w) in
  let w' := snd (encrypt_document env content metadata w) in
  let blob_name := ("encrypted/" ++ uuid4 env (3 + tick w) ++ ".enc")%string in
  credential_requests w' = S (credential_requests w)
  /\ DocumentHashes w' = DocumentHashes w
  /\ HashChain w' = HashChain w
  /\ match working_credentials env (5 + tick w), upload_fault env (6 + tick w) with
     | true, None =>
         (exists meta, r = Ok (blob_name, meta))
         /\ upload_calls w' = S (S (upload_calls w))
         /\ storage_clients w' = S (storage_clients w)
         /\ blob_content <$> blobs w' !! blob_name = Some encrypted_content
     | true, Some e2 =>
         r = Raised e1
         /\ upload_calls w' = S (S (upload_calls w))
         /\ storage_clients w' = S (storage_clients w)
         /\ blobs w' = blobs w
     | false, _ =>
         r = Raised e1
         /\ upload_calls w' = S (upload_calls w)
         /\ storage_clients w' = storage_clients w
         /\ blobs w' = blobs w
     end.
Proof.
  intros Hec Hed Hup.
  unfold encrypt_document, encrypt, kms_call, upload_from_string,
    _get_working_storage_credentials, new_storage_client, uuid_uuid4, time_time,
    next_tick, try_except, bind, ret, raise, lift.
  cbn in *. rewrite Hec. cbn. rewrite Hed. cbn. rewrite Hup. cbn. clear Hup.
  destruct (working_credentials env _); cbn.
  - destruct (upload_fault env _) as [e2|]; cbn.
    + repeat split.
    + repeat split; [eexists; reflexivity|].
      rewrite lookup_insert_eq. reflexivity.
  - repeat split.
Qed.

Lemma encrypt_retry_policy_witness :
  let r := fst (encrypt_document flaky_upload_env hello [] empty_world) in
  let w' := snd (encrypt_document flaky_upload_env hello [] empty_world) in
  let blob_name := "encrypted/00000000-0000-4000-8000-3.enc" in
  credential_requests w' = 1%nat
  /\ DocumentHashes w' = []
  /\ HashChain w' = []
  /\ (exists meta, r = Ok (blob_name, meta))
  /\ upload_calls w' = 2%nat
  /\ storage_clients w' = 1%nat
  /\ blob_content <$> blobs w' !! blob_name = Some (x80 :: hello).
Proof.
  exact (encrypt_retry_policy flaky_upload_env hello [] empty_world
           (x80 :: hello) (x01 :: encode_utf8 "key-0") "503 upload failed"
           eq_refl eq_refl eq_refl).
Defined.

(** C7 as first stated: after every failed upload the storage client is
    re-established and exactly one retry upload is attempted.  Without
    fresh credentials the explicit guard gives up at once: one upload call
    in all, no new client. *)
Lemma encrypt_retry_counterexample :
  ~ (forall (env : Env) (content : bytes) (metadata : Dict) (w : World)
            (encrypted_content encrypted_dek : bytes) (e1 : string),
        Fernet_encrypt env (1 + tick w) (Fernet_generate_key env (tick w)) content
          = Ok encrypted_content ->
        kms_encrypt env (2 + tick w) (_get_encryption_key_name env)
          (Fernet_generate_key env (tick w)) = Ok encrypted_dek ->
        upload_fault env (4 + tick w) = Some e1 ->
        upload_calls (snd (encrypt_document env content metadata w)) = S (S (upload_calls w))
        /\ storage_clients (snd (encrypt_document env content metadata w))
           = S (storage_clients w)).
Proof.
  intros H.
  destruct (H no_credentials_env hello [] empty_world
              (x80 :: hello) (x01 :: encode_utf8 "key-0") "503 upload failed"
              eq_refl eq_refl eq_refl) as [Hcalls _].
  vm_compute in Hcalls. discriminate Hcalls.
Qed.

End EnvelopeClaims.

(** * Further properties of the cache *)

Section CacheExtras.
Import VerificationCache VerificationCacheFacts.

Lemma set_lookup t0 d r ch ttl c :
  _cache (set t0 d r ch ttl c) !! _generate_cache_key d ch
  = Some {| data := r; timestamp := t0; VerificationCache.ttl := lifetime ttl |}.
Proof. unfold set. cbn [_cache]. rewrite lookup_insert_eq. reflexivity. Qed.

Lemma get_live now d ch c entry :
  _cache c !! _generate_cache_key d ch = Some entry ->
  (now - timestamp entry <= inject_Z (VerificationCache.ttl entry))%Q ->
  get now d ch c = (Some (data entry), c).
Proof.
  intros Hk Hlive. unfold get. rewrite Hk.
  assert (E : Qltb (inject_Z (VerificationCache.ttl entry)) (now - timestamp entry) = false)
    by (apply Qltb_ge; exact Hlive).
  rewrite E. reflexivity.
Qed.

Lemma get_stale now d ch c entry :
  _cache c !! _generate_cache_key d ch = Some entry ->
  (inject_Z (VerificationCache.ttl entry) < now - timestamp entry)%Q ->
  get now d ch c
  = (None, {| _cache := delete (_generate_cache_key d ch) (_cache c);
              _request_timestamps := _request_timestamps c |}).
Proof.
  intros Hk Hstale. unfold get. rewrite Hk.
  assert (E : Qltb (inject_Z (VerificationCache.ttl entry)) (now - timestamp entry) = true)
    by (apply Qltb_lt; exact Hstale).
  rewrite E. reflexivity.
Qed.

(** X1.  Store and look up: a result stored by [set] at [t0] is what [get]
    returns for the same document and content hash at any [t1] no later
    than the lifetime of the entry, and that [get] changes nothing.  The
    lifetime is the [ttl] given, or one hour when [ttl] is [None] or 0. *)
Theorem get_after_set (c : t) (d : string) (r : Dict) (ch : option string)
    (ttl : option Z) (t0 t1 : Q) :
  (t1 - t0 <= inject_Z (match ttl with
                        | Some z => if Z.eqb z 0 then 3600%Z else z
                        | None => 3600%Z
                        end))%Q ->
  get t1 d ch (set t0 d r ch ttl c) = (Some r, set t0 d r ch ttl c).
Proof.
  intros Hlive.
  apply (get_live t1 d ch _ _ (set_lookup t0 d r ch ttl c)). exact Hlive.
Qed.

Lemma get_after_set_witness :
  get 4600 "doc-1" (Some "2cf24dba5fb0a30e26e8")
      (set 1000 "doc-1" [("status", PyStr "VERIFIED")] (Some "2cf24dba5fb0a30e26e8")
           (Some 0%Z) init)
  = (Some [("status", PyStr "VERIFIED")],
     set 1000 "doc-1" [("status", PyStr "VERIFIED")] (Some "2cf24dba5fb0a30e26e8")
         (Some 0%Z) init).
Proof.
  apply (get_after_set init "doc-1" [("status", PyStr "VERIFIED")]
           (Some "2cf24dba5fb0a30e26e8") (Some 0%Z) 1000 4600).
  vm_compute. discriminate.
Defined.

(** X2.  Lazy eviction: once the lifetime of an entry has passed, [get]
    returns [None] and deletes the entry, so that every later [get] for
    it returns [None] whatever the clock then reads; the entries under
    other keys and the throttle records stay as [set] left them. *)
Theorem get_after_expiry (c : t) (d : string) (r : Dict) (ch : option string)
    (ttl : option Z) (t0 t1 : Q) :
  (inject_Z (match ttl with
             | Some z => if Z.eqb z 0 then 3600%Z else z
             | None => 3600%Z
             end) < t1 - t0)%Q ->
  exists c',
    get t1 d ch (set t0 d r ch ttl c) = (None, c')
    /\ (forall t2, get t2 d ch c' = (None, c'))
    /\ (forall k, k <> _generate_cache_key d ch -> _cache c' !! k = _cache c !! k)
    /\ _request_timestamps c' = _request_timestamps c.
Proof.
  intros Hstale.
  rewrite (get_stale t1 d ch _ _ (set_lookup t0 d r ch ttl c) Hstale).
  eexists. split; [reflexivity|]. split; [|split].
  - intros t2. unfold get. cbn [_cache]. rewrite lookup_delete_eq. reflexivity.
  - intros k Hk. cbn [_cache]. rewrite lookup_delete_ne by congruence.
    unfold set. cbn [_cache]. rewrite lookup_insert_ne by congruence. reflexivity.
  - reflexivity.
Qed.

Lemma get_after_expiry_witness :
  exists c',
    get 1301 "doc-2" (Some "2cf24dba5fb0a30e26e8")
        (set 1000 "doc-2" [("status", PyStr "NOT_FOUND")] (Some "2cf24dba5fb0a30e26e8")
             (Some 300%Z) init) = (None, c')
    /\ (forall t2, get t2 "doc-2" (Some "2cf24dba5fb0a30e26e8") c' = (None, c'))
    /\ (forall k, k <> _generate_cache_key "doc-2" (Some "2cf24dba5fb0a30e26e8") ->
                  _cache c' !! k = _cache init !! k)
    /\ _request_timestamps c' = _request_timestamps init.
Proof.
  apply (get_after_expiry init "doc-2" [("status", PyStr "NOT_FOUND")]
           (Some "2cf24dba5fb0a30e26e8") (Some 300%Z) 1000 1301).
  reflexivity.
Defined.

(** A hexadecimal digest holds ASCII characters only. *)
Lemma is_ascii_hex_of_bytes bs : is_ascii (hex_of_bytes bs) = true.
Proof.
  induction bs as [|b bs IH]; [reflexivity|].
  cbn [hex_of_bytes is_ascii]. rewrite IH. destruct b; reflexivity.
Qed.

Lemma is_ascii_sha256_hexdigest b : is_ascii (sha256_hexdigest b) = true.
Proof. apply is_ascii_hex_of_bytes. Qed.

(** X3.  Keys keep 16 characters of the content hash and no more: a result
    stored for a document under one content hash is returned, within its
    lifetime, for every content hash that begins with the same 16
    characters.  The hashes are non-empty and hold ASCII characters only,
    as hexadecimal digests do. *)
Theorem get_shares_hash_prefix (c : t) (d : string) (r : Dict) (h1 h2 : string)
    (ttl : option Z) (t0 t1 : Q) :
  h1 <> "" ->
  h2 <> "" ->
  is_ascii h1 = true ->
  is_ascii h2 = true ->
  substring 0 16 h1 = substring 0 16 h2 ->
  (t1 - t0 <= inject_Z (match ttl with
                        | Some z => if Z.eqb z 0 then 3600%Z else z
                        | None => 3600%Z
                        end))%Q ->
  fst (get t1 d (Some h2) (set t0 d r (Some h1) ttl c)) = Some r.
Proof.
  intros H1 H2 _ _ Hpre Hlive.
  assert (Hkey : _generate_cache_key d (Some h2) = _generate_cache_key d (Some h1)).
  { unfold _generate_cache_key. destruct h1; [congruence|]. destruct h2; [congruence|].
    rewrite Hpre. reflexivity. }
  pose proof (set_lookup t0 d r (Some h1) ttl c) as Hset. rewrite <- Hkey in Hset.
  rewrite (get_live t1 d (Some h2) _ _ Hset Hlive). reflexivity.
Qed.

Lemma get_shares_hash_prefix_witness :
  fst (get 1001 "doc-1"
         (Some "2cf24dba5fb0a30effffffffffffffffffffffffffffffffffffffffffffffff")
         (set 1000 "doc-1" [("status", PyStr "VERIFIED")]
            (Some "2cf24dba5fb0a30e26e83b2ac5b9e29e1b161e5c1fa7425e73043362938b9824")
            None init))
  = Some [("status", PyStr "VERIFIED")].
Proof.
  apply (get_shares_hash_prefix init "doc-1" [("status", PyStr "VERIFIED")]
           "2cf24dba5fb0a30e26e83b2ac5b9e29e1b161e5c1fa7425e73043362938b9824"
           "2cf24dba5fb0a30effffffffffffffffffffffffffffffffffffffffffffffff"
           None 1000 1001).
  - discriminate.
  - discriminate.
  - reflexivity.
  - reflexivity.
  - reflexivity.
  - vm_compute. discriminate.
Defined.

(** X4.  Keys of different documents can coincide: the result stored for
    document [d] under content hash [h] is what a look-up without content
    hash returns for the document named [d + ":" + h[:16]].  The hash is
    non-empty and holds ASCII characters only, as hexadecimal digests do. *)
Theorem get_crosses_documents (c : t) (d : string) (r : Dict) (h : string)
    (ttl : option Z) (t0 t1 : Q) :
  h <> "" ->
  is_ascii h = true ->
  (t1 - t0 <= inject_Z (match ttl with
                        | Some z => if Z.eqb z 0 then 3600%Z else z
                        | None => 3600%Z
                        end))%Q ->
  fst (get t1 (d ++ ":" ++ substring 0 16 h) None (set t0 d r (Some h) ttl c)) = Some r.
Proof.
  intros Hh _ Hlive.
  assert (Hkey : _generate_cache_key (d ++ ":" ++ substring 0 16 h) None
                 = _generate_cache_key d (Some h)).
  { unfold _generate_cache_key. destruct h; [congruence|]. reflexivity. }
  pose proof (set_lookup t0 d r (Some h) ttl c) as Hset. rewrite <- Hkey in Hset.
  rewrite (get_live t1 _ None _ _ Hset Hlive). reflexivity.
Qed.

Lemma get_crosses_documents_witness :
  fst (get 1001 "doc-1:2cf24dba5fb0a30e" None
         (set 1000 "doc-1" [("status", PyStr "VERIFIED")]
            (Some "2cf24dba5fb0a30e26e83b2ac5b9e29e1b161e5c1fa7425e73043362938b9824")
            None init))
  = Some [("status", PyStr "VERIFIED")].
Proof.
  apply (get_crosses_documents init "doc-1" [("status", PyStr "VERIFIED")]
           "2cf24dba5fb0a30e26e83b2ac5b9e29e1b161e5c1fa7425e73043362938b9824"
           None 1000 1001).
  - discriminate.
  - reflexivity.
  - vm_compute. discriminate.
Defined.

Lemma clear_expired_lookup now c k :
  _cache (clear_expired now c) !! k
  = match _cache c !! k with
    | Some entry => if expired now entry then None else Some entry
    | None => None
    end.
Proof.
  unfold clear_expired. cbn [_cache].
  set (js := (filter _ _).*1).
  assert (Hjs : forall j, j ∈ js <->
            exists entry, _cache c !! j = Some entry /\ expired now entry = true).
  { intros j. unfold js. rewrite list_elem_of_fmap. split.
    - intros ([j' e] & -> & Hin). apply list_elem_of_filter in Hin as [Hp Hin].
      apply elem_of_map_to_list in Hin. exists e. split; [exact Hin | exact Hp].
    - intros (e & He & Hp). exists (j, e). split; [reflexivity|].
      apply list_elem_of_filter. split; [exact Hp|]. apply elem_of_map_to_list. exact He. }
  destruct (_cache c !! k) as [entry|] eqn:Hk.
  - destruct (expired now entry) eqn:He.
    + apply lookup_foldr_delete, Hjs. eauto.
    + rewrite lookup_foldr_delete_not_elem_of; [exact Hk|].
      intros Hin. apply Hjs in Hin as (e' & He' & Hp). congruence.
  - destruct (foldr delete (_cache c) js !! k) as [y|] eqn:Hy; [|reflexivity].
    apply lookup_foldr_delete_Some in Hy as [_ Hy]. congruence.
Qed.

Lemma length_filter_split {A} (f : A -> bool) (l : list A) :
  (length (filter (fun x => f x = true) l) + length (filter (fun x => f x = false) l)
   = length l)%nat.
Proof.
  induction l as [|x l IH]; [reflexivity|].
  rewrite !filter_cons. destruct (f x) eqn:E.
  - rewrite decide_True by reflexivity. rewrite decide_False by discriminate.
    cbn [length]. lia.
  - rewrite decide_False by discriminate. rewrite decide_True by reflexivity.
    cbn [length]. lia.
Qed.

(** The entries left by the sweep are as many as were not expired. *)
Lemma clear_expired_size now c :
  (size (_cache (clear_expired now c))
   + length (filter (fun kv : string * CacheEntry => expired now (snd kv) = true)
                    (map_to_list (_cache c)))
   = size (_cache c))%nat.
Proof.
  assert (E : _cache (clear_expired now c)
              = filter (fun kv : string * CacheEntry => expired now (snd kv) = false)
                       (_cache c)).
  { apply map_eq. intros k. rewrite clear_expired_lookup, map_lookup_filter.
    destruct (_cache c !! k) as [e|]; [|reflexivity]. cbn.
    destruct (expired now e) eqn:He.
    - rewrite option_guard_False by (cbn; congruence). reflexivity.
    - rewrite option_guard_True by (cbn; congruence). reflexivity. }
  rewrite E, map_filter_alt, map_size_list_to_map.
  - rewrite <- (length_map_to_list (_cache c)).
    rewrite <- (length_filter_split (fun kv => expired now (snd kv)) (map_to_list (_cache c))).
    lia.
  - eapply NoDup_fmap_fst.
    + intros k x y Hx Hy.
      apply list_elem_of_filter in Hx as [_ Hx]. apply list_elem_of_filter in Hy as [_ Hy].
      apply elem_of_map_to_list in Hx, Hy. congruence.
    + apply NoDup_filter, NoDup_map_to_list.
Qed.

(** X5.  Sweep: [clear_expired] removes exactly the entries that have
    outlived their [ttl] at the time of the sweep and keeps the others as
    they are; [get_stats] read at that same time then reports no expired
    entry, and as total and as active entries the number that [get_stats]
    reported active before the sweep; the throttle records are not
    touched. *)
Theorem clear_expired_sweeps (now : Q) (c : t) :
  (forall k,
      _cache (clear_expired now c) !! k
      = match _cache c !! k with
        | Some entry =>
            if Qltb (inject_Z (VerificationCache.ttl entry)) (now - timestamp entry)
            then None else Some entry
        | None => None
        end)
  /\ dict_get "expired_entries" (get_stats now (clear_expired now c)) = Some (PyInt 0)
  /\ dict_get "total_entries" (get_stats now (clear_expired now c))
     = dict_get "active_entries" (get_stats now c)
  /\ dict_get "active_entries" (get_stats now (clear_expired now c))
     = dict_get "active_entries" (get_stats now c)
  /\ _request_timestamps (clear_expired now c) = _request_timestamps c.
Proof.
  assert (Hnone : filter (fun kv : string * CacheEntry =>
                            Qltb (inject_Z (VerificationCache.ttl (snd kv)))
                                 (now - timestamp (snd kv)) = true)
                         (map_to_list (_cache (clear_expired now c))) = []).
  { destruct (filter _ _) as [|[k e] l] eqn:E; [reflexivity|exfalso].
    assert (Hin : (k, e) ∈ filter (fun kv : string * CacheEntry =>
                            Qltb (inject_Z (VerificationCache.ttl (snd kv)))
                                 (now - timestamp (snd kv)) = true)
                         (map_to_list (_cache (clear_expired now c))))
      by (rewrite E; apply list_elem_of_here).
    apply list_elem_of_filter in Hin as [Hp Hin]. cbn [snd] in Hp.
    apply elem_of_map_to_list in Hin. rewrite clear_expired_lookup in Hin.
    destruct (_cache c !! k) as [e'|]; [|discriminate].
    destruct (expired now e') eqn:He; [discriminate|].
    injection Hin as ->. unfold expired in He. congruence. }
  pose proof (clear_expired_size now c) as Hsize. unfold expired in Hsize.
  split; [exact (clear_expired_lookup now c)|].
  unfold get_stats. rewrite Hnone.
  cbn [length dict_get String.eqb Ascii.eqb Bool.eqb].
  split; [reflexivity|].
  assert (Hz : Z.of_nat (size (_cache (clear_expired now c)))
               = (Z.of_nat (size (_cache c))
                  - Z.of_nat (length (filter (fun kv : string * CacheEntry =>
                            Qltb (inject_Z (VerificationCache.ttl (snd kv)))
                                 (now - timestamp (snd kv)) = true)
                         (map_to_list (_cache c)))))%Z) by lia.
  change (Z.of_nat 0) with 0%Z. rewrite Z.sub_0_r, Hz. repeat split.
Qed.

(** X6.  The throttle is per document: a call of [is_throttled] for one
    document, whatever it answers, leaves the answer for every other
    document as it was, and leaves every cache entry in place. *)
Theorem is_throttled_per_document (c : t) (d1 d2 : string) (t1 t2 : Q) :
  d1 <> d2 ->
  fst (is_throttled t2 d2 (snd (is_throttled t1 d1 c))) = fst (is_throttled t2 d2 c)
  /\ _cache (snd (is_throttled t1 d1 c)) = _cache c.
Proof.
  intros Hne. split; [|apply is_throttled_cache].
  unfold is_throttled at 2.
  destruct (match _request_timestamps c !! d1 with Some _ => _ | None => _ end);
    cbn [snd]; [reflexivity|].
  unfold is_throttled. cbn [_request_timestamps].
  rewrite lookup_insert_ne by exact Hne.
  destruct (match _request_timestamps c !! d2 with Some _ => _ | None => _ end);
    reflexivity.
Qed.

Lemma is_throttled_per_document_witness :
  fst (is_throttled 1001 "doc-2" (snd (is_throttled 1000 "doc-1" init)))
  = fst (is_throttled 1001 "doc-2" init)
  /\ _cache (snd (is_throttled 1000 "doc-1" init)) = _cache init.
Proof.
  apply (is_throttled_per_document init "doc-1" "doc-2" 1000 1001). discriminate.
Defined.

End CacheExtras.

(** * Further properties of the service *)

Section ServiceExtras.
Import GCULBlockchainService ServiceFacts.

Arguments join : simpl never.
Arguments encode_utf8 : simpl never.
Arguments hash_to_sign : simpl never.

(** Every signature request of [env] and [ledger_answers] is answered. *)
Ltac answer_signatures Hk :=
  repeat match goal with
         | |- context [kms_asymmetric_sign ?env ?n ?name ?d] =>
             let sig := fresh "sig" in destruct (Hk n name d) as [sig ->]; cbn
         end.

(** With the ledger store and the key service answering, the call writes
    its row and its block and returns. *)
Lemma create_document_hash_record_returns env id content text user metadata w :
  ledger_answers env ->
  exists w1 row block,
    create_document_hash_record env id content text user metadata w
    = (Ok (uuid4 env (tick w)), w1)
    /\ DocumentHashes w1 = (DocumentHashes w ++ [row])%list
    /\ hash_id row = uuid4 env (tick w)
    /\ document_id row = id
    /\ file_hash row = sha256_hexdigest content
    /\ content_hash row = sha256_hexdigest (encode_utf8 text)
    /\ timestamp row = clock env (2 + tick w)
    /\ signature row <> None
    /\ verification_status row = "VERIFIED"
    /\ HashChain w1 = (HashChain w ++ [block])%list
    /\ document_hashes block = [hash_id row]
    /\ merkle_root block = sha256_hexdigest (encode_utf8 (hash_id row))
    /\ cache w1 = cache w
    /\ tick w1 = (9 + tick w)%nat.
Proof.
  intros (Hs & Hc & Hk).
  unfold create_document_hash_record, _add_to_hash_chain, snapshot, uuid_uuid4,
    asymmetric_sign, kms_call, time_time, batch_insert, next_tick, bind, ret, raise, lift.
  cbn. answer_signatures Hk. rewrite !Hc, !Hs. cbn. answer_signatures Hk.
  rewrite ?Hc. cbn.
  eexists. eexists. eexists. split; [reflexivity|].
  cbn. repeat split; [discriminate|].
  unfold join. cbn [fold_right]. rewrite append_empty_r. reflexivity.
Qed.

(** X7.  A recorded document: when the ledger store and the key service
    answer, [create_document_hash_record] returns the identifier it drew
    and has added exactly one row, which carries the document identifier,
    the SHA-256 of the content and of the extracted text, a signature and
    the status [VERIFIED], and exactly one block, which lists that one
    row's identifier and whose Merkle root is the SHA-256 of it. *)
Theorem create_document_hash_record_effect (env : Env) (id : string) (content : bytes)
    (text user : string) (metadata : Dict) (w : World) :
  ledger_answers env ->
  exists w1 row block,
    create_document_hash_record env id content text user metadata w
    = (Ok (uuid4 env (tick w)), w1)
    /\ DocumentHashes w1 = (DocumentHashes w ++ [row])%list
    /\ hash_id row = uuid4 env (tick w)
    /\ document_id row = id
    /\ file_hash row = sha256_hexdigest content
    /\ content_hash row = sha256_hexdigest (encode_utf8 text)
    /\ timestamp row = clock env (2 + tick w)
    /\ signature row <> None
    /\ verification_status row = "VERIFIED"
    /\ HashChain w1 = (HashChain w ++ [block])%list
    /\ document_hashes block = [hash_id row]
    /\ merkle_root block = sha256_hexdigest (encode_utf8 (hash_id row)).
Proof.
  intros Hledger.
  destruct (create_document_hash_record_returns env id content text user metadata w Hledger)
    as (w1 & row & block & H1 & H2 & H3 & H4 & H5 & H6 & H7 & H8 & H9 & H10 & H11 & H12 & _).
  exists w1, row, block. repeat split; assumption.
Qed.

Lemma create_document_hash_record_effect_witness :
  exists w1 row block,
    create_document_hash_record calm_env "doc-1" hello "hello world" "user@example.com"
      [] empty_world
    = (Ok (uuid4 calm_env (tick empty_world)), w1)
    /\ DocumentHashes w1 = (DocumentHashes empty_world ++ [row])%list
    /\ hash_id row = uuid4 calm_env (tick empty_world)
    /\ document_id row = "doc-1"
    /\ file_hash row = sha256_hexdigest hello
    /\ content_hash row = sha256_hexdigest (encode_utf8 "hello world")
    /\ timestamp row = clock calm_env (2 + tick empty_world)
    /\ signature row <> None
    /\ verification_status row = "VERIFIED"
    /\ HashChain w1 = (HashChain empty_world ++ [block])%list
    /\ document_hashes block = [hash_id row]
    /\ merkle_root block = sha256_hexdigest (encode_utf8 (hash_id row)).
Proof.
  apply (create_document_hash_record_effect calm_env "doc-1" hello "hello world"
           "user@example.com" [] empty_world).
  split; [|split]; intros; [reflexivity | reflexivity | eexists; reflexivity].
Defined.

(** X8.  Orphaned record: when the row is committed and the block append
    then fails at its read of the chain, [create_document_hash_record]
    raises that failure, yet the row stays in [DocumentHashes]; no block
    was added for it. *)
Theorem create_document_hash_record_orphan (env : Env) (id : string) (content : bytes)
    (text user : string) (metadata : Dict) (w : World) (sig : bytes) (e : string) :
  kms_asymmetric_sign env (1 + tick w) (_get_signing_key_name env ++ "/cryptoKeyVersions/1")
    (sha256_digest (hash_to_sign (sha256_hexdigest content)
                      (sha256_hexdigest (encode_utf8 text)) id)) = Ok sig ->
  commit_fault env (3 + tick w) = None ->
  snapshot_fault env (4 + tick w) = Some e ->
  exists w1 row,
    create_document_hash_record env id content text user metadata w = (Raised e, w1)
    /\ DocumentHashes w1 = (DocumentHashes w ++ [row])%list
    /\ document_id row = id
    /\ file_hash row = sha256_hexdigest content
    /\ HashChain w1 = HashChain w.
Proof.
  intros Hsig Hcommit Hread.
  unfold create_document_hash_record, _add_to_hash_chain, snapshot, uuid_uuid4,
    asymmetric_sign, kms_call, time_time, batch_insert, next_tick, bind, ret, raise, lift,
    _calculate_file_hash, _calculate_content_hash.
  cbn in *. rewrite Hsig. cbn. rewrite Hcommit. cbn. rewrite Hread. cbn.
  eexists. eexists. split; [reflexivity|]. cbn. repeat split.
Qed.

Lemma create_document_hash_record_orphan_witness :
  exists w1 row,
    create_document_hash_record chain_read_down_env "doc-1" hello "hello world"
      "user@example.com" [] empty_world = (Raised "503 Service Unavailable", w1)
    /\ DocumentHashes w1 = (DocumentHashes empty_world ++ [row])%list
    /\ document_id row = "doc-1"
    /\ file_hash row = sha256_hexdigest hello
    /\ HashChain w1 = HashChain empty_world.
Proof.
  apply (create_document_hash_record_orphan chain_read_down_env "doc-1" hello "hello world"
           "user@example.com" [] empty_world
           (rev (sha256_digest (hash_to_sign (sha256_hexdigest hello)
                                  (sha256_hexdigest (encode_utf8 "hello world")) "doc-1")))
           "503 Service Unavailable");
    reflexivity.
Defined.

(** The outcomes of [create_document_hash_record], whatever the
    collaborators answer. *)
Lemma create_document_hash_record_cases env id content text user metadata w :
  let r := fst (create_document_hash_record env id content text user metadata w) in
  let w1 := snd (create_document_hash_record env id content text user metadata w) in
  (returned r = false /\ DocumentHashes w1 = DocumentHashes w /\ HashChain w1 = HashChain w)
  \/ exists row,
       DocumentHashes w1 = (DocumentHashes w ++ [row])%list
       /\ document_id row = id
       /\ ((returned r = false /\ HashChain w1 = HashChain w)
           \/ exists block,
                r = Ok (hash_id row)
                /\ HashChain w1 = (HashChain w ++ [block])%list
                /\ document_hashes block = [hash_id row]).
Proof.
  unfold create_document_hash_record, _add_to_hash_chain, snapshot, uuid_uuid4,
    asymmetric_sign, kms_call, time_time, batch_insert, next_tick, bind, ret, raise, lift.
  cbn.
  destruct (kms_asymmetric_sign env _ _ _) as [sig|e]; cbn; [|left; repeat split].
  destruct (commit_fault env _) as [e|]; cbn; [left; repeat split|].
  destruct (snapshot_fault env _) as [e|]; cbn;
    [right; eexists; split; [reflexivity|]; split; [reflexivity|];
     left; split; reflexivity|].
  destruct (kms_asymmetric_sign env _ _ _) as [sig'|e]; cbn;
    [|right; eexists; split; [reflexivity|]; split; [reflexivity|];
      left; split; reflexivity].
  destruct (commit_fault env _) as [e|]; cbn;
    [right; eexists; split; [reflexivity|]; split; [reflexivity|];
     left; split; reflexivity|].
  right. eexists. split; [reflexivity|]. split; [reflexivity|].
  right. eexists. repeat split.
Qed.

(** X9.  Row before block: whatever the collaborators answer,
    [create_document_hash_record] ends in one of three ways.  It raises
    with both tables as they were; or it raises with one row added for the
    document and no block; or it returns the identifier of the one row it
    added, with one block added that lists exactly that identifier.  It
    never adds a block without its row, and never returns without both. *)
Theorem create_document_hash_record_outcomes (env : Env) (id : string) (content : bytes)
    (text user : string) (metadata : Dict) (w : World) :
  let r := fst (create_document_hash_record env id content text user metadata w) in
  let w1 := snd (create_document_hash_record env id content text user metadata w) in
  (returned r = false /\ DocumentHashes w1 = DocumentHashes w /\ HashChain w1 = HashChain w)
  \/ (exists row,
        returned r = false
        /\ DocumentHashes w1 = (DocumentHashes w ++ [row])%list
        /\ document_id row = id
        /\ HashChain w1 = HashChain w)
  \/ (exists row block,
        r = Ok (hash_id row)
        /\ DocumentHashes w1 = (DocumentHashes w ++ [row])%list
        /\ document_id row = id
        /\ HashChain w1 = (HashChain w ++ [block])%list
        /\ document_hashes block = [hash_id row]).
Proof.
  intros r w1.
  destruct (create_document_hash_record_cases env id content text user metadata w)
    as [H | (row & Hrows & Hid & [[Hr Hchain] | (block & Hr & Hchain & Hb)])].
  - left. exact H.
  - right. left. exists row. auto.
  - right. right. exists row, block. auto.
Qed.

Lemma perform_public_ledger env c w :
  public c = true ->
  let w1 := snd (perform env c w) in
  (DocumentHashes w1 = DocumentHashes w /\ HashChain w1 = HashChain w)
  \/ exists row,
       DocumentHashes w1 = (DocumentHashes w ++ [row])%list
       /\ (HashChain w1 = HashChain w
           \/ exists block, HashChain w1 = (HashChain w ++ [block])%list
                            /\ document_hashes block = [hash_id row]).
Proof.
  destruct c as [hashes | id content text user metadata | id content
                | content metadata | blob_name]; cbn [public perform]; [discriminate|..];
    intros _.
  - pose proof (create_document_hash_record_cases env id content text user metadata w) as H.
    destruct (create_document_hash_record env id content text user metadata w) as [r w1].
    cbn [fst snd] in *.
    destruct H as [(_ & Hrows & Hchain)
                  | (row & Hrows & _ & [[_ Hchain] | (block & _ & Hchain & Hb)])].
    + left. auto.
    + right. exists row. auto.
    + right. exists row. split; [exact Hrows|]. right. exists block. auto.
  - pose proof (verify_preserves_ledger env id content w) as H.
    destruct (verify_document_integrity env id content w) as [r w1]. cbn [snd] in *.
    left. unfold ledger in H. split; congruence.
  - pose proof (encrypt_preserves_ledger env content metadata w) as H.
    destruct (encrypt_document env content metadata w) as [r w1]. cbn [snd] in *.
    left. unfold ledger in H. split; congruence.
  - pose proof (decrypt_preserves_ledger env blob_name w) as H.
    destruct (decrypt_document env blob_name w) as [r w1]. cbn [snd] in *.
    left. unfold ledger in H. split; congruence.
Qed.

(** X10.  Blocks point at rows: along any sequence of public calls,
    whatever fails on the way, every block of the chain keeps listing
    exactly one identifier, which is that of a row of [DocumentHashes],
    and the chain never holds more blocks than the table holds rows. *)
Theorem run_blocks_reference_rows (env : Env) (calls : list Call) (w : World) :
  forallb public calls = true ->
  blocks_reference_rows w ->
  (length (HashChain w) <= length (DocumentHashes w))%nat ->
  blocks_reference_rows (run env calls w)
  /\ (length (HashChain (run env calls w)) <= length (DocumentHashes (run env calls w)))%nat.
Proof.
  revert w. induction calls as [|c calls IH]; intros w Hpub Href Hlen; [auto|].
  cbn [forallb] in Hpub. apply andb_prop in Hpub as [Hc Hpub].
  cbn [run fold_left]. apply (IH _ Hpub).
  - intros b Hb.
    destruct (perform_public_ledger env c w Hc)
      as [[Hrows Hchain] | (row & Hrows & [Hchain | (block & Hchain & Hblock)])].
    + rewrite Hchain in Hb. rewrite Hrows. exact (Href b Hb).
    + rewrite Hchain in Hb. rewrite Hrows.
      destruct (Href b Hb) as (r & Hr & Hbr). exists r. split; [|exact Hbr].
      apply elem_of_app. left. exact Hr.
    + rewrite Hchain in Hb. rewrite Hrows.
      apply elem_of_app in Hb as [Hb|Hb].
      * destruct (Href b Hb) as (r & Hr & Hbr). exists r. split; [|exact Hbr].
        apply elem_of_app. left. exact Hr.
      * apply list_elem_of_singleton in Hb. subst b. exists row. split; [|exact Hblock].
        apply elem_of_app. right. apply list_elem_of_singleton. reflexivity.
  - destruct (perform_public_ledger env c w Hc)
      as [[Hrows Hchain] | (row & Hrows & [Hchain | (block & Hchain & Hblock)])];
      rewrite Hrows, Hchain, ?length_app; cbn [length]; lia.
Qed.

Lemma run_blocks_reference_rows_witness :
  blocks_reference_rows
    (run chain_read_down_env
       [CreateDocumentHashRecord "doc-1" hello "hello world" "user@example.com" [];
        VerifyDocumentIntegrity "doc-1" hello;
        CreateDocumentHashRecord "doc-2" goodbye "" "user@example.com" []] empty_world)
  /\ (length (HashChain
                (run chain_read_down_env
                   [CreateDocumentHashRecord "doc-1" hello "hello world" "user@example.com" [];
                    VerifyDocumentIntegrity "doc-1" hello;
                    CreateDocumentHashRecord "doc-2" goodbye "" "user@example.com" []]
                   empty_world))
      <= length (DocumentHashes
                   (run chain_read_down_env
                      [CreateDocumentHashRecord "doc-1" hello "hello world" "user@example.com" [];
                       VerifyDocumentIntegrity "doc-1" hello;
                       CreateDocumentHashRecord "doc-2" goodbye "" "user@example.com" []]
                      empty_world)))%nat.
Proof.
  apply (run_blocks_reference_rows chain_read_down_env
           [CreateDocumentHashRecord "doc-1" hello "hello world" "user@example.com" [];
            VerifyDocumentIntegrity "doc-1" hello;
            CreateDocumentHashRecord "doc-2" goodbye "" "user@example.com" []] empty_world).
  - reflexivity.
  - intros b Hb. apply elem_of_nil in Hb. destruct Hb.
  - cbn. lia.
Defined.



(** ** Verification and the cache *)

Lemma is_throttled_admits now d c :
  fst (VerificationCache.is_throttled now d c) = false ->
  VerificationCache.is_throttled now d c = (false, recorded now d c).
Proof.
  unfold VerificationCache.is_throttled, recorded.
  destruct (match _ with Some _ => _ | None => _ end); [discriminate | reflexivity].
Qed.

(** X12.  Answer from the cache: on a call that is not throttled, a live
    entry with a non-empty result under the key of the document and the
    content hash is returned as it is; the ledger is not read, whatever it
    holds by then, and neither the tables nor the entries change. *)
Theorem verify_cache_hit (env : Env) (id : string) (content : bytes) (w : World)
    (entry : VerificationCache.CacheEntry) :
  not_throttled env id w ->
  VerificationCache._cache (cache w)
    !! VerificationCache._generate_cache_key id (Some (sha256_hexdigest content))
  = Some entry ->
  (clock env (S (tick w)) - VerificationCache.timestamp entry
   <= inject_Z (VerificationCache.ttl entry))%Q ->
  VerificationCache.data entry <> [] ->
  exists w',
    verify_document_integrity env id content w = (Ok (VerificationCache.data entry), w')
    /\ snapshot_reads w' = snapshot_reads w
    /\ ledger w' = ledger w
    /\ VerificationCache._cache (cache w') = VerificationCache._cache (cache w).
Proof.
  unfold not_throttled. intros Hgate Hkey Hlive Hdata.
  unfold verify_document_integrity, try_except, verify_body, cache_is_throttled, cache_get,
    time_time, next_tick, bind, ret, _calculate_file_hash.
  cbn. rewrite (is_throttled_admits _ _ _ Hgate). cbn. rewrite Hkey. cbn.
  rewrite (get_live _ _ _ (recorded (clock env (tick w)) id (cache w)) entry Hkey Hlive).
  cbn. destruct (VerificationCache.data entry) as [|kv d] eqn:E; [contradiction|].
  cbn. eexists. repeat split.
Qed.

Lemma verify_cache_hit_witness :
  exists w',
    verify_document_integrity calm_env "doc-1" hello cached_world
    = (Ok (VerificationCache.data verified_entry), w')
    /\ snapshot_reads w' = snapshot_reads cached_world
    /\ ledger w' = ledger cached_world
    /\ VerificationCache._cache (cache w') = VerificationCache._cache (cache cached_world).
Proof.
  apply (verify_cache_hit calm_env "doc-1" hello cached_world verified_entry).
  - reflexivity.
  - vm_compute. reflexivity.
  - vm_compute. discriminate.
  - discriminate.
Defined.

(** The ledger path stores what it returns. *)
Lemma verify_from_ledger_stores env id h w1 :
  snapshot_fault env (tick w1) = None ->
  exists w' entry,
    verify_from_ledger env id h w1
    = (Ok (ledger_result h (latest_hash_record id (DocumentHashes w1))), w')
    /\ VerificationCache._cache (cache w') !! VerificationCache._generate_cache_key id (Some h)
       = Some entry
    /\ VerificationCache.data entry
       = ledger_result h (latest_hash_record id (DocumentHashes w1))
    /\ VerificationCache.timestamp entry = clock env (S (tick w1))
    /\ VerificationCache.ttl entry
       = match latest_hash_record id (DocumentHashes w1) with
         | Some r => if String.eqb h (file_hash r) then 3600%Z else 1800%Z
         | None => 300%Z
         end
    /\ VerificationCache._request_timestamps (cache w')
       = VerificationCache._request_timestamps (cache w1)
    /\ (forall k, k <> VerificationCache._generate_cache_key id (Some h) ->
                  VerificationCache._cache (cache w') !! k
                  = VerificationCache._cache (cache w1) !! k)
    /\ tick w' = S (S (tick w1)).
Proof.
  intros Hread.
  unfold verify_from_ledger, snapshot, cache_set, time_time, next_tick, bind, ret, raise.
  cbn. rewrite Hread. cbn.
  destruct (latest_hash_record id (DocumentHashes w1)) as [r|]; cbn.
  - eexists. eexists. split; [reflexivity|]. cbn.
    unfold VerificationCache.set. cbn. rewrite lookup_insert_eq.
    split; [reflexivity|]. cbn.
    split; [reflexivity|]. split; [reflexivity|].
    split; [destruct (String.eqb h (file_hash r)); reflexivity|].
    split; [reflexivity|]. split; [|reflexivity].
    intros k Hk. rewrite lookup_insert_ne by congruence. reflexivity.
  - eexists. eexists. split; [reflexivity|]. cbn.
    unfold VerificationCache.set. cbn. rewrite lookup_insert_eq.
    split; [reflexivity|]. cbn. repeat split.
    intros k Hk. rewrite lookup_insert_ne by congruence. reflexivity.
Qed.

(** X13.  The ledger's answer is cached: a call that reads the ledger
    stores the result it returns under the key of the document and the
    content hash, to live one hour when the status is [VERIFIED], half an
    hour when it is [TAMPERED], five minutes when it is [NOT_FOUND]. *)
Theorem verify_stores_result (env : Env) (id : string) (content : bytes) (w : World) :
  not_throttled env id w ->
  cache_miss env id (sha256_hexdigest content) w ->
  (forall n, snapshot_fault env n = None) ->
  exists result w' entry,
    verify_document_integrity env id content w = (Ok result, w')
    /\ VerificationCache._cache (cache w')
         !! VerificationCache._generate_cache_key id (Some (sha256_hexdigest content))
       = Some entry
    /\ VerificationCache.data entry = result
    /\ ((dict_get "status" result = Some (PyStr "VERIFIED")
         /\ VerificationCache.ttl entry = 3600%Z)
        \/ (dict_get "status" result = Some (PyStr "TAMPERED")
            /\ VerificationCache.ttl entry = 1800%Z)
        \/ (dict_get "status" result = Some (PyStr "NOT_FOUND")
            /\ VerificationCache.ttl entry = 300%Z)).
Proof.
  intros Hgate Hmiss Hread.
  destruct (verify_body_reaches_ledger env id content w Hgate Hmiss) as (w1 & _ & Hbody).
  destruct (verify_from_ledger_stores env id (sha256_hexdigest content) w1 (Hread _))
    as (w' & entry & Hcall & Hkey & Hdata & _ & Httl & _).
  unfold verify_document_integrity, try_except. rewrite Hbody, Hcall.
  eexists. exists w', entry. split; [reflexivity|]. split; [exact Hkey|].
  split; [exact Hdata|]. rewrite Httl.
  destruct (latest_hash_record id (DocumentHashes w1)) as [r|]; cbn [ledger_result].
  - unfold record_result.
    destruct (String.eqb (sha256_hexdigest content) (file_hash r)).
    + left. split; reflexivity.
    + right. left. split; reflexivity.
  - right. right. split; reflexivity.
Qed.

Lemma verify_stores_result_witness :
  exists result w' entry,
    verify_document_integrity calm_env "doc-1" goodbye recorded_world = (Ok result, w')
    /\ VerificationCache._cache (cache w')
         !! VerificationCache._generate_cache_key "doc-1" (Some (sha256_hexdigest goodbye))
       = Some entry
    /\ VerificationCache.data entry = result
    /\ ((dict_get "status" result = Some (PyStr "VERIFIED")
         /\ VerificationCache.ttl entry = 3600%Z)
        \/ (dict_get "status" result = Some (PyStr "TAMPERED")
            /\ VerificationCache.ttl entry = 1800%Z)
        \/ (dict_get "status" result = Some (PyStr "NOT_FOUND")
            /\ VerificationCache.ttl entry = 300%Z)).
Proof.
  apply (verify_stores_result calm_env "doc-1" goodbye recorded_world).
  - vm_compute. reflexivity.
  - vm_compute. reflexivity.
  - intros n. reflexivity.
Defined.

(** X14.  Verification never raises and only reads: whatever the cache
    holds and whatever the collaborators answer,
    [verify_document_integrity] returns a result; it leaves the two ledger
    tables and the bucket as they were, sends nothing to the key service,
    uploads nothing, and reads the ledger at most once. *)
Theorem verify_never_raises (env : Env) (id : string) (content : bytes) (w : World) :
  exists result w',
    verify_document_integrity env id content w = (Ok result, w')
    /\ ledger w' = ledger w
    /\ blobs w' = blobs w
    /\ kms_requests w' = kms_requests w
    /\ upload_calls w' = upload_calls w
    /\ (snapshot_reads w' <= S (snapshot_reads w))%nat.
Proof.
  unfold verify_document_integrity, try_except, verify_body, verify_from_ledger,
    cache_is_throttled, cache_get, cache_set, snapshot, time_time, next_tick, bind, ret,
    raise, _calculate_file_hash.
  cbn.
  destruct (VerificationCache.is_throttled (clock env (tick w)) id (cache w)) as [b c1].
  destruct b; cbn.
  - destruct (VerificationCache._cache c1 !! _); cbn;
      [destruct (VerificationCache.get _ _ _ c1) as [r c2]; cbn;
       destruct (truthy_dict r); cbn|];
      eexists; eexists; (split; [reflexivity|]); cbn; repeat split; lia.
  - destruct (VerificationCache._cache c1 !! _); cbn;
      [destruct (VerificationCache.get _ _ _ c1) as [r c2]; cbn;
       destruct (truthy_dict r); cbn|];
      try (destruct (snapshot_fault env _); cbn;
           [|destruct (latest_hash_record _ _); cbn]);
      eexists; eexists; (split; [reflexivity|]); cbn; repeat split; lia.
Qed.

Lemma length_append (a b : string) :
  String.length (a ++ b) = (String.length a + String.length b)%nat.
Proof.
  induction a as [|c a IH]; [reflexivity|].
  rewrite append_cons. cbn [String.length]. rewrite IH. reflexivity.
Qed.

(** The key with a content hash is never the bare key of the same document. *)
Lemma hashed_key_not_bare id h :
  h <> "" ->
  VerificationCache._generate_cache_key id (Some h)
  <> VerificationCache._generate_cache_key id None.
Proof.
  intros Hh E. unfold VerificationCache._generate_cache_key in E.
  destruct h as [|c h]; [congruence|].
  apply (f_equal String.length) in E. rewrite !length_append in E.
  cbn [String.length] in E. lia.
Qed.

Lemma get_request_timestamps now d ch c :
  VerificationCache._request_timestamps (snd (VerificationCache.get now d ch c))
  = VerificationCache._request_timestamps c.
Proof.
  unfold VerificationCache.get.
  destruct (VerificationCache._cache c !! _) as [e|]; [|reflexivity].
  destruct (Qltb _ _); reflexivity.
Qed.

(** The cache after a call that passed the throttle gate: the request is
    on record, and the only entry that may be new is the one under the
    key of the document and the content hash. *)
Lemma verify_admitted_state env id content w :
  not_throttled env id w ->
  VerificationCache._request_timestamps
    (cache (snd (verify_document_integrity env id content w))) !! id
  = Some (clock env (tick w))
  /\ (tick w < tick (snd (verify_document_integrity env id content w)))%nat
  /\ forall k e,
       VerificationCache._cache (cache (snd (verify_document_integrity env id content w))) !! k
       = Some e ->
       k = VerificationCache._generate_cache_key id (Some (sha256_hexdigest content))
       \/ VerificationCache._cache (cache w) !! k = Some e.
Proof.
  unfold not_throttled. intros Hgate.
  unfold verify_document_integrity, try_except, verify_body, verify_from_ledger,
    cache_is_throttled, cache_get, cache_set, snapshot, time_time, next_tick, bind, ret,
    raise, _calculate_file_hash.
  cbn. rewrite (is_throttled_admits _ _ _ Hgate). cbn.
  assert (Hset : forall t r ttl c k e,
             VerificationCache._cache
               (VerificationCache.set t id r (Some (sha256_hexdigest content)) ttl c) !! k
             = Some e ->
             k = VerificationCache._generate_cache_key id (Some (sha256_hexdigest content))
             \/ VerificationCache._cache c !! k = Some e).
  { intros t r ttl c k e. unfold VerificationCache.set. cbn [VerificationCache._cache].
    destruct (decide (k = VerificationCache._generate_cache_key id
                             (Some (sha256_hexdigest content)))) as [->|Hne];
      [left; reflexivity|].
    rewrite lookup_insert_ne by congruence. right. assumption. }
  destruct (VerificationCache._cache (cache w) !! _) as [entry|] eqn:Hkey; cbn.
  - pose proof (VerificationCacheFacts.get_entries (clock env (S (tick w))) id
                  (Some (sha256_hexdigest content))
                  (recorded (clock env (tick w)) id (cache w))) as Hsub.
    pose proof (get_request_timestamps (clock env (S (tick w))) id
                  (Some (sha256_hexdigest content))
                  (recorded (clock env (tick w)) id (cache w))) as Hts.
    destruct (VerificationCache.get _ _ _ _) as [r c2]. cbn [snd] in Hsub, Hts. cbn.
    assert (Hc2 : VerificationCache._request_timestamps c2 !! id = Some (clock env (tick w))).
    { rewrite Hts. cbn. apply lookup_insert_eq. }
    destruct (truthy_dict r); cbn.
    + split; [exact Hc2|]. split; [lia|]. intros k e He. right. exact (Hsub k e He).
    + destruct (snapshot_fault env _); cbn.
      * split; [exact Hc2|]. split; [lia|]. intros k e He. right. exact (Hsub k e He).
      * destruct (latest_hash_record _ _); cbn; (split; [exact Hc2|]); (split; [lia|]);
          intros k e He; (apply Hset in He as [He|He]; [left; exact He|]);
          right; exact (Hsub k e He).
  - destruct (snapshot_fault env _); cbn.
    + split; [apply lookup_insert_eq|]. split; [lia|]. intros k e He. right. exact He.
    + destruct (latest_hash_record _ _); cbn; (split; [apply lookup_insert_eq|]);
        (split; [lia|]);
        intros k e He; (apply Hset in He as [He|He]; [left; exact He|]);
        right; exact He.
Qed.

(** X15.  The throttle after an accepted call: once a verification of a
    document has passed the throttle gate, a further verification of that
    document made less than 60 seconds after it, with the same content or
    another, returns the [THROTTLED] result without reading the ledger,
    although the first call may have cached its answer: the throttled call
    looks under the bare key of the document, where the first call stored
    nothing. *)
Theorem second_verification_throttled (env : Env) (id : string) (content content' : bytes)
    (w : World) :
  not_throttled env id w ->
  ~ (clock env (tick w) == 0)%Q ->
  VerificationCache._cache (cache w) !! VerificationCache._generate_cache_key id None = None ->
  (clock env (tick (snd (verify_document_integrity env id content w)))
   - clock env (tick w) < 60)%Q ->
  exists w2,
    verify_document_integrity env id content'
      (snd (verify_document_integrity env id content w)) = (Ok throttled_result, w2)
    /\ snapshot_reads w2 = snapshot_reads (snd (verify_document_integrity env id content w)).
Proof.
  intros Hgate Hnz Hbare Hsoon.
  destruct (verify_admitted_state env id content w Hgate) as (Hts & _ & Hentries).
  apply verify_throttled_uncached.
  - rewrite (VerificationCacheFacts.is_throttled_recent _ _ _ _ Hts Hnz Hsoon). reflexivity.
  - destruct (VerificationCache._cache
                (cache (snd (verify_document_integrity env id content w)))
              !! VerificationCache._generate_cache_key id None) as [e|] eqn:E;
      [exfalso|reflexivity].
    apply Hentries in E as [E|E]; [|congruence].
    symmetry in E. revert E. apply hashed_key_not_bare.
    apply sha256_hexdigest_nonempty.
Qed.

Lemma second_verification_throttled_witness :
  exists w2,
    verify_document_integrity calm_env "doc-1" hello
      (snd (verify_document_integrity calm_env "doc-1" hello recorded_world))
    = (Ok throttled_result, w2)
    /\ snapshot_reads w2
       = snapshot_reads (snd (verify_document_integrity calm_env "doc-1" hello recorded_world)).
Proof.
  apply (second_verification_throttled calm_env "doc-1" hello hello recorded_world).
  - vm_compute. reflexivity.
  - vm_compute. discriminate.
  - vm_compute. reflexivity.
  - vm_compute. reflexivity.
Defined.

(** A row appended with a timestamp no earlier than those of the
    document's other rows is the one the query returns. *)
Lemma latest_hash_record_appended id rows row :
  document_id row = id ->
  (forall r, r ∈ rows -> document_id r = id -> (timestamp r <= timestamp row)%Q) ->
  latest_hash_record id (rows ++ [row]) = Some row.
Proof.
  intros Hid Hlate. rewrite latest_hash_record_snoc.
  rewrite (proj2 (String.eqb_eq _ _) Hid).
  destruct (latest_hash_record id rows) as [a|] eqn:Ha; [|reflexivity].
  destruct (latest_hash_record_most_recent id rows a Ha) as (Hin & Haid & _).
  rewrite (proj2 (Qle_bool_iff _ _) (Hlate a Hin Haid)). reflexivity.
Qed.

(** X16.  Record, then verify: after [create_document_hash_record] has
    returned for a document (no row of the document carrying a later
    timestamp than the new one), a verification of that document that
    reaches the ledger answers from the new row: it reports the
    identifier the call returned and the SHA-256 of the recorded content
    as expected hash, with status [VERIFIED] when the content presented
    has that hash and [TAMPERED] when it has another. *)
Theorem verify_after_create (env : Env) (id : string) (content : bytes) (text user : string)
    (metadata : Dict) (current : bytes) (w : World) :
  ledger_answers env ->
  (forall r, r ∈ DocumentHashes w -> document_id r = id ->
             (timestamp r <= clock env (2 + tick w))%Q) ->
  not_throttled env id
    (snd (create_document_hash_record env id content text user metadata w)) ->
  cache_miss env id (sha256_hexdigest current)
    (snd (create_document_hash_record env id content text user metadata w)) ->
  exists hash_id result w2,
    fst (create_document_hash_record env id content text user metadata w) = Ok hash_id
    /\ verify_document_integrity env id current
         (snd (create_document_hash_record env id content text user metadata w))
       = (Ok result, w2)
    /\ dict_get "hash_id" result = Some (PyStr hash_id)
    /\ dict_get "expected_hash" result = Some (PyStr (sha256_hexdigest content))
    /\ dict_get "actual_hash" result = Some (PyStr (sha256_hexdigest current))
    /\ dict_get "status" result
       = Some (PyStr (if String.eqb (sha256_hexdigest current) (sha256_hexdigest content)
                      then "VERIFIED" else "TAMPERED"))
    /\ dict_get "verified" result
       = Some (PyBool (String.eqb (sha256_hexdigest current) (sha256_hexdigest content))).
Proof.
  intros Hledger Hlate.
  destruct (create_document_hash_record_returns env id content text user metadata w Hledger)
    as (w1 & row & block & Hcall & Hrows & Hhid & Hid & Hfile & _ & Hts & _).
  rewrite Hcall. cbn [fst snd]. intros Hgate Hmiss.
  destruct (verify_body_reaches_ledger env id current w1 Hgate Hmiss)
    as (w1' & (Hsame & _) & Hbody).
  destruct Hledger as (Hread & _).
  destruct (verify_from_ledger_returns env id (sha256_hexdigest current) w1' (Hread _))
    as (w2 & Hled & _).
  unfold verify_document_integrity, try_except. rewrite Hbody, Hled, Hsame, Hrows.
  rewrite (latest_hash_record_appended id (DocumentHashes w) row Hid)
    by (rewrite Hts; exact Hlate).
  exists (uuid4 env (tick w)). eexists. exists w2.
  split; [reflexivity|]. split; [reflexivity|].
  cbn [ledger_result]. unfold record_result. rewrite Hhid, Hfile.
  repeat split.
Qed.

Lemma verify_after_create_witness :
  exists hash_id result w2,
    fst (create_document_hash_record calm_env "doc-1" hello "hello world"
           "user@example.com" [] empty_world) = Ok hash_id
    /\ verify_document_integrity calm_env "doc-1" goodbye
         (snd (create_document_hash_record calm_env "doc-1" hello "hello world"
                 "user@example.com" [] empty_world))
       = (Ok result, w2)
    /\ dict_get "hash_id" result = Some (PyStr hash_id)
    /\ dict_get "expected_hash" result = Some (PyStr (sha256_hexdigest hello))
    /\ dict_get "actual_hash" result = Some (PyStr (sha256_hexdigest goodbye))
    /\ dict_get "status" result
       = Some (PyStr (if String.eqb (sha256_hexdigest goodbye) (sha256_hexdigest hello)
                      then "VERIFIED" else "TAMPERED"))
    /\ dict_get "verified" result
       = Some (PyBool (String.eqb (sha256_hexdigest goodbye) (sha256_hexdigest hello))).
Proof.
  apply (verify_after_create calm_env "doc-1" hello "hello world" "user@example.com" []
           goodbye empty_world).
  - split; [|split]; intros; [reflexivity | reflexivity | eexists; reflexivity].
  - intros r Hr. apply elem_of_nil in Hr. destruct Hr.
  - vm_compute. reflexivity.
  - vm_compute. reflexivity.
Defined.

(** ** Envelope encryption: what the calls touch *)

(** X17.  What [encrypt_document] touches, whatever the collaborators
    answer.  The ledger tables and the cache stay as they were.  The key
    service receives at most one request, which asks to wrap the generated
    data key: the content is never sent to it.  The bucket gains an object
    exactly when the call returns: then the object sits under the returned
    name, of the form [encrypted/<uuid>.enc], and holds a token of the
    symmetric cipher; when the call raises, the bucket is as it was. *)
Theorem encrypt_document_footprint (env : Env) (content : bytes) (metadata : Dict)
    (w : World) :
  let r := fst (encrypt_document env content metadata w) in
  let w' := snd (encrypt_document env content metadata w) in
  ledger w' = ledger w
  /\ cache w' = cache w
  /\ (kms_requests w' = kms_requests w
      \/ kms_requests w'
         = (kms_requests w
            ++ [KmsEncrypt (_get_encryption_key_name env) (Fernet_generate_key env (tick w))])%list)
  /\ match r with
     | Ok (blob_name, _) =>
         blob_name = "encrypted/" ++ uuid4 env (3 + tick w) ++ ".enc"
         /\ exists token attributes,
              Fernet_encrypt env (1 + tick w) (Fernet_generate_key env (tick w)) content
              = Ok token
              /\ blobs w' = <[blob_name := {| blob_content := token;
                                              blob_metadata := Some attributes |}]> (blobs w)
     | Raised _ => blobs w' = blobs w
     end.
Proof.
  unfold encrypt_document, encrypt, kms_call, upload_from_string,
    _get_working_storage_credentials, new_storage_client, uuid_uuid4, time_time,
    next_tick, try_except, bind, ret, raise, lift.
  cbn.
  destruct (Fernet_encrypt env _ _ _) as [ec|e]; cbn; [|repeat split; left; reflexivity].
  destruct (kms_encrypt env _ _ _) as [ed|e]; cbn; [|repeat split; right; reflexivity].
  destruct (upload_fault env (S (S (S (S (tick w)))))) as [e1|]; cbn.
  - destruct (working_credentials env _); cbn; [|repeat split; right; reflexivity].
    destruct (upload_fault env _) as [e2|]; cbn; [repeat split; right; reflexivity|].
    split; [reflexivity|]. split; [reflexivity|]. split; [right; reflexivity|].
    split; [reflexivity|]. eexists. eexists. split; reflexivity.
  - split; [reflexivity|]. split; [reflexivity|]. split; [right; reflexivity|].
    split; [reflexivity|]. eexists. eexists. split; reflexivity.
Qed.

(** X18.  What [decrypt_document] touches, whatever the bucket holds and
    whatever the collaborators answer: it writes nothing, neither to the
    bucket nor to the ledger tables nor to the cache, uploads nothing, and
    sends the key service at most one request, a decryption under the
    document encryption key. *)
Theorem decrypt_document_footprint (env : Env) (blob_name : string) (w : World) :
  let w' := snd (decrypt_document env blob_name w) in
  blobs w' = blobs w
  /\ ledger w' = ledger w
  /\ cache w' = cache w
  /\ upload_calls w' = upload_calls w
  /\ (kms_requests w' = kms_requests w
      \/ exists ciphertext,
           kms_requests w'
           = (kms_requests w ++ [KmsDecrypt (_get_encryption_key_name env) ciphertext])%list).
Proof.
  unfold decrypt_document, storage_fetch, storage_read, decrypt, kms_call, next_tick,
    bind, ret, raise, lift.
  cbn.
  repeat match goal with
         | |- context [match ?x with _ => _ end] =>
             lazymatch x with
             | context [match _ with _ => _ end] => fail
             | _ => destruct x; cbn
             end
         | |- context [if ?x then _ else _] =>
             lazymatch x with
             | context [match _ with _ => _ end] => fail
             | _ => destruct x; cbn
             end
         end;
    repeat split; first [left; reflexivity | right; eexists; reflexivity].
Qed.

(** X19.  Objects without the envelope tag: when the object exists and its
    attributes do not carry [encrypted_with = GCUL_envelope_encryption],
    [decrypt_document] sends the whole stored content to the key service
    for decryption and returns, or raises, what the key service answers;
    the symmetric cipher has no part in it. *)
Theorem decrypt_document_legacy (env : Env) (blob_name : string) (w : World) (b : Blob) :
  (forall n, storage_read_fault env n = None) ->
  blobs w !! blob_name = Some b ->
  (forall attributes, blob_metadata b = Some attributes ->
     dict_get "encrypted_with" attributes <> Some (PyStr "GCUL_envelope_encryption")) ->
  fst (decrypt_document env blob_name w)
  = kms_decrypt env (3 + tick w) (_get_encryption_key_name env) (blob_content b)
  /\ kms_requests (snd (decrypt_document env blob_name w))
     = (kms_requests w ++ [KmsDecrypt (_get_encryption_key_name env) (blob_content b)])%list.
Proof.
  intros Hread Hblob Hplain.
  unfold decrypt_document, storage_fetch, storage_read, decrypt, kms_call, next_tick,
    bind, ret, raise, lift.
  cbn. repeat (first [rewrite Hread | rewrite Hblob]; cbn).
  destruct (blob_metadata b) as [attributes|] eqn:Hmeta; cbn.
  - specialize (Hplain attributes eq_refl).
    destruct (dict_get "encrypted_with" attributes) as [[| | |tag|]|] eqn:Htag;
      rewrite ?andb_false_r; cbn;
      try (destruct (kms_decrypt env _ _ _); split; reflexivity).
    destruct (String.eqb_spec tag "GCUL_envelope_encryption") as [->|_];
      [congruence|].
    rewrite andb_false_r.
    destruct (kms_decrypt env _ _ _); split; reflexivity.
  - destruct (kms_decrypt env _ _ _); split; reflexivity.
Qed.

(** An object stored before envelope encryption: no attributes at all. *)
Lemma decrypt_document_legacy_witness :
  fst (decrypt_document calm_env "encrypted/old.enc"
         (with_blobs {[ "encrypted/old.enc" := {| blob_content := x01 :: hello;
                                                  blob_metadata := None |} ]} empty_world))
  = kms_decrypt calm_env 3 (_get_encryption_key_name calm_env) (x01 :: hello)
  /\ kms_requests
       (snd (decrypt_document calm_env "encrypted/old.enc"
               (with_blobs {[ "encrypted/old.enc" := {| blob_content := x01 :: hello;
                                                        blob_metadata := None |} ]}
                  empty_world)))
     = ([] ++ [KmsDecrypt (_get_encryption_key_name calm_env) (x01 :: hello)])%list.
Proof.
  apply (decrypt_document_legacy calm_env "encrypted/old.enc"
           (with_blobs {[ "encrypted/old.enc" := {| blob_content := x01 :: hello;
                                                    blob_metadata := None |} ]} empty_world)
           {| blob_content := x01 :: hello; blob_metadata := None |}).
  - intros n. reflexivity.
  - vm_compute. reflexivity.
  - intros attributes H. discriminate H.
Defined.

End ServiceExtras.

(** * Properties of the routes *)

Section RouteExtras.
Import GCULBlockchainService ServiceFacts MCPRoutes.

Lemma split_nonempty sep s : split sep s <> [].
Proof.
  destruct s as [|c s]; cbn [split]; [discriminate|].
  destruct (Ascii.eqb c sep); [discriminate|].
  destruct (split sep s); discriminate.
Qed.

(** The last segment holds no separator. *)
Lemma last_split_free sep s : occurs sep (List.last (split sep s) "") = false.
Proof.
  induction s as [|c s IH]; [reflexivity|].
  cbn [split]. destruct (Ascii.eqb c sep) eqn:E.
  - pose proof (split_nonempty sep s) as Hne.
    destruct (split sep s) as [|seg rest]; [contradiction|]. exact IH.
  - pose proof (split_nonempty sep s) as Hne.
    destruct (split sep s) as [|seg rest]; [contradiction|].
    destruct rest as [|seg' rest]; [|exact IH].
    cbn [List.last] in *. cbn [occurs]. rewrite E. exact IH.
Qed.

Lemma split_free sep s : occurs sep s = false -> split sep s = [s].
Proof.
  induction s as [|c s IH]; [reflexivity|].
  cbn [occurs split]. intros H. apply orb_false_elim in H as [Hc Hs].
  rewrite Hc, (IH Hs). reflexivity.
Qed.

Lemma split_app sep a t :
  split sep (a ++ String sep t) = (split sep a ++ split sep t)%list.
Proof.
  induction a as [|c a IH].
  - rewrite append_nil. cbn [split]. rewrite Ascii.eqb_refl. reflexivity.
  - rewrite append_cons. cbn [split]. rewrite IH.
    destruct (Ascii.eqb c sep); [reflexivity|].
    pose proof (split_nonempty sep a) as Hne.
    destruct (split sep a) as [|seg rest]; [contradiction|]. reflexivity.
Qed.

(** What follows the last separator is the last segment. *)
Lemma last_split_app sep a t :
  occurs sep t = false -> List.last (split sep (a ++ String sep t)) "" = t.
Proof.
  intros Ht. rewrite split_app, (split_free sep t Ht). apply last_last.
Qed.

Lemma occurs_app c a b : occurs c (a ++ b) = occurs c a || occurs c b.
Proof.
  induction a as [|d a IH]; [reflexivity|].
  rewrite append_cons. cbn [occurs]. rewrite IH. apply orb_assoc.
Qed.

(** A string that starts with [p] holds the characters of [p]. *)
Lemma startswith_occurs c s p :
  occurs c s = false -> occurs c p = true -> startswith s p = false.
Proof.
  intros Hs Hp. destruct (startswith s p) eqn:E; [|reflexivity].
  apply startswith_spec in E as [r ->]. rewrite occurs_app, Hp in Hs. discriminate Hs.
Qed.

(** The path computed from a [storageUrl] that is a string. *)
Lemma download_blob_path_url document_metadata url :
  dict_get "storageUrl" document_metadata = Some (PyStr url) ->
  List.last (split "/" url) "" <> "" ->
  download_blob_path (Some document_metadata)
  = Ok ("encrypted/" ++ List.last (split "/" url) "").
Proof.
  intros Hurl Hlast. unfold download_blob_path, dict_get_default.
  destruct document_metadata as [|kv d]; [discriminate Hurl|].
  cbn [truthy_dict negb]. change (default [] (Some (kv :: d))) with (kv :: d).
  rewrite Hurl. cbn [truthy].
  destruct (String.eqb_spec url "") as [->|_]; [exfalso; apply Hlast; reflexivity|].
  cbn [negb].
  destruct (String.eqb_spec (List.last (split "/" url) "") "") as [E|_]; [contradiction|].
  rewrite (startswith_occurs "/" _ "encrypted/" (last_split_free "/" url) eq_refl).
  reflexivity.
Qed.

(** X20.  Every path the download route hands to [decrypt_document] is
    [encrypted/] followed by a non-empty name without any slash: the
    characters after the last slash of the stored URL.  The alternative
    that would keep a name starting with [encrypted/] is never taken. *)
Theorem download_blob_path_prefix (document_metadata : option Dict) (blob_path : string) :
  download_blob_path document_metadata = Ok blob_path ->
  exists url,
    dict_get "storageUrl" (default [] document_metadata) = Some (PyStr url)
    /\ blob_path = "encrypted/" ++ List.last (split "/" url) ""
    /\ List.last (split "/" url) "" <> ""
    /\ occurs "/" (List.last (split "/" url) "") = false.
Proof.
  unfold download_blob_path, dict_get_default.
  destruct (truthy_dict document_metadata); cbn [negb]; [|discriminate].
  destruct (dict_get "storageUrl" (default [] document_metadata)) as [v|]; [|discriminate].
  destruct (truthy v) eqn:Hv; cbn [negb]; [|discriminate].
  destruct v as [|b|z|url|d]; try discriminate.
  destruct (String.eqb_spec (List.last (split "/" url) "") "") as [E|Hne]; [discriminate|].
  rewrite (startswith_occurs "/" _ "encrypted/" (last_split_free "/" url) eq_refl).
  cbn [negb]. intros [= <-]. exists url. repeat split; [exact Hne|].
  apply last_split_free.
Qed.

Lemma download_blob_path_prefix_witness :
  exists url,
    dict_get "storageUrl"
      (default [] (Some [("storageUrl",
                          PyStr "gs://legallens-secure-docs/encrypted/0f8c.enc")]))
    = Some (PyStr url)
    /\ "encrypted/0f8c.enc" = "encrypted/" ++ List.last (split "/" url) ""
    /\ List.last (split "/" url) "" <> ""
    /\ occurs "/" (List.last (split "/" url) "") = false.
Proof.
  apply (download_blob_path_prefix
           (Some [("storageUrl", PyStr "gs://legallens-secure-docs/encrypted/0f8c.enc")])
           "encrypted/0f8c.enc").
  reflexivity.
Defined.

Lemma storage_url_last bucket name :
  occurs "/" name = false ->
  List.last (split "/" (storage_url bucket ("encrypted/" ++ name))) "" = name.
Proof.
  intros Hname. unfold storage_url.
  replace ("gs://" ++ bucket ++ "/" ++ "encrypted/" ++ name)
    with (("gs://" ++ bucket ++ "/encrypted") ++ String "/" name)
    by (rewrite !append_assoc; reflexivity).
  apply last_split_app. exact Hname.
Qed.

Lemma plain_storage_url_last bucket document_id :
  occurs "/" document_id = false ->
  List.last (split "/" (plain_storage_url bucket document_id)) "" = document_id.
Proof.
  intros Hid. unfold plain_storage_url.
  replace ("gs://" ++ bucket ++ "/documents/" ++ document_id)
    with (("gs://" ++ bucket ++ "/documents") ++ String "/" document_id)
    by (rewrite !append_assoc; reflexivity).
  apply last_split_app. exact Hid.
Qed.

(** A file name goes into the header behind an ASCII text. *)
Lemma latin1_encodable_disposition file_name :
  latin1_encodable ("attachment; filename=" ++ file_name) = latin1_encodable file_name.
Proof. reflexivity. Qed.

(** X21.  Store, then download: when [encrypt_document] has stored a
    document and its [storageUrl] was recorded as
    [gs://<secure bucket>/<blob name>], as [store_document_with_gcul]
    records it, the download route finds the blob name again in that URL
    and decrypts exactly the content that was stored.  What it answers
    then depends on the file name, which is the recorded [fileName], or
    the document identifier when none is recorded: when the name holds
    characters up to U+00FF only, the response carries the stored content
    and the header [attachment; filename=<name>]; when it holds any other
    character, the response cannot be built and the route fails with
    status 500, although the document was decrypted.  The generated
    identifier must hold no slash; the bucket name may hold any. *)
Theorem download_after_store (env : Env) (rt : Runtime) (content : bytes) (metadata : Dict)
    (w : World) :
  key_service_inverts env ->
  cipher_inverts env ->
  upload_fault env (4 + tick w) = None ->
  (forall n, storage_read_fault env n = None) ->
  occurs "/" (uuid4 env (3 + tick w)) = false ->
  exists blob_name encryption_result w1,
    encrypt_document env content metadata w = (Ok (blob_name, encryption_result), w1)
    /\ forall document_id document_metadata file_name,
         dict_get "storageUrl" document_metadata
         = Some (PyStr (storage_url (secure_bucket env) blob_name)) ->
         dict_get_default "fileName" (PyStr document_id) document_metadata
         = PyStr file_name ->
         (latin1_encodable file_name = true ->
          exists w2,
            download_document env rt document_id (Some document_metadata) w1
            = (Ok {| response_content := content;
                     response_media_type := "application/octet-stream";
                     response_headers :=
                       [("Content-Disposition", "attachment; filename=" ++ file_name)] |},
               w2))
         /\ (latin1_encodable file_name = false ->
             fst (download_document env rt document_id (Some document_metadata) w1)
             = Raised ("500: Document download failed: "
                         ++ latin1_error rt ("attachment; filename=" ++ file_name))).
Proof.
  intros Hkms Hcipher Hup Hread Huuid.
  destruct (encrypt_document_returns env content metadata w Hkms Hcipher Hup)
    as (meta & w1 & Henc & _).
  eexists. exists meta, w1. split; [exact Henc|].
  intros document_id document_metadata file_name Hurl Hfile.
  destruct (decrypt_after_encrypt env content metadata w _ meta w1 w1
              Hkms Hcipher Hread Henc eq_refl) as (w2 & Hdec).
  assert (Hname : occurs "/" (uuid4 env (3 + tick w) ++ ".enc") = false)
    by (rewrite occurs_app, Huuid; reflexivity).
  assert (Hsuffix : uuid4 env (3 + tick w) ++ ".enc" <> "").
  { intros E. apply (f_equal String.length) in E. rewrite length_append in E.
    cbn in E. lia. }
  unfold download_document.
  rewrite (download_blob_path_url document_metadata _ Hurl);
    rewrite (storage_url_last _ _ Hname); [|exact Hsuffix].
  unfold try_except, bind, lift, raise. rewrite Hdec.
  change (default [] (Some document_metadata)) with document_metadata.
  rewrite Hfile. cbn [format_value]. unfold attachment_response.
  rewrite latin1_encodable_disposition.
  split; intros ->; [exists w2|]; reflexivity.
Qed.

Lemma download_after_store_witness :
  exists blob_name encryption_result w1,
    encrypt_document calm_env hello [("file_name", PyStr "hello.txt")] empty_world
    = (Ok (blob_name, encryption_result), w1)
    /\ forall document_id document_metadata file_name,
         dict_get "storageUrl" document_metadata
         = Some (PyStr (storage_url (secure_bucket calm_env) blob_name)) ->
         dict_get_default "fileName" (PyStr document_id) document_metadata
         = PyStr file_name ->
         (latin1_encodable file_name = true ->
          exists w2,
            download_document calm_env test_runtime document_id (Some document_metadata) w1
            = (Ok {| response_content := hello;
                     response_media_type := "application/octet-stream";
                     response_headers :=
                       [("Content-Disposition", "attachment; filename=" ++ file_name)] |},
               w2))
         /\ (latin1_encodable file_name = false ->
             fst (download_document calm_env test_runtime document_id
                    (Some document_metadata) w1)
             = Raised ("500: Document download failed: "
                         ++ latin1_error test_runtime
                              ("attachment; filename=" ++ file_name))).
Proof.
  apply (download_after_store calm_env test_runtime hello [("file_name", PyStr "hello.txt")]
           empty_world).
  - intros n name plaintext. exists (x01 :: plaintext).
    split; [reflexivity|]. split; [discriminate | reflexivity].
  - intros n k plaintext. exists (x80 :: plaintext). split; reflexivity.
  - reflexivity.
  - intros n. reflexivity.
  - vm_compute. reflexivity.
Defined.

(** The two answers on a stored document: a file name in Latin-1, and one
    in Chinese characters. *)
Example download_file_names :
  let w1 := snd (encrypt_document calm_env hello [] empty_world) in
  let stored file_name :=
    Some [("fileName", PyStr file_name);
          ("storageUrl",
           PyStr "gs://legallens-secure-docs/encrypted/00000000-0000-4000-8000-3.enc")] in
  (response_content
     <$> match fst (download_document calm_env test_runtime "doc-1"
                      (stored (decode_utf8 [x62; xc3; xa9; x2e; x70; x64; x66])) w1) with
         | Ok response => Some response
         | Raised _ => None
         end) = Some hello
  /\ returned (fst (download_document calm_env test_runtime "doc-1"
                      (stored (decode_utf8 [xe5; x90; x88; xe5; x90; x8c; x2e; x70; x64; x66]))
                      w1)) = false.
Proof. vm_compute. split; reflexivity. Qed.

(** X22.  A document stored without encryption cannot be downloaded: its
    [storageUrl] is [gs://<bucket>/documents/<document id>]; the download
    route keeps the document identifier, looks for the object
    [encrypted/<document id>] in the secure bucket, and, that object not
    being there, fails with status 500. *)
Theorem download_plain_document_fails (env : Env) (rt : Runtime) (bucket document_id : string)
    (document_metadata : Dict) (w : World) :
  document_id <> "" ->
  occurs "/" document_id = false ->
  dict_get "storageUrl" document_metadata
  = Some (PyStr (plain_storage_url bucket document_id)) ->
  storage_read_fault env (tick w) = None ->
  blobs w !! ("encrypted/" ++ document_id) = None ->
  fst (download_document env rt document_id (Some document_metadata) w)
  = Raised ("500: Document download failed: Encrypted blob not found: encrypted/"
              ++ document_id).
Proof.
  intros Hne Hid Hurl Hread Hblob.
  unfold download_document.
  rewrite (download_blob_path_url document_metadata _ Hurl);
    rewrite (plain_storage_url_last _ _ Hid); [|exact Hne].
  unfold try_except, decrypt_document, storage_read, next_tick, bind, ret, raise.
  cbn. rewrite Hread. cbn. rewrite Hblob. reflexivity.
Qed.

Lemma download_plain_document_fails_witness :
  fst (download_document calm_env test_runtime "0a1b2c3d4e5f6a7b8c9d_1700000000"
         (Some [("id", PyStr "0a1b2c3d4e5f6a7b8c9d_1700000000");
                ("storageUrl",
                 PyStr (plain_storage_url "legallens-docs" "0a1b2c3d4e5f6a7b8c9d_1700000000"))])
         recorded_world)
  = Raised ("500: Document download failed: Encrypted blob not found: encrypted/"
              ++ "0a1b2c3d4e5f6a7b8c9d_1700000000").
Proof.
  apply (download_plain_document_fails calm_env test_runtime "legallens-docs"
           "0a1b2c3d4e5f6a7b8c9d_1700000000").
  - discriminate.
  - reflexivity.
  - reflexivity.
  - reflexivity.
  - vm_compute. reflexivity.
Defined.

(** ** Document identifiers *)

Lemma length_substring n m s :
  String.length (substring n m s) = Nat.min m (String.length s - n).
Proof.
  revert n m. induction s as [|c s IH]; intros [|n] [|m]; cbn [substring String.length];
    rewrite ?IH; cbn [String.length]; lia.
Qed.

Lemma length_last_chars n s :
  (n <= String.length s)%nat -> String.length (last_chars n s) = n.
Proof. intros H. unfold last_chars. rewrite length_substring. lia. Qed.

Lemma length_pretty_N_go_ge x s : (String.length s <= String.length (pretty_N_go x s))%nat.
Proof.
  revert s. induction x as [x IH] using (well_founded_induction N.lt_wf_0). intros s.
  destruct (decide (x = 0%N)) as [->|Hx]; [rewrite pretty_N_go_0; lia|].
  rewrite pretty_N_go_step by lia.
  etransitivity; [|apply IH; apply N.div_lt; lia]. cbn [String.length]. lia.
Qed.

(** A number of at least [10^k] prints with more than [k] digits. *)
Lemma length_pretty_N_go_digits k x s :
  (10 ^ N.of_nat k <= x)%N ->
  (k + 1 + String.length s <= String.length (pretty_N_go x s))%nat.
Proof.
  revert x s. induction k as [|k IH]; intros x s Hx.
  - change (10 ^ N.of_nat 0)%N with 1%N in Hx.
    rewrite pretty_N_go_step by lia.
    etransitivity; [|apply length_pretty_N_go_ge]. cbn [String.length]. lia.
  - rewrite Nat2N.inj_succ, N.pow_succ_r' in Hx.
    assert (Hpos : (0 < 10 ^ N.of_nat k)%N) by (apply N.neq_0_lt_0, N.pow_nonzero; lia).
    rewrite pretty_N_go_step by lia.
    etransitivity; [|apply IH].
    + cbn [String.length]. lia.
    + apply N.div_le_lower_bound; lia.
Qed.

Lemma length_pretty_Z z :
  (1000000000 <= z)%Z -> (10 <= String.length (pretty z))%nat.
Proof.
  intros Hz. destruct z as [|p|p]; [lia| |lia].
  change (pretty (Z.pos p)) with (pretty (N.pos p)).
  unfold pretty, pretty_N. rewrite decide_False by discriminate.
  pose proof (length_pretty_N_go_digits 9 (N.pos p) "") as H.
  cbn [String.length] in H. etransitivity; [|apply H]; [lia|].
  change (10 ^ N.of_nat 9)%N with 1000000000%N. lia.
Qed.

Lemma int_of_float_ge (x : Q) (z : Z) : (inject_Z z <= x)%Q -> (0 <= z)%Z -> (z <= int_of_float x)%Z.
Proof.
  unfold Qle, int_of_float. cbn [Qnum Qden inject_Z]. intros Hle Hz.
  rewrite Z.quot_div_nonneg by nia.
  apply Z.div_le_lower_bound; lia.
Qed.

(** X23.  The shape of a document identifier: for a clock past
    1 000 000 000 seconds (any date since 2001),
    [generate_short_document_id] returns 31 characters: the first 20
    hexadecimal characters of the SHA-256 of [user_email + "_" + file_name],
    an underscore, and 10 characters of the printed clock reading.  It
    fits the 36 characters of the ledger column. *)
Theorem generate_short_document_id_shape (now : Q) (user_email file_name : string) :
  (1000000000 <= now)%Q ->
  exists stamp,
    generate_short_document_id now user_email file_name
    = substring 0 20 (sha256_hexdigest (encode_utf8 (user_email ++ "_" ++ file_name)))
        ++ "_" ++ stamp
    /\ String.length stamp = 10%nat
    /\ String.length (generate_short_document_id now user_email file_name) = 31%nat.
Proof.
  intros Hnow. unfold generate_short_document_id.
  assert (Hstamp : String.length (last_chars 10 (pretty (int_of_float now))) = 10%nat).
  { apply length_last_chars, length_pretty_Z.
    apply (int_of_float_ge now 1000000000); [exact Hnow | lia]. }
  eexists. split; [reflexivity|]. split; [exact Hstamp|].
  rewrite !length_append, Hstamp, length_substring, sha256_hexdigest_length.
  reflexivity.
Qed.

Lemma generate_short_document_id_shape_witness :
  exists stamp,
    generate_short_document_id 1700000000 "user@example.com" "lease.pdf"
    = substring 0 20 (sha256_hexdigest (encode_utf8 ("user@example.com" ++ "_" ++ "lease.pdf")))
        ++ "_" ++ stamp
    /\ String.length stamp = 10%nat
    /\ String.length (generate_short_document_id 1700000000 "user@example.com" "lease.pdf")
       = 31%nat.
Proof.
  apply (generate_short_document_id_shape 1700000000 "user@example.com" "lease.pdf").
  vm_compute. discriminate.
Defined.

End RouteExtras.

(** * Properties of the audit trail *)

Section AuditTrailExtras.
Import GCULBlockchainService ServiceFacts.

(** ** Ordered queries *)

Lemma insert_by_permutation {A} (before : A -> A -> bool) x l :
  insert_by before x l ≡ₚ x :: l.
Proof.
  induction l as [|y l IH]; cbn [insert_by]; [reflexivity|].
  destruct (before x y); [reflexivity|].
  rewrite IH. apply Permutation_swap.
Qed.

Lemma sort_by_permutation {A} (before : A -> A -> bool) l : sort_by before l ≡ₚ l.
Proof.
  induction l as [|x l IH]; [reflexivity|].
  cbn [sort_by fold_right]. fold (sort_by before l).
  rewrite insert_by_permutation, IH. reflexivity.
Qed.

Lemma insert_by_sorted {A} (R : A -> A -> Prop) (before : A -> A -> bool) x l :
  (forall a b, before a b = true -> R a b) ->
  (forall a b, before a b = false -> R b a) ->
  Sorted R l -> Sorted R (insert_by before x l).
Proof.
  intros Hyes Hno Hl. induction Hl as [|y l Hl IH Hhd]; cbn [insert_by].
  - repeat constructor.
  - destruct (before x y) eqn:E.
    + constructor; [constructor; assumption|]. constructor. apply Hyes, E.
    + constructor; [exact IH|].
      destruct Hhd as [|z l Hyz]; cbn [insert_by].
      * constructor. apply Hno, E.
      * destruct (before x z); constructor; [apply Hno, E | exact Hyz].
Qed.

Lemma sort_by_sorted {A} (R : A -> A -> Prop) (before : A -> A -> bool) l :
  (forall a b, before a b = true -> R a b) ->
  (forall a b, before a b = false -> R b a) ->
  Sorted R (sort_by before l).
Proof.
  intros Hyes Hno. induction l as [|x l IH]; [constructor|].
  cbn [sort_by fold_right]. apply insert_by_sorted; assumption.
Qed.

(** The rows of a document, each once, oldest first. *)
Lemma hash_records_by_time_spec id rows :
  hash_records_by_time id rows ≡ₚ List.filter (fun r => String.eqb (document_id r) id) rows
  /\ StronglySorted (fun a b => (timestamp a <= timestamp b)%Q) (hash_records_by_time id rows).
Proof.
  unfold hash_records_by_time. split; [apply sort_by_permutation|].
  apply Sorted_StronglySorted.
  - intros a b c Hab Hbc. exact (Qle_trans _ _ _ Hab Hbc).
  - apply sort_by_sorted.
    + intros a b H. apply Qle_bool_iff. exact H.
    + intros a b H. apply Qlt_le_weak, Qnot_le_lt. intros Hle.
      apply Qle_bool_iff in Hle. congruence.
Qed.

Lemma insert_by_end {A} (before : A -> A -> bool) x l :
  Forall (fun y => before x y = false) l -> insert_by before x l = (l ++ [x])%list.
Proof.
  induction 1 as [|y l Hy _ IH]; [reflexivity|].
  cbn [insert_by]. rewrite Hy, IH. reflexivity.
Qed.

(** Rows numbered in increasing order come back in reverse. *)
Lemma sort_by_block_number_rev (o : Z) (l : list ChainBlock) :
  (forall k b, l !! k = Some b -> block_number b = (o + Z.of_nat k)%Z) ->
  sort_by (fun a b => (block_number b <? block_number a)%Z) l = rev l.
Proof.
  revert o. induction l as [|x l IH]; intros o Hnum; [reflexivity|].
  cbn [sort_by fold_right rev].
  change (fold_right (insert_by (fun a b => (block_number b <? block_number a)%Z)) [] l)
    with (sort_by (fun a b => (block_number b <? block_number a)%Z) l).
  rewrite (IH (o + 1)%Z).
  - apply insert_by_end. apply Forall_forall. intros y Hy.
    apply (proj1 (list_elem_of_In _ _)), (proj2 (in_rev l y)) in Hy.
    apply (proj2 (list_elem_of_In _ _)), list_elem_of_lookup in Hy as [k Hk].
    pose proof (Hnum 0%nat x eq_refl) as Hx.
    pose proof (Hnum (S k) y Hk) as Hyn.
    apply Z.ltb_ge. lia.
  - intros k b Hk. rewrite (Hnum (S k) b Hk). lia.
Qed.

Lemma latest_blocks_continuous n chain :
  chain_continuous chain -> latest_blocks n chain = firstn n (rev chain).
Proof.
  intros Hc. unfold latest_blocks. f_equal.
  apply (sort_by_block_number_rev 0). intros k b Hk.
  destruct (Hc k b Hk) as (Hn & _). lia.
Qed.

(** With both queries answered, the trail is built from their rows. *)
Lemma get_document_audit_trail_returns env id w :
  snapshot_fault env (tick w) = None ->
  snapshot_fault env (S (tick w)) = None ->
  exists w',
    get_document_audit_trail env id w
    = (Ok {| trail_document_id := id;
             trail_hash_records :=
               map (hash_record_entry env) (hash_records_by_time id (DocumentHashes w));
             trail_chain_blocks :=
               map (chain_block_entry env) (latest_blocks 5 (HashChain w));
             trail_total_records :=
               Some (Z.of_nat (length (map (hash_record_entry env)
                                         (hash_records_by_time id (DocumentHashes w)))));
             trail_error := None |}, w')
    /\ ledger w' = ledger w.
Proof.
  intros H1 H2.
  unfold get_document_audit_trail, try_except, in_snapshot, execute_sql, next_tick,
    bind, ret, raise.
  cbn. rewrite H1. cbn. rewrite H2. cbn. eexists. split; reflexivity.
Qed.

(** X24.  The records of the audit trail: when both queries are answered,
    [get_document_audit_trail] lists one entry for each row of
    [DocumentHashes] that carries the document identifier, no other, in
    ascending order of timestamp, and [total_records] is the number of
    these rows; the result has no [error]. *)
Theorem audit_trail_records (env : Env) (id : string) (w : World) :
  snapshot_fault env (tick w) = None ->
  snapshot_fault env (S (tick w)) = None ->
  exists rows trail w',
    get_document_audit_trail env id w = (Ok trail, w')
    /\ trail_hash_records trail = map (hash_record_entry env) rows
    /\ rows ≡ₚ List.filter (fun r => String.eqb (document_id r) id) (DocumentHashes w)
    /\ StronglySorted (fun a b => (timestamp a <= timestamp b)%Q) rows
    /\ trail_total_records trail
       = Some (Z.of_nat (length (List.filter (fun r => String.eqb (document_id r) id)
                                   (DocumentHashes w))))
    /\ trail_error trail = None.
Proof.
  intros H1 H2.
  destruct (get_document_audit_trail_returns env id w H1 H2) as (w' & Hcall & _).
  destruct (hash_records_by_time_spec id (DocumentHashes w)) as [Hperm Hsorted].
  exists (hash_records_by_time id (DocumentHashes w)). eexists. exists w'.
  split; [exact Hcall|]. cbn [trail_hash_records trail_total_records trail_error].
  split; [reflexivity|]. split; [exact Hperm|]. split; [exact Hsorted|].
  split; [|reflexivity].
  rewrite length_map, (Permutation_length Hperm). reflexivity.
Qed.

Lemma audit_trail_records_witness :
  exists rows trail w',
    get_document_audit_trail calm_env "doc-1" recorded_world = (Ok trail, w')
    /\ trail_hash_records trail = map (hash_record_entry calm_env) rows
    /\ rows ≡ₚ List.filter (fun r => String.eqb (document_id r) "doc-1")
                 (DocumentHashes recorded_world)
    /\ StronglySorted (fun a b => (timestamp a <= timestamp b)%Q) rows
    /\ trail_total_records trail
       = Some (Z.of_nat (length (List.filter (fun r => String.eqb (document_id r) "doc-1")
                                   (DocumentHashes recorded_world))))
    /\ trail_error trail = None.
Proof.
  apply (audit_trail_records calm_env "doc-1" recorded_world); reflexivity.
Defined.

(** X25.  The blocks of the audit trail: on a ledger whose chain started
    empty, after any sequence of calls, the [chain_blocks] of an answered
    audit trail are the entries of the five blocks appended last (all of
    them when there are fewer), newest first.  They are the same for every
    document: the query does not look at the document identifier. *)
Theorem audit_trail_chain_blocks (env : Env) (calls : list Call) (w : World) (id : string) :
  HashChain w = [] ->
  snapshot_fault env (tick (run env calls w)) = None ->
  snapshot_fault env (S (tick (run env calls w))) = None ->
  exists trail w',
    get_document_audit_trail env id (run env calls w) = (Ok trail, w')
    /\ trail_chain_blocks trail
       = map (chain_block_entry env) (firstn 5 (rev (HashChain (run env calls w)))).
Proof.
  intros Hempty H1 H2.
  destruct (get_document_audit_trail_returns env id _ H1 H2) as (w' & Hcall & _).
  eexists. exists w'. split; [exact Hcall|]. cbn [trail_chain_blocks].
  rewrite latest_blocks_continuous; [reflexivity|].
  apply run_chain_continuous. rewrite Hempty. apply chain_continuous_nil.
Qed.

Lemma audit_trail_chain_blocks_witness :
  exists trail w',
    get_document_audit_trail calm_env "doc-1" (run calm_env three_appends empty_world)
    = (Ok trail, w')
    /\ trail_chain_blocks trail
       = map (chain_block_entry calm_env)
           (firstn 5 (rev (HashChain (run calm_env three_appends empty_world)))).
Proof.
  apply (audit_trail_chain_blocks calm_env three_appends empty_world "doc-1"); reflexivity.
Defined.

(** X26.  The audit trail never raises and only reads: whatever the ledger
    store answers, [get_document_audit_trail] returns a result for the
    document asked about, after one snapshot, with the tables, the bucket
    and the cache as they were and nothing sent to the key service.  When
    a query failed the result carries the [error], both lists empty, also
    when the first query had been answered, and no [total_records]. *)
Theorem audit_trail_never_raises (env : Env) (id : string) (w : World) :
  exists trail w',
    get_document_audit_trail env id w = (Ok trail, w')
    /\ ledger w' = ledger w
    /\ blobs w' = blobs w
    /\ cache w' = cache w
    /\ kms_requests w' = kms_requests w
    /\ snapshot_reads w' = S (snapshot_reads w)
    /\ trail_document_id trail = id
    /\ match trail_error trail with
       | Some e =>
           (snapshot_fault env (tick w) = Some e
            \/ (snapshot_fault env (tick w) = None
                /\ snapshot_fault env (S (tick w)) = Some e))
           /\ trail_hash_records trail = []
           /\ trail_chain_blocks trail = []
           /\ trail_total_records trail = None
       | None =>
           trail_total_records trail
           = Some (Z.of_nat (length (trail_hash_records trail)))
       end.
Proof.
  unfold get_document_audit_trail, try_except, in_snapshot, execute_sql, next_tick,
    bind, ret, raise.
  cbn.
  destruct (snapshot_fault env (tick w)) as [e|]; cbn.
  - eexists. eexists. split; [reflexivity|]. cbn. repeat split. left. reflexivity.
  - destruct (snapshot_fault env (S (tick w))) as [e|]; cbn.
    + eexists. eexists. split; [reflexivity|]. cbn. repeat split. right. split; reflexivity.
    + eexists. eexists. split; [reflexivity|]. cbn. repeat split.
Qed.

End AuditTrailExtras.
